(** * khitomer: task intake, planning and the implementation pipeline

    A shallow embedding of the Go sources of khitomer and the properties
    its specification states about them.

    Conventions of the embedding.
    - A Go [string] is a sequence of bytes: Rocq's [string] (a list of
      [ascii]); [len(s)] is [String.length s].
    - Go [int] values and runes are [Z].
    - A Go [error] is its message; a nil error is [None].
    - A function that returns a pointer and an error, the pointer nil
      exactly when the error is not, returns a sum: [inl] the value, [inr]
      the error. A function whose value is a struct or a slice keeps the
      pair of the source.
    - A pointer field that may be nil is an [option].
    - Collaborators outside the repository (the Jira and GitHub APIs, the
      completion backend, the Temporal runtime, the Go scheduler) are
      oracles: functions or scripts the definitions are parameterised by.
    - Logging calls have no effect on control flow and are left out. *)

From Stdlib Require Import ZArith String Ascii List Lia Bool.
From stdpp Require Import base option list gmap strings pretty.
Import ListNotations.

Local Open Scope string_scope.
Local Open Scope Z_scope.

Definition error : Type := string.

(** ** pkg/types *)

Module Task.
Record t : Type := mk {
  JiraTicketID : string;
  Title : string;
  Description : string;
  Status : string;
  Assignee : string;
  RepositoryOwner : string;
  RepositoryName : string;
  RepositoryURL : string;
  BaseBranch : string;
  CreatedAt : Z (* time.Time, as an instant; never read *)
}.
End Task.

Module RepositoryInfo.
Record t : Type := mk {
  Owner : string;
  Name : string;
  BaseBranch : string;
  FeatureBranch : string;
  CloneURL : string
}.
End RepositoryInfo.

Module PRInfo.
Record t : Type := mk {
  PRNumber : Z;
  PRURL : string;
  Title : string;
  Description : string;
  Status : string
}.
End PRInfo.

(** The declarations of [PlanStep] and [ImplementationPlan] are not among
    the sources at hand; the fields are those the planner and the workflow
    read and write. *)
Module PlanStep.
Record t : Type := mk {
  Order : Z;
  Description : string;
  ActivityType : string;
  Parameters : gmap string string
}.
End PlanStep.

Module ImplementationPlan.
Record t : Type := mk {
  Summary : string;
  Steps : list PlanStep.t;
  FilesToModify : list string;
  FilesToCreate : list string;
  EstimatedComplexity : string
}.
End ImplementationPlan.

(** ** Go strings: bytes, UTF-8 and package [strings] *)

Definition byte (c : ascii) : Z := Z.of_N (N_of_ascii c).
Definition chr (x : Z) : ascii := ascii_of_N (Z.to_N x).
Definition nl : string := String (chr 10) "".

(** [s[n:]] and [s[:n]] for an index within bounds. *)
Fixpoint slice_from (s : string) (n : nat) {struct n} : string :=
  match n, s with
  | O, _ => s
  | S n', String _ s' => slice_from s' n'
  | S _, EmptyString => EmptyString
  end.

Fixpoint slice_to (s : string) (n : nat) {struct n} : string :=
  match n, s with
  | O, _ => EmptyString
  | S n', String c s' => String c (slice_to s' n')
  | S _, EmptyString => EmptyString
  end.

(** [t] occurs in [s]. *)
Definition occurs (t s : string) : Prop := exists pre post, s = pre +:+ t +:+ post.

Module Utf8.

Definition RuneError : Z := 0xFFFD.
Definition MaxRune : Z := 0x10FFFF.

(** A continuation byte: [locb <= b && b <= hicb]. *)
Definition cont (x : Z) : bool := (0x80 <=? x) && (x <=? 0xBF).

(** The rune at the head of [s] and its width in bytes, as the [range]
    loop over a string computes them: a byte below 0x80 is itself; an
    ill-formed sequence gives [RuneError] and width 1. *)
Definition decoderune (s : string) : Z * nat :=
  match s with
  | EmptyString => (RuneError, 1%nat)
  | String c0 s1 =>
    let b0 := byte c0 in
    if b0 <? 0x80 then (b0, 1%nat)
    else if (0xC0 <=? b0) && (b0 <? 0xE0) then
      match s1 with
      | String c1 _ =>
        let r := Z.lor (Z.shiftl (Z.land b0 0x1F) 6) (Z.land (byte c1) 0x3F) in
        if cont (byte c1) && (0x7F <? r) then (r, 2%nat) else (RuneError, 1%nat)
      | _ => (RuneError, 1%nat)
      end
    else if (0xE0 <=? b0) && (b0 <? 0xF0) then
      match s1 with
      | String c1 (String c2 _) =>
        let r := Z.lor (Z.lor (Z.shiftl (Z.land b0 0x0F) 12)
                              (Z.shiftl (Z.land (byte c1) 0x3F) 6))
                       (Z.land (byte c2) 0x3F) in
        if cont (byte c1) && cont (byte c2) && (0x7FF <? r)
           && negb ((0xD800 <=? r) && (r <=? 0xDFFF))
        then (r, 3%nat) else (RuneError, 1%nat)
      | _ => (RuneError, 1%nat)
      end
    else if (0xF0 <=? b0) && (b0 <? 0xF8) then
      match s1 with
      | String c1 (String c2 (String c3 _)) =>
        let r := Z.lor (Z.lor (Z.lor (Z.shiftl (Z.land b0 0x07) 18)
                                     (Z.shiftl (Z.land (byte c1) 0x3F) 12))
                              (Z.shiftl (Z.land (byte c2) 0x3F) 6))
                       (Z.land (byte c3) 0x3F) in
        if cont (byte c1) && cont (byte c2) && cont (byte c3)
           && (0xFFFF <? r) && (r <=? MaxRune)
        then (r, 4%nat) else (RuneError, 1%nat)
      | _ => (RuneError, 1%nat)
      end
    else (RuneError, 1%nat)
  end.

(** The runes [for _, r := range s] visits, in order. [skip] counts the
    bytes of the current rune still to pass over. *)
Fixpoint runes_from (skip : nat) (s : string) : list Z :=
  match s with
  | EmptyString => []
  | String _ s' =>
    match skip with
    | S k => runes_from k s'
    | O => let '(r, w) := decoderune s in r :: runes_from (Nat.pred w) s'
    end
  end.

Definition runes (s : string) : list Z := runes_from 0 s.

(** [string(r)]: the UTF-8 encoding of a rune. *)
Definition string_of_rune (r : Z) : string :=
  if (0 <=? r) && (r <=? 0x7F) then String (chr r) ""
  else if (0 <=? r) && (r <=? 0x7FF) then
    String (chr (Z.lor 0xC0 (Z.shiftr r 6)))
      (String (chr (Z.lor 0x80 (Z.land r 0x3F))) "")
  else if (r <? 0) || (MaxRune <? r) || ((0xD800 <=? r) && (r <=? 0xDFFF)) then
    String (chr 0xEF) (String (chr 0xBF) (String (chr 0xBD) ""))
  else if r <=? 0xFFFF then
    String (chr (Z.lor 0xE0 (Z.shiftr r 12)))
      (String (chr (Z.lor 0x80 (Z.land (Z.shiftr r 6) 0x3F)))
        (String (chr (Z.lor 0x80 (Z.land r 0x3F))) ""))
  else
    String (chr (Z.lor 0xF0 (Z.shiftr r 18)))
      (String (chr (Z.lor 0x80 (Z.land (Z.shiftr r 12) 0x3F)))
        (String (chr (Z.lor 0x80 (Z.land (Z.shiftr r 6) 0x3F)))
          (String (chr (Z.lor 0x80 (Z.land r 0x3F))) ""))).

End Utf8.

Module GoStrings.

Definition HasPrefix (s p : string) : bool := String.prefix p s.

Definition TrimPrefix (s p : string) : string :=
  if HasPrefix s p then slice_from s (String.length p) else s.

Definition HasSuffix (s suf : string) : bool :=
  (String.length suf <=? String.length s)%nat
  && String.eqb (slice_from s (String.length s - String.length suf)%nat) suf.

Definition TrimSuffix (s suf : string) : string :=
  if HasSuffix s suf then slice_to s (String.length s - String.length suf)%nat else s.

(** [strings.Index]: the byte index of the first occurrence of [sub] in
    [s], or -1. *)
Fixpoint Index_at (s sub : string) (i : Z) : Z :=
  if String.prefix sub s then i
  else match s with
       | EmptyString => -1
       | String _ s' => Index_at s' sub (i + 1)
       end.

Definition Index (s sub : string) : Z := Index_at s sub 0.

(** [strings.Split] for a one-byte separator, the only use in the sources. *)
Fixpoint Split (s : string) (sep : ascii) : list string :=
  match s with
  | EmptyString => [EmptyString]
  | String c s' =>
    if Ascii.eqb c sep then EmptyString :: Split s' sep
    else match Split s' sep with
         | h :: t => String c h :: t
         | [] => [String c EmptyString]
         end
  end.

(** White space as [unicode.IsSpace] defines it, by UTF-8 encoding:
    U+0009..U+000D, U+0020, U+0085, U+00A0, U+1680, U+2000..U+200A,
    U+2028, U+2029, U+202F, U+205F, U+3000. *)
Definition bytes (l : list Z) : string :=
  fold_right (fun x s => String (chr x) s) EmptyString l.

Definition white_space : list string :=
  map bytes
    [ [0x09]; [0x0A]; [0x0B]; [0x0C]; [0x0D]; [0x20];
      [0xC2; 0x85]; [0xC2; 0xA0]; [0xE1; 0x9A; 0x80];
      [0xE2; 0x80; 0x80]; [0xE2; 0x80; 0x81]; [0xE2; 0x80; 0x82];
      [0xE2; 0x80; 0x83]; [0xE2; 0x80; 0x84]; [0xE2; 0x80; 0x85];
      [0xE2; 0x80; 0x86]; [0xE2; 0x80; 0x87]; [0xE2; 0x80; 0x88];
      [0xE2; 0x80; 0x89]; [0xE2; 0x80; 0x8A]; [0xE2; 0x80; 0xA8];
      [0xE2; 0x80; 0xA9]; [0xE2; 0x80; 0xAF]; [0xE2; 0x81; 0x9F];
      [0xE3; 0x80; 0x80] ].

(** The number of bytes of the white-space rune [s] begins with, 0 when it
    begins with none. *)
Definition space_prefix (s : string) : nat :=
  match filter (fun w => bool_decide (String.prefix w s = true)) white_space with
  | w :: _ => String.length w
  | [] => O
  end.

(** The number of bytes of the white-space rune [s] ends with. *)
Definition space_suffix (s : string) : nat :=
  match filter (fun w => bool_decide (HasSuffix s w = true)) white_space with
  | w :: _ => String.length w
  | [] => O
  end.

Fixpoint TrimLeft_fuel (fuel : nat) (s : string) : string :=
  match fuel with
  | O => s
  | S fuel' =>
    match space_prefix s with
    | O => s
    | n => TrimLeft_fuel fuel' (slice_from s n)
    end
  end.

Fixpoint TrimRight_fuel (fuel : nat) (s : string) : string :=
  match fuel with
  | O => s
  | S fuel' =>
    match space_suffix s with
    | O => s
    | n => TrimRight_fuel fuel' (slice_to s (String.length s - n)%nat)
    end
  end.

(** [strings.TrimSpace]: every leading and trailing white-space rune
    removed. Each round removes at least one byte, so [length s] rounds
    are enough. *)
Definition TrimSpace (s : string) : string :=
  let l := TrimLeft_fuel (String.length s) s in
  TrimRight_fuel (String.length l) l.

End GoStrings.

(** ** internal/planner *)

Module Planner.
Import GoStrings.

(** The [Planner] interface. A planner may keep state between calls (the
    completion backend does), so a call also returns the planner after it. *)
Class Planner (P : Type) : Type :=
  Plan : P -> Task.t -> (ImplementationPlan.t + error) * P.

(** The completion backend (go-openai). [Temperature] is a float constant
    of the request and is left out. *)
Module ChatCompletionMessage.
Record t : Type := mk { Role : string; Content : string }.
End ChatCompletionMessage.

Module ChatCompletionRequest.
Record t : Type := mk { Model : string; Messages : list ChatCompletionMessage.t }.
End ChatCompletionRequest.

(** [Choices] holds [Choices[i].Message] of the response. *)
Module ChatCompletionResponse.
Record t : Type := mk { Choices : list ChatCompletionMessage.t }.
End ChatCompletionResponse.

(** The backend is a script: its answers to the successive calls, each a
    function of the request. A backend with no answer left refuses. *)
Definition Client : Type :=
  list (ChatCompletionRequest.t -> ChatCompletionResponse.t * option error).

Definition CreateChatCompletion (c : Client) (req : ChatCompletionRequest.t)
  : (ChatCompletionResponse.t * option error) * Client :=
  match c with
  | [] => ((ChatCompletionResponse.mk [], Some "connection refused"), [])
  | answer :: c' => (answer req, c')
  end.

Record AIPlanner : Type := mkAIPlanner { client : Client; model : string }.

Definition buildPrompt (task : Task.t) : string :=
  "Create a detailed implementation plan for the following Jira ticket:" +:+ nl +:+ nl
  +:+ ("**Ticket ID:** " +:+ Task.JiraTicketID task +:+ nl)
  +:+ ("**Title:** " +:+ Task.Title task +:+ nl)
  +:+ ("**Description:** " +:+ Task.Description task +:+ nl)
  +:+ ("**Repository:** " +:+ Task.RepositoryOwner task +:+ "/"
       +:+ Task.RepositoryName task +:+ nl +:+ nl)
  +:+ "Please provide:" +:+ nl
  +:+ "1. A summary of the implementation approach" +:+ nl
  +:+ "2. A list of steps to complete the implementation" +:+ nl
  +:+ "3. Files that need to be modified or created" +:+ nl
  +:+ "4. An estimated complexity (low, medium, high)" +:+ nl +:+ nl
  +:+ "Format your response as:" +:+ nl
  +:+ "SUMMARY: <summary>" +:+ nl
  +:+ "STEPS:" +:+ nl
  +:+ "1. <step description> [TYPE: codegen|testing|deployment|review]" +:+ nl
  +:+ "2. ..." +:+ nl
  +:+ "FILES_MODIFY: <comma-separated list>" +:+ nl
  +:+ "FILES_CREATE: <comma-separated list>" +:+ nl
  +:+ "COMPLEXITY: <low|medium|high>" +:+ nl.

(** [parseStep] returns a pointer that is never nil: [Some] always. *)
Definition parseStep (line : string) (order : Z) : option PlanStep.t :=
  (* Remove step number if present *)
  let line := TrimSpace line in
  let idx := Index line "." in
  let line :=
    if idx =? -1 then line else TrimSpace (slice_from line (Z.to_nat (idx + 1))) in
  (* Extract type if present *)
  let idx := Index line "[TYPE:" in
  let '(activityType, line) :=
    if idx =? -1 then ("codegen", line)
    else
      let typePart := slice_from line (Z.to_nat idx) in
      let endIdx := Index typePart "]" in
      if endIdx =? -1 then ("codegen", line)
      else
        let typeStr := TrimPrefix (slice_to typePart (Z.to_nat (endIdx + 1))) "[TYPE:" in
        let typeStr := TrimSuffix typeStr "]" in
        let typeStr := TrimSpace typeStr in
        (if String.eqb typeStr "" then "codegen" else typeStr,
         TrimSpace (slice_to line (Z.to_nat idx)))
  in
  Some (PlanStep.mk order line activityType ∅).

(** The variables of the loop of [parseResponse]. *)
Record parser : Type := mkParser {
  Summary : string;
  Steps : list PlanStep.t;
  FilesToModify : list string;
  FilesToCreate : list string;
  EstimatedComplexity : string;
  currentSection : string;
  stepOrder : Z
}.

(** One turn of [for _, line := range lines]. *)
Definition parseLine (st : parser) (line : string) : parser :=
  let line := TrimSpace line in
  if String.eqb line "" then st
  else if HasPrefix line "SUMMARY:" then
    mkParser (TrimSpace (TrimPrefix line "SUMMARY:")) (Steps st) (FilesToModify st)
             (FilesToCreate st) (EstimatedComplexity st) "summary" (stepOrder st)
  else if HasPrefix line "STEPS:" then
    mkParser (Summary st) (Steps st) (FilesToModify st) (FilesToCreate st)
             (EstimatedComplexity st) "steps" (stepOrder st)
  else if HasPrefix line "FILES_MODIFY:" then
    let files := TrimSpace (TrimPrefix line "FILES_MODIFY:") in
    mkParser (Summary st) (Steps st)
             (if String.eqb files "" then FilesToModify st
              else map TrimSpace (Split files ","%char))
             (FilesToCreate st) (EstimatedComplexity st) "" (stepOrder st)
  else if HasPrefix line "FILES_CREATE:" then
    let files := TrimSpace (TrimPrefix line "FILES_CREATE:") in
    mkParser (Summary st) (Steps st) (FilesToModify st)
             (if String.eqb files "" then FilesToCreate st
              else map TrimSpace (Split files ","%char))
             (EstimatedComplexity st) "" (stepOrder st)
  else if HasPrefix line "COMPLEXITY:" then
    mkParser (Summary st) (Steps st) (FilesToModify st) (FilesToCreate st)
             (TrimSpace (TrimPrefix line "COMPLEXITY:")) "" (stepOrder st)
  else if String.eqb (currentSection st) "steps" then
    (* Parse step line: 1. Description [TYPE: codegen] *)
    match parseStep line (stepOrder st) with
    | Some step =>
      mkParser (Summary st) (Steps st ++ [step]) (FilesToModify st) (FilesToCreate st)
               (EstimatedComplexity st) (currentSection st) (stepOrder st + 1)
    | None => st
    end
  else st.

Definition parser_init : parser := mkParser "" [] [] [] "" "" 1.

Definition parseLines (response : string) : parser :=
  fold_left parseLine (Split response (chr 10)) parser_init.

Definition parseResponse (response : string) (task : Task.t)
  : ImplementationPlan.t + error :=
  let st := parseLines response in
  let summary :=
    if String.eqb (Summary st) ""
    then "Implementation plan for " +:+ Task.JiraTicketID task
    else Summary st in
  inl (ImplementationPlan.mk summary (Steps st) (FilesToModify st)
         (FilesToCreate st) (EstimatedComplexity st)).

Definition system_prompt : string :=
  "You are an expert software engineer that creates detailed implementation plans for code changes based on Jira tickets.".

(** The request [Plan] sends. *)
Definition request (p : AIPlanner) (prompt : string) : ChatCompletionRequest.t :=
  ChatCompletionRequest.mk (model p)
    [ ChatCompletionMessage.mk "system" system_prompt;
      ChatCompletionMessage.mk "user" prompt ].

Definition AIPlanner_Plan (p : AIPlanner) (task : Task.t)
  : (ImplementationPlan.t + error) * AIPlanner :=
  let prompt := buildPrompt task in
  let '((resp, err), c') := CreateChatCompletion (client p) (request p prompt) in
  let p' := mkAIPlanner c' (model p) in
  match err with
  | Some e => (inr ("failed to create chat completion: " +:+ e), p')
  | None =>
    match ChatCompletionResponse.Choices resp with
    | [] => (inr "no response from AI", p')
    | choice :: _ =>
      match parseResponse (ChatCompletionMessage.Content choice) task with
      | inr e => (inr ("failed to parse AI response: " +:+ e), p')
      | inl plan => (inl plan, p')
      end
    end
  end.

#[global] Instance AIPlanner_Planner : Planner AIPlanner := AIPlanner_Plan.

End Planner.

(** ** internal/github: pr.go *)

Module Github.

Definition truncateString (s : string) (maxLen : Z) : string :=
  if Z.of_nat (String.length s) <=? maxLen then s else slice_to s (Z.to_nat maxLen).

(** The body of [for _, r := range s] on the builder [result]. *)
Definition sanitize_rune (result : string) (r : Z) : string :=
  if ((byte "a" <=? r) && (r <=? byte "z"))
     || ((byte "A" <=? r) && (r <=? byte "Z"))
     || ((byte "0" <=? r) && (r <=? byte "9"))
     || (r =? byte "-") || (r =? byte "_")
  then result +:+ Utf8.string_of_rune r
  else if r =? byte " " then result +:+ "-"
  else result.

Definition sanitizeBranchName (s : string) : string :=
  fold_left sanitize_rune (Utf8.runes s) "".

Definition GenerateBranchName (ticketID title : string) : string :=
  let shortTitle := truncateString title 30 in
  "khitomer/" +:+ ticketID +:+ "-" +:+ sanitizeBranchName shortTitle.

Definition GeneratePRTitle (ticketID title : string) : string :=
  ticketID +:+ ": " +:+ title.

End Github.

(** ** internal/activities *)

Module Activities.

Module GitHubOperationResult.
Record t : Type := mk {
  Success : bool;
  Message : string;
  PRInfo : option PRInfo.t;
  BranchName : string;
  RepositoryPath : string
}.
Definition zero : t := mk false "" None "" "".
End GitHubOperationResult.

Module CodeGenerationResult.
Record t : Type := mk {
  Success : bool;
  ModifiedFiles : list string;
  CreatedFiles : list string;
  Summary : string
}.
Definition zero : t := mk false [] [] "".
End CodeGenerationResult.

Module TestingResult.
Record t : Type := mk { Passed : bool; Output : string; Failures : list string }.
Definition zero : t := mk false "" [].
End TestingResult.

Module JiraUpdateResult.
Record t : Type := mk { Success : bool; Message : string }.
Definition zero : t := mk false "".
End JiraUpdateResult.

(** The GitHub client the activities drive (internal/github/client.go):
    an oracle for git and the hosting API. *)
Record GithubClient : Type := mkGithubClient {
  CloneRepository : string -> string -> string -> string * option error;
  GetRepositoryPath : string -> string -> string;
  CreateBranch : string -> string -> string -> option error;
  CommitChanges : string -> string -> option error;
  PushBranch : string -> string -> option error;
  CreatePullRequest :
    string -> string -> string -> string -> string -> string -> option PRInfo.t * option error
}.

(** The Jira client, as far as the activities use it. *)
Record JiraClient : Type := mkJiraClient {
  AddComment : string -> string -> option error
}.

Record GitHubActivities : Type := mkGitHubActivities { githubClient : GithubClient }.
Record JiraActivities : Type := mkJiraActivities { jiraClient : JiraClient }.

Definition failed (e : error) : GitHubOperationResult.t * option error :=
  (GitHubOperationResult.mk false e None "" "", Some e).

(** Methods of [*GitHubActivities]. *)
Definition GitHubActivities_CloneRepositoryActivity
    (a : GitHubActivities) (repo : RepositoryInfo.t)
  : GitHubOperationResult.t * option error :=
  match CloneRepository (githubClient a) (RepositoryInfo.Owner repo)
          (RepositoryInfo.Name repo) (RepositoryInfo.BaseBranch repo) with
  | (_, Some e) => failed e
  | (repoPath, None) =>
    (GitHubOperationResult.mk true "repository cloned successfully" None "" repoPath, None)
  end.

Definition GitHubActivities_CreateBranchActivity
    (a : GitHubActivities) (repo : RepositoryInfo.t) (branchName : string)
  : GitHubOperationResult.t * option error :=
  let repoPath :=
    GetRepositoryPath (githubClient a) (RepositoryInfo.Owner repo) (RepositoryInfo.Name repo) in
  match CreateBranch (githubClient a) repoPath (RepositoryInfo.BaseBranch repo) branchName with
  | Some e => failed e
  | None =>
    (GitHubOperationResult.mk true "branch created successfully" None branchName "", None)
  end.

Definition GitHubActivities_CommitChangesActivity
    (a : GitHubActivities) (repo : RepositoryInfo.t) (repoPath message : string)
  : GitHubOperationResult.t * option error :=
  match CommitChanges (githubClient a) repoPath message with
  | Some e => failed e
  | None =>
    (* Push the branch *)
    match PushBranch (githubClient a) repoPath (RepositoryInfo.FeatureBranch repo) with
    | Some e => failed e
    | None =>
      (GitHubOperationResult.mk true "changes committed and pushed successfully" None "" "",
       None)
    end
  end.

Definition GitHubActivities_CreatePRActivity
    (a : GitHubActivities) (repo : RepositoryInfo.t) (title description : string)
  : GitHubOperationResult.t * option error :=
  match CreatePullRequest (githubClient a) (RepositoryInfo.Owner repo)
          (RepositoryInfo.Name repo) (RepositoryInfo.BaseBranch repo)
          (RepositoryInfo.FeatureBranch repo) title description with
  | (_, Some e) => failed e
  | (prInfo, None) =>
    (GitHubOperationResult.mk true "pull request created successfully" prInfo "" "", None)
  end.

(** Method of [*JiraActivities]. *)
Definition JiraActivities_UpdateJiraActivity
    (a : JiraActivities) (ticketID prURL : string)
  : JiraUpdateResult.t * option error :=
  let comment := "Pull request created: " +:+ prURL in
  match AddComment (jiraClient a) ticketID comment with
  | Some e => (JiraUpdateResult.mk false e, Some e)
  | None => (JiraUpdateResult.mk true "Jira updated successfully", None)
  end.

(** The package-level variables [githubActivities] and [jiraActivities]:
    nil until the setters run. *)
Record globals : Type := mkGlobals {
  githubActivities : option GitHubActivities;
  jiraActivities : option JiraActivities
}.

Definition unset : globals := mkGlobals None None.

Definition SetGitHubActivities (ga : option GitHubActivities) (g : globals) : globals :=
  mkGlobals ga (jiraActivities g).

Definition SetJiraActivities (ja : option JiraActivities) (g : globals) : globals :=
  mkGlobals (githubActivities g) ja.

Definition github_not_initialized : GitHubOperationResult.t * option error :=
  (GitHubOperationResult.mk false "GitHub activities not initialized" None "" "", None).

(** The wrapper functions registered with the worker. *)
Definition CloneRepositoryActivity (g : globals) (repo : RepositoryInfo.t)
  : GitHubOperationResult.t * option error :=
  match githubActivities g with
  | None => github_not_initialized
  | Some ga => GitHubActivities_CloneRepositoryActivity ga repo
  end.

Definition CreateBranchActivity (g : globals) (repo : RepositoryInfo.t) (branchName : string)
  : GitHubOperationResult.t * option error :=
  match githubActivities g with
  | None => github_not_initialized
  | Some ga => GitHubActivities_CreateBranchActivity ga repo branchName
  end.

Definition CommitChangesActivity (g : globals) (repo : RepositoryInfo.t)
    (repoPath message : string) : GitHubOperationResult.t * option error :=
  match githubActivities g with
  | None => github_not_initialized
  | Some ga => GitHubActivities_CommitChangesActivity ga repo repoPath message
  end.

Definition CreatePRActivity (g : globals) (repo : RepositoryInfo.t)
    (title description : string) : GitHubOperationResult.t * option error :=
  match githubActivities g with
  | None => github_not_initialized
  | Some ga => GitHubActivities_CreatePRActivity ga repo title description
  end.

Definition UpdateJiraActivity (g : globals) (ticketID prURL : string)
  : JiraUpdateResult.t * option error :=
  match jiraActivities g with
  | None => (JiraUpdateResult.mk false "Jira activities not initialized", None)
  | Some ja => JiraActivities_UpdateJiraActivity ja ticketID prURL
  end.

End Activities.

(** ** internal/temporal/workflows *)

Module Workflows.

Module WorkflowInput.
(** The three fields are pointers the callers always set. *)
Record t : Type := mk {
  Task : Task.t;
  Plan : ImplementationPlan.t;
  Repository : RepositoryInfo.t
}.
End WorkflowInput.

Definition generatePRTitle (ticketID title : string) : string :=
  ticketID +:+ ": " +:+ title.

Definition generatePRDescription (task : Task.t) (plan : ImplementationPlan.t) : string :=
  let desc := "## Implementation for " +:+ Task.JiraTicketID task +:+ nl +:+ nl in
  let desc := desc +:+ ("**Jira Ticket:** " +:+ Task.JiraTicketID task +:+ nl) in
  let desc := desc +:+ ("**Description:** " +:+ Task.Description task +:+ nl +:+ nl) in
  let desc := desc +:+ ("## Implementation Plan" +:+ nl +:+ nl) in
  let desc := desc +:+ (ImplementationPlan.Summary plan +:+ nl +:+ nl) in
  let desc := desc +:+ ("## Steps" +:+ nl +:+ nl) in
  fold_left
    (fun desc '(i, step) =>
       desc +:+ (pretty (Z.of_nat i + 1) +:+ ". " +:+ PlanStep.Description step +:+ nl))
    (imap (fun i step => (i, step)) (ImplementationPlan.Steps plan))
    desc.

Definition truncateString (s : string) (maxLen : Z) : string :=
  if Z.of_nat (String.length s) <=? maxLen then s else slice_to s (Z.to_nat maxLen).

(** The body of [for _, r := range s] on the accumulator [result]. *)
Definition sanitize_rune (result : string) (r : Z) : string :=
  if ((byte "a" <=? r) && (r <=? byte "z"))
     || ((byte "A" <=? r) && (r <=? byte "Z"))
     || ((byte "0" <=? r) && (r <=? byte "9"))
     || (r =? byte "-") || (r =? byte "_")
  then result +:+ Utf8.string_of_rune r
  else if r =? byte " " then result +:+ "-"
  else result.

Definition sanitizeBranchName (s : string) : string :=
  (* Remove special characters and replace spaces with hyphens *)
  fold_left sanitize_rune (Utf8.runes s) "".

Definition generateBranchName (ticketID title : string) : string :=
  (* Simple branch name: khitomer/JIRA-123-short-title *)
  let shortTitle := truncateString title 30 in
  "khitomer/" +:+ ticketID +:+ "-" +:+ sanitizeBranchName shortTitle.

(** The activities registered with the worker, by name. An entry stands
    for what [ExecuteActivity(...).Get] hands back: the outcome of the
    activity under the retry policy of the workflow. *)
Record Registry : Type := mkRegistry {
  CloneRepositoryActivity :
    RepositoryInfo.t -> Activities.GitHubOperationResult.t * option error;
  CreateBranchActivity :
    RepositoryInfo.t -> string -> Activities.GitHubOperationResult.t * option error;
  CodeGenerationActivity :
    Task.t -> ImplementationPlan.t -> string ->
    Activities.CodeGenerationResult.t * option error;
  TestingActivity : string -> Activities.TestingResult.t * option error;
  CommitChangesActivity :
    RepositoryInfo.t -> string -> string ->
    Activities.GitHubOperationResult.t * option error;
  CreatePRActivity :
    RepositoryInfo.t -> string -> string ->
    Activities.GitHubOperationResult.t * option error;
  UpdateJiraActivity : string -> string -> Activities.JiraUpdateResult.t * option error
}.

(** The activity calls a run issues, with their arguments. *)
Inductive call : Type :=
| CallCloneRepository (repo : RepositoryInfo.t)
| CallCreateBranch (repo : RepositoryInfo.t) (branchName : string)
| CallCodeGeneration (task : Task.t) (plan : ImplementationPlan.t) (repoPath : string)
| CallTesting (repoPath : string)
| CallCommitChanges (repo : RepositoryInfo.t) (repoPath message : string)
| CallCreatePR (repo : RepositoryInfo.t) (title description : string)
| CallUpdateJira (ticketID prURL : string).

(** The number of the pipeline step a call belongs to. *)
Definition step (c : call) : nat :=
  match c with
  | CallCloneRepository _ => 1
  | CallCreateBranch _ _ => 2
  | CallCodeGeneration _ _ _ => 3
  | CallTesting _ => 4
  | CallCommitChanges _ _ _ => 5
  | CallCreatePR _ _ _ => 6
  | CallUpdateJira _ _ => 7
  end%nat.

(** How a workflow function ends: with a value, with the error it
    returns, or in a panic. *)
Inductive result (A : Type) : Type :=
| Value (a : A)
| Error (e : error)
| Panic (msg : string).
Arguments Value {A} a.
Arguments Error {A} e.
Arguments Panic {A} msg.

(** Workflow code: it extends the history of activity calls and may stop
    early. *)
Definition W (A : Type) : Type := list call -> result A * list call.

Definition ret {A : Type} (a : A) : W A := fun h => (Value a, h).

Definition bind {A B : Type} (m : W A) (k : A -> W B) : W B :=
  fun h =>
    match m h with
    | (Value a, h') => k a h'
    | (Error e, h') => (Error e, h')
    | (Panic msg, h') => (Panic msg, h')
    end.

Notation "'let*' p ':=' m 'in' k" := (bind m (fun p => k))
  (at level 10, p pattern, m at level 100, k at level 200).

(** [.Get(ctx, &out)]: on an error [out] keeps its zero value. *)
Definition Get {R : Type} (zero : R) (outcome : R * option error) : R * option error :=
  match outcome with
  | (r, None) => (r, None)
  | (_, Some e) => (zero, Some e)
  end.

Definition ExecuteActivity {R : Type} (c : call) (zero : R) (outcome : R * option error)
  : W (R * option error) :=
  fun h => (Value (Get zero outcome), (h ++ [c])%list).

(** [if err != nil { return nil, err }] *)
Definition check (err : option error) : W unit :=
  fun h => match err with Some e => (Error e, h) | None => (Value tt, h) end.

(** Reading a field through a pointer. *)
Definition deref {A : Type} (p : option A) : W A :=
  fun h =>
    match p with
    | Some a => (Value a, h)
    | None => (Panic "invalid memory address or nil pointer dereference", h)
    end.

Definition ImplementationWorkflow (reg : Registry) (input : WorkflowInput.t)
  : W (option PRInfo.t) :=
  let task := WorkflowInput.Task input in
  let plan := WorkflowInput.Plan input in
  let repo := WorkflowInput.Repository input in
  (* Step 1: Clone repository *)
  let* (cloneResult, err) :=
    ExecuteActivity (CallCloneRepository repo) Activities.GitHubOperationResult.zero
      (CloneRepositoryActivity reg repo) in
  let* _ := check err in
  (* Step 2: Create feature branch *)
  let branchName := generateBranchName (Task.JiraTicketID task) (Task.Title task) in
  let* (branchResult, err) :=
    ExecuteActivity (CallCreateBranch repo branchName) Activities.GitHubOperationResult.zero
      (CreateBranchActivity reg repo branchName) in
  let* _ := check err in
  let repo :=
    RepositoryInfo.mk (RepositoryInfo.Owner repo) (RepositoryInfo.Name repo)
      (RepositoryInfo.BaseBranch repo)
      (Activities.GitHubOperationResult.BranchName branchResult)
      (RepositoryInfo.CloneURL repo) in
  (* Step 3: Generate/modify code *)
  let repoPath := Activities.GitHubOperationResult.RepositoryPath cloneResult in
  let* (codegenResult, err) :=
    ExecuteActivity (CallCodeGeneration task plan repoPath) Activities.CodeGenerationResult.zero
      (CodeGenerationActivity reg task plan repoPath) in
  let* _ := check err in
  (* Step 4: Run tests *)
  let* (testResult, err) :=
    ExecuteActivity (CallTesting repoPath) Activities.TestingResult.zero
      (TestingActivity reg repoPath) in
  (* Continue even if tests fail - let humans review *)
  (* Step 5: Commit changes *)
  let message := Activities.CodeGenerationResult.Summary codegenResult in
  let* (commitResult, err) :=
    ExecuteActivity (CallCommitChanges repo repoPath message)
      Activities.GitHubOperationResult.zero
      (CommitChangesActivity reg repo repoPath message) in
  let* _ := check err in
  (* Step 6: Create PR *)
  let prTitle := generatePRTitle (Task.JiraTicketID task) (Task.Title task) in
  let prDescription := generatePRDescription task plan in
  let* (prResult, err) :=
    ExecuteActivity (CallCreatePR repo prTitle prDescription)
      Activities.GitHubOperationResult.zero
      (CreatePRActivity reg repo prTitle prDescription) in
  let* _ := check err in
  (* Step 7: Update Jira with PR link *)
  let* prInfo := deref (Activities.GitHubOperationResult.PRInfo prResult) in
  let* (jiraResult, err) :=
    ExecuteActivity (CallUpdateJira (Task.JiraTicketID task) (PRInfo.PRURL prInfo))
      Activities.JiraUpdateResult.zero
      (UpdateJiraActivity reg (Task.JiraTicketID task) (PRInfo.PRURL prInfo)) in
  (* Non-fatal - PR was created successfully *)
  ret (Activities.GitHubOperationResult.PRInfo prResult).

(** A run of the workflow from an empty history. *)
Definition run (reg : Registry) (input : WorkflowInput.t)
  : result (option PRInfo.t) * list call :=
  ImplementationWorkflow reg input [].

(** The registry of the worker (cmd/worker): the wrapper functions of
    internal/activities over the package variables [g], with the two
    activities that do not go through them. *)
Definition registered (g : Activities.globals)
    (codegen : Task.t -> ImplementationPlan.t -> string ->
               Activities.CodeGenerationResult.t * option error)
    (testing : string -> Activities.TestingResult.t * option error) : Registry :=
  mkRegistry (Activities.CloneRepositoryActivity g) (Activities.CreateBranchActivity g)
    codegen testing
    (Activities.CommitChangesActivity g) (Activities.CreatePRActivity g)
    (Activities.UpdateJiraActivity g).

End Workflows.

(** ** internal/temporal: client.go *)

Module Temporal.

Module StartWorkflowOptions.
Record t : Type := mk { ID : string; TaskQueue : string }.
End StartWorkflowOptions.

(** The handle [ExecuteWorkflow] returns. *)
Module WorkflowRun.
Record t : Type := mk { GetID : string; GetRunID : string }.
End WorkflowRun.

(** The Temporal service: its answers to the successive
    [ExecuteWorkflow] calls, and the requests it has received so far. *)
Record Service : Type := mkService {
  answers :
    list (StartWorkflowOptions.t -> Workflows.WorkflowInput.t ->
          WorkflowRun.t * option error);
  requests : list (StartWorkflowOptions.t * Workflows.WorkflowInput.t)
}.

Definition ExecuteWorkflow (svc : Service) (options : StartWorkflowOptions.t)
    (input : Workflows.WorkflowInput.t) : (WorkflowRun.t * option error) * Service :=
  let received := (requests svc ++ [(options, input)])%list in
  match answers svc with
  | [] => ((WorkflowRun.mk "" "", Some "connection refused"), mkService [] received)
  | answer :: rest => (answer options input, mkService rest received)
  end.

Record Client : Type := mkClient { temporalClient : Service; taskQueue : string }.

(** The workflow ID of [StartWorkflow]:
    [fmt.Sprintf("implementation-%s-%s", task.JiraTicketID, task.RepositoryName)]. *)
Definition workflowID (task : Task.t) : string :=
  "implementation-" +:+ Task.JiraTicketID task +:+ "-" +:+ Task.RepositoryName task.

Definition StartWorkflow (c : Client) (task : Task.t) (plan : ImplementationPlan.t)
    (repo : RepositoryInfo.t) : (string + error) * Client :=
  let workflowOptions := StartWorkflowOptions.mk (workflowID task) (taskQueue c) in
  let workflowInput := Workflows.WorkflowInput.mk task plan repo in
  let '((we, err), svc) := ExecuteWorkflow (temporalClient c) workflowOptions workflowInput in
  let c' := mkClient svc (taskQueue c) in
  match err with
  | Some e => (inr ("failed to start workflow: " +:+ e), c')
  | None => (inl (WorkflowRun.GetID we), c')
  end.

End Temporal.

(** ** internal/jira: poller.go *)

Module Jira.

(** The tracker client is a script: its answers to the successive
    [GetTasksByStatus] calls, each a function of the status asked for. *)
Definition Client : Type := list (string -> list Task.t * option error).

Definition GetTasksByStatus (c : Client) (status : string)
  : (list Task.t * option error) * Client :=
  match c with
  | [] => (([], Some "failed to search issues: connection refused"), [])
  | answer :: c' => (answer status, c')
  end.

(** What the poller shares with the rest of the program: the channel
    [taskChan] (its buffer, its capacity and the receivers waiting on
    it), whether [ctx] is done, and, as a ghost field, every task the
    poller has placed on the channel so far. *)
Record World : Type := mkWorld {
  buf : list Task.t;
  cap : nat;
  receivers : nat;
  done : bool;
  emitted : list Task.t
}.

(** What the rest of the program does to them. *)
Inductive event : Type :=
| Receive (* the consumer receives from the channel *)
| Cancel  (* the context is cancelled *).

#[global] Instance event_eq_dec : EqDecision event.
Proof. solve_decision. Defined.

Definition env_step (w : World) (e : event) : World :=
  match e with
  | Receive =>
    match buf w with
    | [] => mkWorld [] (cap w) (S (receivers w)) (done w) (emitted w)
    | _ :: rest => mkWorld rest (cap w) (receivers w) (done w) (emitted w)
    end
  | Cancel => mkWorld (buf w) (cap w) (receivers w) true (emitted w)
  end.

(** The send [taskChan <- task] can proceed. *)
Definition can_send (w : World) : bool :=
  (0 <? receivers w)%nat || (length (buf w) <? cap w)%nat.

Definition send (w : World) (task : Task.t) : World :=
  match receivers w with
  | S n => mkWorld (buf w) (cap w) n (done w) (emitted w ++ [task])
  | O => mkWorld (buf w ++ [task]) (cap w) O (done w) (emitted w ++ [task])
  end.

Inductive selected : Type :=
| Sent (w : World)
| Cancelled (w : World)
| Blocked (w : World).

(** [select { case taskChan <- task: ...; case <-ctx.Done(): return }].
    When both cases can proceed [pick] decides; when neither can, the
    goroutine waits for the rest of the program to act ([evs]), and it is
    blocked for good when nothing more happens. *)
Fixpoint select_send (w : World) (task : Task.t) (pick : bool) (evs : list event)
  : selected :=
  match can_send w, done w with
  | true, false => Sent (send w task)
  | false, true => Cancelled w
  | true, true => if pick then Sent (send w task) else Cancelled w
  | false, false =>
    match evs with
    | [] => Blocked w
    | e :: evs' => select_send (env_step w e) task pick evs'
    end
  end.

(** The scheduling of one [select]: what the rest of the program does
    before the poller reaches it, the choice among ready cases, and what
    the rest of the program does while the poller waits in it. *)
Record sched : Type := mkSched {
  before : list event;
  pick : bool;
  while_blocked : list event
}.

Definition idle : sched := mkSched [] true [].

Record Poller : Type := mkPoller {
  client : Client;
  statusFilter : list string;
  interval : Z;
  processedTasks : gmap string bool
}.

Definition NewPoller (client : Client) (statusFilter : list string) (interval : Z) : Poller :=
  mkPoller client statusFilter interval ∅.

(** [p.processedTasks[ticketID]]: false for a key the map does not hold. *)
Definition isProcessed (p : Poller) (ticketID : string) : bool :=
  default false (processedTasks p !! ticketID).

Definition markProcessed (p : Poller) (ticketID : string) : Poller :=
  mkPoller (client p) (statusFilter p) (interval p) (<[ticketID := true]> (processedTasks p)).

Definition ClearProcessed (p : Poller) : Poller :=
  mkPoller (client p) (statusFilter p) (interval p) ∅.

(** How a loop of [poll] is left. *)
Inductive flow : Type :=
| Completed (* the loop ran to its end *)
| Aborted   (* [return] at [<-ctx.Done()] *)
| Stuck     (* blocked in the [select] for good *).

Record state : Type := mkState {
  poller : Poller;
  world : World;
  schedule : list sched
}.

(** [for _, task := range tasks] *)
Fixpoint poll_tasks (tasks : list Task.t) (p : Poller) (w : World) (sch : list sched)
  : flow * state :=
  match tasks with
  | [] => (Completed, mkState p w sch)
  | task :: rest =>
    if isProcessed p (Task.JiraTicketID task) then poll_tasks rest p w sch
    else
      let p := markProcessed p (Task.JiraTicketID task) in
      let s := hd idle sch in
      match select_send (fold_left env_step (before s) w) task (pick s) (while_blocked s) with
      | Sent w' => poll_tasks rest p w' (tl sch)
      | Cancelled w' => (Aborted, mkState p w' (tl sch))
      | Blocked w' => (Stuck, mkState p w' (tl sch))
      end
  end.

(** [for _, status := range p.statusFilter] *)
Fixpoint poll_statuses (statuses : list string) (p : Poller) (w : World) (sch : list sched)
  : flow * state :=
  match statuses with
  | [] => (Completed, mkState p w sch)
  | status :: rest =>
    let '((tasks, err), c') := GetTasksByStatus (client p) status in
    let p := mkPoller c' (statusFilter p) (interval p) (processedTasks p) in
    match err with
    | Some _ => poll_statuses rest p w sch
    | None =>
      match poll_tasks tasks p w sch with
      | (Completed, st) => poll_statuses rest (poller st) (world st) (schedule st)
      | stopped => stopped
      end
    end
  end.

(** [poll] performs a single poll operation. *)
Definition poll (p : Poller) (w : World) (sch : list sched) : flow * state :=
  poll_statuses (statusFilter p) p w sch.

(** One turn of the [for { select { ... } }] loop of [Start]: what the
    rest of the program does before it, whether the ticker has fired, and
    the choice when both cases are ready. *)
Record turn : Type := mkTurn {
  turn_before : list event;
  ticked : bool;
  turn_pick : bool
}.

Inductive running : Type :=
| Looping  (* in the loop, waiting for the next tick *)
| Stopped  (* [Start] returned *)
| Hung     (* blocked in a send for good *).

Fixpoint Start_loop (turns : list turn) (p : Poller) (w : World) (sch : list sched)
  : running * state :=
  match turns with
  | [] => (Looping, mkState p w sch)
  | t :: turns' =>
    let w := fold_left env_step (turn_before t) w in
    let tick := ticked t && (negb (done w) || turn_pick t) in
    if tick then
      match poll p w sch with
      | (Stuck, st) => (Hung, st)
      | (_, st) => Start_loop turns' (poller st) (world st) (schedule st)
      end
    else if done w then (Stopped, mkState p w sch)
    else Start_loop turns' p w sch
  end.

(** [Start] starts the polling loop. *)
Definition Start (p : Poller) (w : World) (turns : list turn) (sch : list sched)
  : running * state :=
  (* Initial poll *)
  match poll p w sch with
  | (Stuck, st) => (Hung, st)
  | (_, st) => Start_loop turns (poller st) (world st) (schedule st)
  end.

End Jira.

(** ** internal/leader: the orchestrator *)

Module Leader.
Import Planner.

Section Orchestrator.
Context {P : Type} `{Planner P}.

(** The log lines that matter here. *)
Inductive entry : Type :=
| Processing (ticketID : string)
| Started (ticketID workflowID : string)
| Failed (ticketID : string) (err : error).

Record Orchestrator : Type := mkOrchestrator {
  planner : P;
  temporalClient : Temporal.Client;
  logger : list entry
}.

Definition log (o : Orchestrator) (e : entry) : Orchestrator :=
  mkOrchestrator (planner o) (temporalClient o) (logger o ++ [e]).

(** [processTask] processes a single task. *)
Definition processTask (o : Orchestrator) (task : Task.t) : option error * Orchestrator :=
  let o := log o (Processing (Task.JiraTicketID task)) in
  (* Generate implementation plan *)
  let '(planned, planner') := Plan (planner o) task in
  let o := mkOrchestrator planner' (temporalClient o) (logger o) in
  match planned with
  | inr e => (Some ("failed to generate plan: " +:+ e), o)
  | inl plan =>
    (* Create repository info *)
    let repo :=
      RepositoryInfo.mk (Task.RepositoryOwner task) (Task.RepositoryName task)
        (Task.BaseBranch task) "" (Task.RepositoryURL task) in
    (* Start workflow *)
    let '(started, c') := Temporal.StartWorkflow (temporalClient o) task plan repo in
    let o := mkOrchestrator (planner o) c' (logger o) in
    match started with
    | inr e => (Some ("failed to start workflow: " +:+ e), o)
    | inl workflowID => (None, log o (Started (Task.JiraTicketID task) workflowID))
    end
  end.

(** The orchestrator after one received task. *)
Definition after_task (o : Orchestrator) (task : Task.t) : Orchestrator :=
  match processTask o task with
  | (Some err, o') => log o' (Failed (Task.JiraTicketID task) err)
  | (None, o') => o'
  end.

(** The case of the [select] in [Start] that fires in a turn of the loop.
    The poller goroutine [Start] launches and the channel between the two
    are seen from this side only: as the tasks received, in order. *)
Inductive fired : Type :=
| Done (cause : error)     (* [<-ctx.Done()], with [ctx.Err()] *)
| Received (task : Task.t) (* [task := <-taskChan] *).

(** [Start] runs the loop once per fired case; [None]: it has not
    returned, [Some e]: it returned [e]. *)
Fixpoint Start (o : Orchestrator) (turns : list fired) : option error * Orchestrator :=
  match turns with
  | [] => (None, o)
  | Done cause :: _ => (Some cause, o)
  | Received task :: turns' =>
    match processTask o task with
    | (Some err, o') => Start (log o' (Failed (Task.JiraTicketID task) err)) turns'
    | (None, o') => Start o' turns'
    end
  end.

End Orchestrator.

End Leader.

(** ** The branch-name rule, in the words of the specification *)

Module BranchSpec.

(** The characters a branch name keeps: [A-Za-z0-9_-]. *)
Definition in_charset (r : Z) : bool :=
  ((65 <=? r) && (r <=? 90)) || ((97 <=? r) && (r <=? 122))
  || ((48 <=? r) && (r <=? 57)) || (r =? 95) || (r =? 45).

(** What becomes of one character of the title. *)
Definition sanitize_char (r : Z) : string :=
  if in_charset r then String (chr r) ""
  else if r =? 32 then "-"
  else "".

Definition sanitize (s : string) : string :=
  fold_right String.append "" (map sanitize_char (Utf8.runes s)).

(** [truncate(title, 30)]: the first 30 bytes. *)
Definition truncate (s : string) (n : nat) : string := slice_to s n.

Definition branch_name (ticketID title : string) : string :=
  "khitomer/" +:+ ticketID +:+ "-" +:+ sanitize (truncate title 30).

End BranchSpec.

(** ** The response grammar, in the words of the specification *)

Module PlanSpec.
Import GoStrings.

(** A labelled line: [Some true] for the label that opens the steps
    section, [Some false] for the other labels, [None] for any other
    line. *)
Definition label (line : string) : option bool :=
  if HasPrefix line "SUMMARY:" then Some false
  else if HasPrefix line "STEPS:" then Some true
  else if HasPrefix line "FILES_MODIFY:" then Some false
  else if HasPrefix line "FILES_CREATE:" then Some false
  else if HasPrefix line "COMPLEXITY:" then Some false
  else None.

(** The step lines among [lines]: the lines of the steps section that
    are neither blank nor labelled. [in_steps] tells whether the steps
    section is open. *)
Fixpoint step_lines_in (in_steps : bool) (lines : list string) : list string :=
  match lines with
  | [] => []
  | raw :: rest =>
    if String.eqb (TrimSpace raw) "" then step_lines_in in_steps rest
    else
      match label (TrimSpace raw) with
      | Some opens => step_lines_in opens rest
      | None =>
        if in_steps then raw :: step_lines_in true rest else step_lines_in false rest
      end
  end.

Definition step_lines (response : string) : list string :=
  step_lines_in false (Split response (chr 10)).

(** The line holds no type annotation. *)
Definition untyped (line : string) : Prop := Index line "[TYPE:" = -1.

Definition default_summary (task : Task.t) : string :=
  "Implementation plan for " +:+ Task.JiraTicketID task.


(** A produced step answers its line: it is what [parseStep] makes of the
    trimmed line, and its type is ["codegen"] when the line holds no type
    annotation. *)
Definition step_of_line (raw : string) (step : PlanStep.t) : Prop :=
  Planner.parseStep (TrimSpace raw) (PlanStep.Order step) = Some step
  /\ (untyped raw -> PlanStep.ActivityType step = "codegen").

End PlanSpec.

(** ** The pipeline, in the words of the specification *)

Module PipelineSpec.
Import Workflows.

(** The steps whose failure ends the run, and those it survives. *)
Definition fatal (k : nat) : bool := bool_decide (k ∈ [1; 2; 3; 5; 6]%nat).
Definition tolerated (k : nat) : bool := bool_decide (k ∈ [4; 7]%nat).

(** The error the activity of a call handed back. *)
Definition returned_error (reg : Registry) (c : call) : option error :=
  match c with
  | CallCloneRepository repo => (CloneRepositoryActivity reg repo).2
  | CallCreateBranch repo branchName => (CreateBranchActivity reg repo branchName).2
  | CallCodeGeneration task plan repoPath => (CodeGenerationActivity reg task plan repoPath).2
  | CallTesting repoPath => (TestingActivity reg repoPath).2
  | CallCommitChanges repo repoPath message =>
    (CommitChangesActivity reg repo repoPath message).2
  | CallCreatePR repo title description => (CreatePRActivity reg repo title description).2
  | CallUpdateJira ticketID prURL => (UpdateJiraActivity reg ticketID prURL).2
  end.

(** The review-request handle a call handed back, if it is the call that
    opens one. *)
Definition returned_pr (reg : Registry) (c : call) : option PRInfo.t :=
  match c with
  | CallCreatePR repo title description =>
    Activities.GitHubOperationResult.PRInfo (CreatePRActivity reg repo title description).1
  | _ => None
  end.

(** The steps a run went through, in order. *)
Definition steps (h : list call) : list nat := map step h.

End PipelineSpec.

(** ** Sample values *)

Module Sample.

Definition task : Task.t :=
  Task.mk "PROJ-42" "Fix login bug!!" "The login form rejects valid users" "Ready" "ann"
    "org" "app" "https://github.com/org/app" "main" 0.

Definition plan : ImplementationPlan.t :=
  ImplementationPlan.mk "Repair the session check"
    [PlanStep.mk 1 "Change the handler" "codegen" ∅; PlanStep.mk 2 "Add a test" "testing" ∅]
    ["login.go"] ["login_test.go"] "low".

Definition repo : RepositoryInfo.t :=
  RepositoryInfo.mk "org" "app" "main" "" "https://github.com/org/app".

Definition input : Workflows.WorkflowInput.t := Workflows.WorkflowInput.mk task plan repo.

Definition pr : PRInfo.t :=
  PRInfo.mk 7 "https://github.com/org/app/pull/7" "PROJ-42: Fix login bug!!" "" "open".

(** A GitHub client every call of which succeeds. *)
Definition github : Activities.GithubClient :=
  Activities.mkGithubClient
    (fun owner name _ => ("/tmp/khitomer-workspace/" +:+ owner +:+ "/" +:+ name, None))
    (fun owner name => "/tmp/khitomer-workspace/" +:+ owner +:+ "/" +:+ name)
    (fun _ _ _ => None) (fun _ _ => None) (fun _ _ => None)
    (fun _ _ _ _ _ _ => (Some pr, None)).

(** A GitHub client that cannot push. *)
Definition github_no_push : Activities.GithubClient :=
  Activities.mkGithubClient
    (Activities.CloneRepository github) (Activities.GetRepositoryPath github)
    (Activities.CreateBranch github) (Activities.CommitChanges github)
    (fun _ _ => Some "failed to push: remote rejected")
    (Activities.CreatePullRequest github).

(** A Jira client that refuses comments. *)
Definition jira_down : Activities.JiraClient :=
  Activities.mkJiraClient (fun _ _ => Some "failed to add comment: 503").

Definition codegen_ok (task : Task.t) (plan : ImplementationPlan.t) (repoPath : string)
  : Activities.CodeGenerationResult.t * option error :=
  (Activities.CodeGenerationResult.mk true ["login.go"] [] "Repair the session check", None).

Definition tests_ok (repoPath : string) : Activities.TestingResult.t * option error :=
  (Activities.TestingResult.mk true "ok" [], None).

Definition tests_broken (repoPath : string) : Activities.TestingResult.t * option error :=
  (Activities.TestingResult.zero, Some "exec: go: executable file not found").

(** The worker with both handlers set, tests that cannot run and a Jira
    that refuses comments. *)
Definition worker_tolerating : Workflows.Registry :=
  Workflows.registered
    (Activities.mkGlobals (Some (Activities.mkGitHubActivities github))
                          (Some (Activities.mkJiraActivities jira_down)))
    codegen_ok tests_broken.

(** The worker whose pushes are rejected. *)
Definition worker_no_push : Workflows.Registry :=
  Workflows.registered
    (Activities.mkGlobals (Some (Activities.mkGitHubActivities github_no_push))
                          (Some (Activities.mkJiraActivities jira_down)))
    codegen_ok tests_ok.



(** A second ticket, and a tracker that reports both tickets under every
    status, cycle after cycle. *)
Definition task2 : Task.t :=
  Task.mk "PROJ-43" "Add logout" "" "Ready" "bob" "org" "app" "https://github.com/org/app"
    "main" 0.

Definition tracker : Jira.Client :=
  [ (fun _ => ([task; task2], None)); (fun _ => ([task2; task], None));
    (fun _ => ([], Some "failed to search issues: 502")); (fun _ => ([task2; task], None)) ].

(** A poller that has sent [task2], and the channel of capacity 1 that
    still holds it. *)
Definition poller_busy : Jira.Poller :=
  Jira.markProcessed (Jira.NewPoller tracker ["Ready"; "To Do"] 60) "PROJ-43".

Definition full : Jira.World := Jira.mkWorld [task2] 1 0 false [task2].

(** The context is cancelled while the poller waits in the send. *)
Definition cancel_while_blocked : Jira.sched := Jira.mkSched [] true [Jira.Cancel].

(** An orchestrator whose completion backend is rate-limited on the first
    call and answers the second, over a Temporal service that starts what
    it is asked to. *)
Definition backend : Planner.Client :=
  [ (fun _ => (Planner.ChatCompletionResponse.mk [], Some "status code: 429"));
    (fun _ =>
       (Planner.ChatCompletionResponse.mk
          [Planner.ChatCompletionMessage.mk "assistant"
             ("STEPS:" +:+ nl +:+ "1. Add the handler [TYPE: codegen]")],
        None)) ].

Definition service : Temporal.Service :=
  Temporal.mkService
    [fun options _ =>
       (Temporal.WorkflowRun.mk (Temporal.StartWorkflowOptions.ID options) "run-1", None)]
    [].

Definition orchestrator : Leader.Orchestrator :=
  Leader.mkOrchestrator (Planner.mkAIPlanner backend "gpt-4-turbo-preview")
    (Temporal.mkClient service "implementation-queue") [].

End Sample.

(** ** The log of the orchestrator, read back *)

Module LeaderSpec.

(** The tickets the loop took up, in order. *)
Definition taken_up (l : list Leader.entry) : list string :=
  flat_map (fun e => match e with Leader.Processing id => [id] | _ => [] end) l.

(** The failures the loop logged. *)
Definition failures (l : list Leader.entry) : list (string * error) :=
  flat_map (fun e => match e with Leader.Failed id err => [(id, err)] | _ => [] end) l.

End LeaderSpec.

(** ** The intake, in the words of the specification *)

Module JiraSpec.
Import Jira.

(** The ticket identifiers of a sequence of tasks. *)
Definition ids (tasks : list Task.t) : list string := map Task.JiraTicketID tasks.

(** From [(p, w)] the poller has come to [(p', w')]: the tasks it placed
    on the channel in between have distinct tickets, none of them marked
    in [p] and all of them marked in [p'], and no mark of [p] was lost. *)
Definition advances (p : Poller) (w : World) (p' : Poller) (w' : World) : Prop :=
  exists extra,
    emitted w' = (emitted w ++ extra)%list
    /\ NoDup (ids extra)
    /\ (forall id, id ∈ ids extra -> isProcessed p id = false /\ isProcessed p' id = true)
    /\ (forall id, isProcessed p id = true -> isProcessed p' id = true).

(** Nobody receives from the channel during this [select]. *)
Definition no_receive (s : sched) : Prop :=
  (Receive ∉ before s) /\ (Receive ∉ while_blocked s).

(** The context is cancelled before or during this [select]. *)
Definition cancelled_by (w : World) (s : sched) : Prop :=
  done w = true \/ (Cancel ∈ before s) \/ (Cancel ∈ while_blocked s).

(** The two ways a poll cycle ends on a full channel with the context
    cancelled: it found nothing new and never reached the [select], or it
    left at the first [select], with nothing placed on the channel. *)
Definition left_at_once (w : World) (sch : list sched) (r : flow * state) : Prop :=
  (r.1 = Completed /\ world r.2 = w /\ schedule r.2 = sch)
  \/ (r.1 = Aborted /\ emitted (world r.2) = emitted w /\ schedule r.2 = tl sch).

End JiraSpec.

(** ** internal/github: the description of a pull request *)

Module GithubPr.

(** [GeneratePRDescription] of pr.go: the steps are given as their
    descriptions, and the heading of the steps is written only when there
    is a step. *)
Definition GeneratePRDescription (jiraTicketID description planSummary : string)
    (steps : list string) : string :=
  let sb := "## Implementation for " +:+ jiraTicketID +:+ nl +:+ nl in
  let sb := sb +:+ ("**Jira Ticket:** " +:+ jiraTicketID +:+ nl) in
  let sb := sb +:+ ("**Description:** " +:+ description +:+ nl +:+ nl) in
  let sb := sb +:+ ("## Implementation Plan" +:+ nl +:+ nl) in
  let sb := sb +:+ (planSummary +:+ nl +:+ nl) in
  if (0 <? length steps)%nat then
    let sb := sb +:+ ("## Steps" +:+ nl +:+ nl) in
    fold_left
      (fun sb '(i, step) => sb +:+ (pretty (Z.of_nat i + 1) +:+ ". " +:+ step +:+ nl))
      (imap (fun i step => (i, step)) steps)
      sb
  else sb.

End GithubPr.

(** ** What the loop of the parser keeps *)

Module PlanShape.

(** The steps so far are numbered from 1 and the next step gets the next
    number. *)
Definition numbered (st : Planner.parser) : Prop :=
  Planner.stepOrder st = 1 + Z.of_nat (length (Planner.Steps st))
  /\ map PlanStep.Order (Planner.Steps st)
     = map Z.of_nat (seq 1 (length (Planner.Steps st))).

(** No file name so far holds a comma. *)
Definition comma_free (st : Planner.parser) : Prop :=
  Forall (fun f => ","%char ∉ list_ascii_of_string f) (Planner.FilesToModify st)
  /\ Forall (fun f => ","%char ∉ list_ascii_of_string f) (Planner.FilesToCreate st).

End PlanShape.

(** ** internal/jira: client.go *)

Module JiraClient.
Import GoStrings.

(** [strings.Contains]. *)
Definition Contains (s sub : string) : bool := 0 <=? Index s sub.

Definition quote : string := String (chr 34) "".

(** A Jira issue, as far as the client reads it. [Assignee] is the display
    name of [Fields.Assignee], nil for an issue without assignee.
    [Unknowns] lists the custom fields in the order the runtime visits
    the map, each with its value when the value is a string. *)
Module Issue.
Record t : Type := mk {
  Key : string;
  Summary : string;
  Description : string;
  StatusName : string;
  Assignee : option string;
  Unknowns : list (string * option string)
}.
End Issue.

(** A transition of an issue: its identifier and the name of the status it
    leads to. *)
Module Transition.
Record t : Type := mk { ID : string; ToName : string }.
End Transition.

(** The Jira API under the client (go-jira): an oracle. *)
Record Api : Type := mkApi {
  Search : string -> list Issue.t * option error;
  Get : string -> Issue.t * option error;
  GetTransitions : string -> list Transition.t * option error;
  DoTransition : string -> string -> option error
}.

Record Client : Type := mkClient {
  client : Api;
  projectKey : string;
  customField : string
}.

Section Folding.

(** [strings.ToLower] and [strings.EqualFold]: the case tables of Unicode
    are not part of the sources. *)
Variable ToLower : string -> string.
Variable EqualFold : string -> string -> bool.

(** The loop of [extractRepositoryInfo] over the custom fields: the first
    field, in visiting order, whose name holds the configured name and
    whose value is a well-formed reference decides. *)
Fixpoint extract_from (c : Client) (unknowns : list (string * option string))
  : option (string * string) :=
  match unknowns with
  | [] => None
  | (key, value) :: rest =>
    if Contains (ToLower key) (ToLower (customField c)) then
      match value with
      | None => extract_from c rest
      | Some repoStr =>
        (* Parse format: owner/repo or https://github.com/owner/repo *)
        let repoStr := TrimSpace repoStr in
        if HasPrefix repoStr "https://github.com/" then
          match Split (TrimPrefix repoStr "https://github.com/") "/"%char with
          | owner :: name :: _ => Some (owner, name)
          | _ => extract_from c rest
          end
        else if Contains repoStr "/" then
          match Split repoStr "/"%char with
          | [owner; name] => Some (owner, name)
          | _ => extract_from c rest
          end
        else extract_from c rest
      end
    else extract_from c rest
  end.

(** [extractRepositoryInfo] returns the owner and the name, or an error. *)
Definition extractRepositoryInfo (c : Client) (issue : Issue.t) : (string * string) + error :=
  match extract_from c (Issue.Unknowns issue) with
  | Some found => inl found
  | None => inr ("repository information not found in custom field " +:+ customField c)
  end.

(** [issueToTask] returns a task, or nil with an error, or nil with no
    error for an issue to skip. *)
Definition issueToTask (c : Client) (issue : Issue.t) : option Task.t * option error :=
  match extractRepositoryInfo c issue with
  | inr e => (None, Some ("failed to extract repository info: " +:+ e))
  | inl (repoOwner, repoName) =>
    if String.eqb repoOwner "" || String.eqb repoName "" then
      (* Skip tasks without repository information *)
      (None, None)
    else
      (Some (Task.mk (Issue.Key issue) (Issue.Summary issue) (Issue.Description issue)
               (Issue.StatusName issue)
               (match Issue.Assignee issue with Some name => name | None => "" end)
               repoOwner repoName
               ("https://github.com/" +:+ repoOwner +:+ "/" +:+ repoName)
               "main" 0),
       None)
  end.

Definition jql (c : Client) (status : string) : string :=
  "project = " +:+ projectKey c +:+ " AND status = " +:+ quote +:+ status +:+ quote.

(** The body of the loop of [GetTasksByStatus]. *)
Definition collect (c : Client) (tasks : list Task.t) (issue : Issue.t) : list Task.t :=
  match issueToTask c issue with
  | (_, Some _) => tasks
  | (Some task, None) => tasks ++ [task]
  | (None, None) => tasks
  end.

Definition GetTasksByStatus (c : Client) (status : string) : list Task.t * option error :=
  match Search (client c) (jql c status) with
  | (_, Some e) => ([], Some ("failed to search issues: " +:+ e))
  | (issues, None) => (fold_left (collect c) issues [], None)
  end.

Definition GetTask (c : Client) (ticketID : string) : option Task.t * option error :=
  match Get (client c) ticketID with
  | (_, Some e) => (None, Some ("failed to get issue: " +:+ e))
  | (issue, None) => issueToTask c issue
  end.

(** The loop of [UpdateTaskStatus] over the transitions: the identifier
    of the first transition that leads to the status. *)
Fixpoint find_transition (transitions : list Transition.t) (status : string) : string :=
  match transitions with
  | [] => ""
  | transition :: rest =>
    if EqualFold (Transition.ToName transition) status then Transition.ID transition
    else find_transition rest status
  end.

(** [UpdateTaskStatus], with the transitions it performed. *)
Definition UpdateTaskStatus (c : Client) (ticketID status : string)
  : option error * list (string * string) :=
  match GetTransitions (client c) ticketID with
  | (_, Some e) => (Some ("failed to get transitions: " +:+ e), [])
  | (transitions, None) =>
    let transitionID := find_transition transitions status in
    if String.eqb transitionID "" then
      (Some ("transition to status " +:+ status +:+ " not found"), [])
    else
      match DoTransition (client c) ticketID transitionID with
      | Some e => (Some ("failed to transition issue: " +:+ e), [(ticketID, transitionID)])
      | None => (None, [(ticketID, transitionID)])
      end
  end.

End Folding.

End JiraClient.

Module JiraClientSpec.

(** A task made of an issue. *)
Definition well_formed (task : Task.t) : Prop :=
  Task.RepositoryOwner task <> "" /\ Task.RepositoryName task <> ""
  /\ ("/"%char ∉ list_ascii_of_string (Task.RepositoryOwner task))
  /\ ("/"%char ∉ list_ascii_of_string (Task.RepositoryName task))
  /\ Task.RepositoryURL task
     = "https://github.com/" +:+ Task.RepositoryOwner task +:+ "/" +:+ Task.RepositoryName task
  /\ Task.BaseBranch task = "main".

(** The task made of an issue that names its repository: none for an
    issue no repository is read from, or one read with an empty owner or
    an empty name. *)
Definition task_of (ToLower : string -> string) (c : JiraClient.Client)
    (issue : JiraClient.Issue.t) : option Task.t :=
  match JiraClient.extractRepositoryInfo ToLower c issue with
  | inl (owner, name) =>
    if decide (owner = "" \/ name = "") then None
    else
      Some (Task.mk (JiraClient.Issue.Key issue) (JiraClient.Issue.Summary issue)
              (JiraClient.Issue.Description issue) (JiraClient.Issue.StatusName issue)
              (default "" (JiraClient.Issue.Assignee issue)) owner name
              ("https://github.com/" +:+ owner +:+ "/" +:+ name) "main" 0)
  | inr _ => None
  end.

End JiraClientSpec.

(** ** Sample issues *)

Module SampleJira.

(** Lower case on ASCII text, where [strings.ToLower] is this. *)
Definition lower_char (c : ascii) : ascii :=
  if (byte "A" <=? byte c) && (byte c <=? byte "Z") then chr (byte c + 32) else c.

Fixpoint lower (s : string) : string :=
  match s with
  | EmptyString => EmptyString
  | String c s' => String (lower_char c) (lower s')
  end.

Definition equal_fold (a b : string) : bool := String.eqb (lower a) (lower b).

Definition issue1 : JiraClient.Issue.t :=
  JiraClient.Issue.mk "PROJ-42" "Fix login bug!!" "The login form rejects valid users"
    "Ready" (Some "ann")
    [("customfield_10020", Some "sprint 7"); ("Repository URL", Some " org/app ")].

(** An issue whose repository field names no repository. *)
Definition issue2 : JiraClient.Issue.t :=
  JiraClient.Issue.mk "PROJ-43" "Add logout" "" "Ready" None [("repository", Some "app")].

Definition issue3 : JiraClient.Issue.t :=
  JiraClient.Issue.mk "PROJ-44" "Rotate keys" "" "Ready" None
    [("repository", Some "https://github.com/org/vault/tree/main")].

Definition api : JiraClient.Api :=
  JiraClient.mkApi
    (fun _ => ([issue1; issue2; issue3], None))
    (fun _ => (issue1, None))
    (fun _ =>
       ([JiraClient.Transition.mk "11" "In Progress"; JiraClient.Transition.mk "21" "In Review";
         JiraClient.Transition.mk "31" "Done"], None))
    (fun _ _ => None).

Definition client : JiraClient.Client := JiraClient.mkClient api "PROJ" "Repository".

End SampleJira.

(** ** What a poll cycle is given *)

Module IntakeSpec.
Import Jira.

(** The tasks the queries of one cycle over [statuses] return, in order:
    a query that fails returns none. *)
Fixpoint found (c : Client) (statuses : list string) : list Task.t :=
  match statuses with
  | [] => []
  | status :: rest =>
    let '((tasks, err), c') := GetTasksByStatus c status in
    match err with
    | Some _ => found c' rest
    | None => (tasks ++ found c' rest)%list
    end
  end.

(** The channel takes [k] more tasks without a send having to wait. *)
Definition room (w : World) (k : nat) : Prop :=
  (length (buf w) + k <= cap w + receivers w)%nat.

(** Nobody cancels the context on the way to a [select]. *)
Definition no_cancel (sch : list sched) : Prop :=
  Forall (fun s => Cancel ∉ before s) sch.

(** A poller two tickets behind, and a channel with room for both. *)
Definition poller_behind : Poller :=
  markProcessed (NewPoller Sample.tracker ["Ready"] 60) "PROJ-43".

Definition roomy : World := mkWorld [Sample.task2] 3 0 false [Sample.task2].

End IntakeSpec.

(** ** What the orchestrator asks of Temporal *)

Module DispatchSpec.

(** The tasks the loop of [Start] receives before it returns. *)
Fixpoint received (turns : list Leader.fired) : list Task.t :=
  match turns with
  | [] => []
  | Leader.Done _ :: _ => []
  | Leader.Received task :: turns' => task :: received turns'
  end.

(** The repository [processTask] derives from a task. *)
Definition repository_of (task : Task.t) : RepositoryInfo.t :=
  RepositoryInfo.mk (Task.RepositoryOwner task) (Task.RepositoryName task)
    (Task.BaseBranch task) "" (Task.RepositoryURL task).

(** The start request for a task and its plan. *)
Definition request_for (queue : string) (planned : Task.t * ImplementationPlan.t)
  : Temporal.StartWorkflowOptions.t * Workflows.WorkflowInput.t :=
  (Temporal.StartWorkflowOptions.mk (Temporal.workflowID planned.1) queue,
   Workflows.WorkflowInput.mk planned.1 planned.2 (repository_of planned.1)).

(** The runs the loop logged as started. *)
Definition started (l : list Leader.entry) : list (string * string) :=
  flat_map (fun e => match e with Leader.Started id wid => [(id, wid)] | _ => [] end) l.

End DispatchSpec.

(** ** internal/github: client.go, the pull request *)

Module GithubClient.

Module NewPullRequest.
Record t : Type := mk { Title : string; Head : string; Base : string; Body : string }.
End NewPullRequest.

(** The pull request the hosting API answers with, read through its
    getters. *)
Module PullRequest.
Record t : Type := mk {
  GetNumber : Z;
  GetHTMLURL : string;
  GetTitle : string;
  GetBody : string;
  GetState : string
}.
End PullRequest.

(** [apiClient.PullRequests.Create]: an oracle. *)
Definition Create : Type := string -> string -> NewPullRequest.t -> PullRequest.t * option error.

Definition CreatePullRequest (create : Create)
    (owner repo baseBranch headBranch title body : string) : option PRInfo.t * option error :=
  let newPR := NewPullRequest.mk title headBranch baseBranch body in
  match create owner repo newPR with
  | (_, Some e) => (None, Some ("failed to create pull request: " +:+ e))
  | (pr, None) =>
    let prInfo :=
      PRInfo.mk (PullRequest.GetNumber pr) (PullRequest.GetHTMLURL pr)
        (PullRequest.GetTitle pr) (PullRequest.GetBody pr) (PullRequest.GetState pr) in
    (Some prInfo, None)
  end.

(** A hosting service that opens what it is asked to, and the sample
    client over it. *)
Definition hosting : Create :=
  fun owner repo newPR =>
    (PullRequest.mk 7 ("https://github.com/" +:+ owner +:+ "/" +:+ repo +:+ "/pull/7")
       (NewPullRequest.Title newPR) (NewPullRequest.Body newPR) "open", None).

Definition sample : Activities.GithubClient :=
  Activities.mkGithubClient
    (Activities.CloneRepository Sample.github) (Activities.GetRepositoryPath Sample.github)
    (Activities.CreateBranch Sample.github) (Activities.CommitChanges Sample.github)
    (Activities.PushBranch Sample.github) (CreatePullRequest hosting).

End GithubClient.

(** ** internal/activities: testing.go *)

Module Testing.

(** The machine the activity runs on: [exec.LookPath], [filepath.Join],
    [filepath.Glob], and [go test ./...] run in a directory, with its
    combined output and its error. *)
Record Host : Type := mkHost {
  LookPath : string -> string * option error;
  Join : list string -> string;
  Glob : string -> list string * option error;
  GoTest : string -> string * option error
}.

Definition TestingActivity (h : Host) (repoPath : string)
  : Activities.TestingResult.t * option error :=
  let result := Activities.TestingResult.mk false "" [] in
  (* Example for Go projects *)
  match (LookPath h "go").2 with
  | None =>
    (* Check if it's a Go project *)
    match (Glob h (Join h [repoPath; "*.go"])).2 with
    | None =>
      let '(output, err) := GoTest h repoPath in
      let result :=
        Activities.TestingResult.mk (Activities.TestingResult.Passed result) output
          (Activities.TestingResult.Failures result) in
      match err with
      | Some e =>
        let result :=
          Activities.TestingResult.mk (Activities.TestingResult.Passed result)
            (Activities.TestingResult.Output result)
            (Activities.TestingResult.Failures result ++ [e]) in
        (result, None) (* Don't fail the workflow if tests fail *)
      | None =>
        (Activities.TestingResult.mk true (Activities.TestingResult.Output result)
           (Activities.TestingResult.Failures result), None)
      end
    | Some _ =>
      (Activities.TestingResult.mk true (Activities.TestingResult.Output result)
         (Activities.TestingResult.Failures result), None)
    end
  | Some _ =>
    (* If no tests found or project type not supported, assume success *)
    (Activities.TestingResult.mk true (Activities.TestingResult.Output result)
       (Activities.TestingResult.Failures result), None)
  end.

End Testing.

(** ** internal/temporal: client.go, status and cancellation *)

Module TemporalRuns.

(** [GetWorkflow] of the Temporal SDK hands back a handle for any
    workflow ID, and [Cancel] acts on the handle: oracles. *)
Record Sdk : Type := mkSdk {
  GetWorkflow : string -> string -> Temporal.WorkflowRun.t;
  Cancel : Temporal.WorkflowRun.t -> option error
}.

Definition GetWorkflowStatus (c : Sdk) (workflowID : string)
  : Temporal.WorkflowRun.t * option error :=
  let workflow := GetWorkflow c workflowID "" in
  (workflow, None).

Definition CancelWorkflow (c : Sdk) (workflowID : string) : option error :=
  let workflowRun := GetWorkflow c workflowID "" in
  Cancel c workflowRun.

End TemporalRuns.

(** ** internal/api/rest: handlers.go *)

Module Rest.

Module StartWorkflowRequest.
Record t : Type := mk {
  JiraTicketID : string;
  RepositoryOwner : string;
  RepositoryName : string;
  BaseBranch : string
}.
End StartWorkflowRequest.

Module StartWorkflowResponse.
Record t : Type := mk { WorkflowID : string; Status : string }.
End StartWorkflowResponse.

Module GetWorkflowStatusResponse.
Record t : Type := mk {
  WorkflowID : string;
  Status : string;
  JiraTicketID : string;
  PRURL : string;
  ErrorMessage : string
}.
End GetWorkflowStatusResponse.

Definition StatusOK : Z := 200.
Definition StatusBadRequest : Z := 400.
Definition StatusNotFound : Z := 404.
Definition StatusInternalServerError : Z := 500.

(** What a handler writes: [http.Error(w, text, code)], a value encoded
    as JSON under the implicit status 200, or a status with a body. *)
Inductive written (A : Type) : Type :=
| HttpError (text : string) (code : Z)
| Json (a : A)
| Body (code : Z) (body : string).
Arguments HttpError {A} text code.
Arguments Json {A} a.
Arguments Body {A} code body.

(** [json.NewDecoder(r.Body).Decode(&req)]: an oracle. *)
Definition Decoder : Type := string -> StartWorkflowRequest.t * option error.

(** [StartWorkflow] handles POST /workflows. *)
Definition StartWorkflow (decode : Decoder) (c : Temporal.Client) (body : string)
  : written StartWorkflowResponse.t * Temporal.Client :=
  match decode body with
  | (_, Some e) => (HttpError e StatusBadRequest, c)
  | (req, None) =>
    (* Create task from request *)
    let task :=
      Task.mk (StartWorkflowRequest.JiraTicketID req) "" "" "" ""
        (StartWorkflowRequest.RepositoryOwner req) (StartWorkflowRequest.RepositoryName req) ""
        (StartWorkflowRequest.BaseBranch req) 0 in
    (* Create minimal plan *)
    let plan := ImplementationPlan.mk "Manual workflow trigger" [] [] [] "" in
    let repo :=
      RepositoryInfo.mk (StartWorkflowRequest.RepositoryOwner req)
        (StartWorkflowRequest.RepositoryName req) (StartWorkflowRequest.BaseBranch req) ""
        ("https://github.com/" +:+ StartWorkflowRequest.RepositoryOwner req +:+ "/"
         +:+ StartWorkflowRequest.RepositoryName req) in
    match Temporal.StartWorkflow c task plan repo with
    | (inr e, c') => (HttpError e StatusInternalServerError, c')
    | (inl workflowID, c') => (Json (StartWorkflowResponse.mk workflowID "started"), c')
    end
  end.

(** [GetWorkflowStatus] handles GET /workflows/{id}. *)
Definition GetWorkflowStatus (sdk : TemporalRuns.Sdk) (workflowID : string)
  : written GetWorkflowStatusResponse.t :=
  match TemporalRuns.GetWorkflowStatus sdk workflowID with
  | (_, Some e) => HttpError e StatusNotFound
  | (_, None) => Json (GetWorkflowStatusResponse.mk workflowID "running" "" "" "")
  end.

(** [CancelWorkflow] handles DELETE /workflows/{id}. *)
Definition CancelWorkflow (sdk : TemporalRuns.Sdk) (workflowID : string) : written unit :=
  match TemporalRuns.CancelWorkflow sdk workflowID with
  | Some e => HttpError e StatusInternalServerError
  | None =>
    Body StatusOK
      ("{" +:+ JiraClient.quote +:+ "success" +:+ JiraClient.quote +:+ ": true}")
  end.

End Rest.

(** ** internal/api/grpc: the server *)

Module Grpc.

(** The messages of the service (package proto), as far as the server
    reads and writes them. *)
Module StartWorkflowRequest.
Record t : Type := mk {
  JiraTicketId : string;
  RepositoryOwner : string;
  RepositoryName : string;
  BaseBranch : string
}.
End StartWorkflowRequest.

Module StartWorkflowResponse.
Record t : Type := mk { WorkflowId : string; Status : string }.
End StartWorkflowResponse.

Module GetWorkflowStatusResponse.
Record t : Type := mk { WorkflowId : string; Status : string; ErrorMessage : string }.
End GetWorkflowStatusResponse.

Module CancelWorkflowResponse.
Record t : Type := mk { Success : bool; Message : string }.
End CancelWorkflowResponse.

Definition StartWorkflow (c : Temporal.Client) (req : StartWorkflowRequest.t)
  : (option StartWorkflowResponse.t * option error) * Temporal.Client :=
  let task :=
    Task.mk (StartWorkflowRequest.JiraTicketId req) "" "" "" ""
      (StartWorkflowRequest.RepositoryOwner req) (StartWorkflowRequest.RepositoryName req) ""
      (StartWorkflowRequest.BaseBranch req) 0 in
  let plan := ImplementationPlan.mk "Manual workflow trigger" [] [] [] "" in
  let repo :=
    RepositoryInfo.mk (StartWorkflowRequest.RepositoryOwner req)
      (StartWorkflowRequest.RepositoryName req) (StartWorkflowRequest.BaseBranch req) ""
      ("https://github.com/" +:+ StartWorkflowRequest.RepositoryOwner req +:+ "/"
       +:+ StartWorkflowRequest.RepositoryName req) in
  match Temporal.StartWorkflow c task plan repo with
  | (inr e, c') => ((None, Some e), c')
  | (inl workflowID, c') => ((Some (StartWorkflowResponse.mk workflowID "started"), None), c')
  end.

Definition GetWorkflowStatus (sdk : TemporalRuns.Sdk) (workflowId : string)
  : GetWorkflowStatusResponse.t * option error :=
  match TemporalRuns.GetWorkflowStatus sdk workflowId with
  | (_, Some e) => (GetWorkflowStatusResponse.mk workflowId "not_found" e, None)
  | (_, None) => (GetWorkflowStatusResponse.mk workflowId "running" "", None)
  end.

Definition CancelWorkflow (sdk : TemporalRuns.Sdk) (workflowId : string)
  : CancelWorkflowResponse.t * option error :=
  match TemporalRuns.CancelWorkflow sdk workflowId with
  | Some e => (CancelWorkflowResponse.mk false e, None)
  | None => (CancelWorkflowResponse.mk true "workflow cancelled", None)
  end.

End Grpc.

(** ** A point of a poll cycle *)

Module BackpressureSpec.
Import Jira.

(** The poll cycle started in [(p, w, sch)] comes to the send of [task]
    in the state [st]: it has gone through the statuses [earlier] of the
    filter and through the tasks [sent] the tracker returned for the next
    status, and [task], the next of them, is not marked. *)
Definition comes_to_send (p : Poller) (w : World) (sch : list sched)
    (task : Task.t) (st : state) : Prop :=
  exists earlier status later sent rest c' st1,
    statusFilter p = (earlier ++ status :: later)%list
    /\ poll_statuses earlier p w sch = (Completed, st1)
    /\ GetTasksByStatus (client (poller st1)) status = ((sent ++ task :: rest, None), c')%list
    /\ poll_tasks sent
         (mkPoller c' (statusFilter (poller st1)) (interval (poller st1))
            (processedTasks (poller st1)))
         (world st1) (schedule st1)
       = (Completed, st)
    /\ isProcessed (poller st) (Task.JiraTicketID task) = false.

(** A fresh poller on an empty channel of capacity 1: the channel fills
    in the middle of the cycle. *)
Definition poller_fresh : Poller := NewPoller Sample.tracker ["Ready"; "To Do"] 60.

Definition empty1 : World := mkWorld [] 1 0 false [].

(** The state of the cycle after the send of PROJ-42. *)
Definition after_first : state :=
  (poll_tasks [Sample.task]
     (mkPoller (tl Sample.tracker) ["Ready"; "To Do"] 60 ∅) empty1
     [idle; Sample.cancel_while_blocked]).2.

End BackpressureSpec.

(** ** A worker without handlers whose tests cannot run *)

Module SampleUnset.

Definition worker_unset_tests_broken : Workflows.Registry :=
  Workflows.registered Activities.unset Sample.codegen_ok Sample.tests_broken.

End SampleUnset.

(** * Properties *)

(** ** Strings *)

Lemma str_app_nil_l (s : string) : "" +:+ s = s.
Proof. reflexivity. Qed.

Lemma str_app_cons (c : ascii) (s t : string) : String c s +:+ t = String c (s +:+ t).
Proof. reflexivity. Qed.

Lemma str_app_nil_r (s : string) : s +:+ "" = s.
Proof. induction s as [|c s IH]; [reflexivity|]. rewrite str_app_cons, IH. reflexivity. Qed.

Lemma str_app_assoc (a b c : string) : (a +:+ b) +:+ c = a +:+ (b +:+ c).
Proof.
  induction a as [|x a IH]; [reflexivity|].
  rewrite !str_app_cons, IH. reflexivity.
Qed.

Lemma chars_app (a b : string) :
  list_ascii_of_string (a +:+ b) = (list_ascii_of_string a ++ list_ascii_of_string b)%list.
Proof.
  induction a as [|x a IH]; [reflexivity|].
  rewrite str_app_cons. simpl. rewrite IH. reflexivity.
Qed.

Lemma slice_to_all (s : string) (n : nat) : (String.length s <= n)%nat -> slice_to s n = s.
Proof.
  revert n; induction s as [|c s IH]; intros [|n] Hn; simpl in *; try reflexivity; try lia.
  rewrite IH by lia. reflexivity.
Qed.

Lemma Forall_false_forallb {A : Type} (f : A -> bool) (l : list A) :
  forallb (fun x => negb (f x)) l = true -> Forall (fun x => f x = false) l.
Proof.
  induction l as [|x l IH]; simpl; intros H; constructor.
  - destruct (f x); [discriminate | reflexivity].
  - apply IH. destruct (f x); [discriminate | exact H].
Qed.

Lemma byte_range (c : ascii) : 0 <= byte c < 256.
Proof. unfold byte. pose proof (N_ascii_bounded c). lia. Qed.

Lemma byte_chr (x : Z) : 0 <= x < 256 -> byte (chr x) = x.
Proof.
  intros Hx. unfold byte, chr. rewrite N_ascii_embedding by lia. lia.
Qed.

(** ** Branch names *)

Section BranchNames.

Lemma truncateString_30 (s : string) :
  Workflows.truncateString s 30 = BranchSpec.truncate s 30.
Proof.
  unfold Workflows.truncateString, BranchSpec.truncate.
  destruct (Z.leb_spec (Z.of_nat (String.length s)) 30) as [Hle|Hgt].
  - symmetry. apply slice_to_all. lia.
  - reflexivity.
Qed.

Lemma in_charset_code (r : Z) :
  BranchSpec.in_charset r =
  ((byte "a" <=? r) && (r <=? byte "z")) || ((byte "A" <=? r) && (r <=? byte "Z"))
  || ((byte "0" <=? r) && (r <=? byte "9")) || (r =? byte "-") || (r =? byte "_").
Proof.
  unfold BranchSpec.in_charset.
  change (byte "a") with 97; change (byte "z") with 122; change (byte "A") with 65;
    change (byte "Z") with 90; change (byte "0") with 48; change (byte "9") with 57;
    change (byte "-") with 45; change (byte "_") with 95.
  repeat match goal with
         | |- context [?a <=? ?b] => destruct (Z.leb_spec a b)
         | |- context [?a =? ?b] => destruct (Z.eqb_spec a b)
         end; simpl; try reflexivity; lia.
Qed.

Lemma in_charset_ascii (r : Z) : BranchSpec.in_charset r = true -> 0 <= r < 128.
Proof.
  unfold BranchSpec.in_charset. intros H.
  repeat match type of H with
         | context [?a <=? ?b] => destruct (Z.leb_spec a b)
         | context [?a =? ?b] => destruct (Z.eqb_spec a b)
         end; simpl in H; try discriminate; lia.
Qed.

Lemma string_of_rune_ascii (r : Z) :
  0 <= r < 128 -> Utf8.string_of_rune r = String (chr r) "".
Proof.
  intros Hr. unfold Utf8.string_of_rune.
  destruct (Z.leb_spec 0 r); [|lia]. destruct (Z.leb_spec r 0x7F); [|lia]. reflexivity.
Qed.

Lemma sanitize_rune_spec (result : string) (r : Z) :
  Workflows.sanitize_rune result r = result +:+ BranchSpec.sanitize_char r.
Proof.
  unfold Workflows.sanitize_rune, BranchSpec.sanitize_char.
  rewrite <- in_charset_code.
  destruct (BranchSpec.in_charset r) eqn:Hin.
  - rewrite string_of_rune_ascii by (apply in_charset_ascii; exact Hin). reflexivity.
  - change (byte " ") with 32. destruct (r =? 32); [reflexivity|].
    rewrite str_app_nil_r. reflexivity.
Qed.

Lemma fold_sanitize (l : list Z) (acc : string) :
  fold_left Workflows.sanitize_rune l acc
  = acc +:+ fold_right String.append "" (map BranchSpec.sanitize_char l).
Proof.
  revert acc; induction l as [|r l IH]; intros acc; simpl.
  - rewrite str_app_nil_r. reflexivity.
  - rewrite IH, sanitize_rune_spec, str_app_assoc. reflexivity.
Qed.

Lemma sanitizeBranchName_spec (s : string) :
  Workflows.sanitizeBranchName s = BranchSpec.sanitize s.
Proof. unfold Workflows.sanitizeBranchName. rewrite fold_sanitize. reflexivity. Qed.

Lemma sanitize_char_charset (r : Z) :
  Forall (fun c => BranchSpec.in_charset (byte c) = true)
         (list_ascii_of_string (BranchSpec.sanitize_char r)).
Proof.
  unfold BranchSpec.sanitize_char.
  destruct (BranchSpec.in_charset r) eqn:Hin.
  - simpl. constructor; [|constructor].
    rewrite byte_chr; [exact Hin|]. apply in_charset_ascii in Hin. lia.
  - destruct (r =? 32); simpl; repeat constructor.
Qed.

Lemma sanitize_charset (s : string) :
  Forall (fun c => BranchSpec.in_charset (byte c) = true)
         (list_ascii_of_string (BranchSpec.sanitize s)).
Proof.
  unfold BranchSpec.sanitize.
  induction (Utf8.runes s) as [|r l IH]; simpl; [constructor|].
  rewrite chars_app. apply Forall_app. split; [apply sanitize_char_charset | exact IH].
Qed.

Lemma github_sanitize_rune (result : string) (r : Z) :
  Github.sanitize_rune result r = Workflows.sanitize_rune result r.
Proof. reflexivity. Qed.

End BranchNames.

(** C7. The branch name of a ticket is
    ["khitomer/" + ticketID + "-" + sanitize(truncate(title, 30))], where
    [sanitize] keeps the characters of [A-Za-z0-9_-], turns each space into
    a hyphen and drops every other character; both copies of the function
    (the workflow's and internal/github's) compute it; ticket ["PROJ-1"]
    with title ["Fix login bug!!"] gives ["khitomer/PROJ-1-Fix-login-bug"];
    and the sanitized part only holds characters of [A-Za-z0-9_-]. *)
Theorem branch_name_sanitized (ticketID title : string) :
  Workflows.generateBranchName ticketID title = BranchSpec.branch_name ticketID title
  /\ Github.GenerateBranchName ticketID title = BranchSpec.branch_name ticketID title
  /\ Workflows.generateBranchName "PROJ-1" "Fix login bug!!" = "khitomer/PROJ-1-Fix-login-bug"
  /\ Forall (fun c => BranchSpec.in_charset (byte c) = true)
       (list_ascii_of_string
          (Workflows.sanitizeBranchName (Workflows.truncateString title 30))).
Proof.
  assert (Hw : Workflows.generateBranchName ticketID title
               = BranchSpec.branch_name ticketID title).
  { unfold Workflows.generateBranchName, BranchSpec.branch_name.
    rewrite truncateString_30, sanitizeBranchName_spec. reflexivity. }
  split; [exact Hw|]. split; [rewrite <- Hw; reflexivity|]. split.
  - vm_compute. reflexivity.
  - rewrite sanitizeBranchName_spec. apply sanitize_charset.
Qed.

(** ** Run identifiers *)

Section RunIdentity.

(** [StartWorkflow] sends the service one request, under the workflow ID
    of the task and on the task queue of the client. *)
Lemma StartWorkflow_request (c : Temporal.Client) (task : Task.t)
    (plan : ImplementationPlan.t) (repo : RepositoryInfo.t) :
  Temporal.requests (Temporal.temporalClient (Temporal.StartWorkflow c task plan repo).2)
  = (Temporal.requests (Temporal.temporalClient c)
     ++ [(Temporal.StartWorkflowOptions.mk (Temporal.workflowID task) (Temporal.taskQueue c),
          Workflows.WorkflowInput.mk task plan repo)])%list.
Proof.
  unfold Temporal.StartWorkflow, Temporal.ExecuteWorkflow.
  destruct (Temporal.answers (Temporal.temporalClient c)) as [|answer rest]; simpl.
  - reflexivity.
  - destruct (answer _ _) as [we [e|]]; reflexivity.
Qed.

End RunIdentity.

(** C3. The run identifier is a function of the ticket identifier and the
    repository name alone: for two tasks that agree on both, whatever the
    clients, plans, repositories and the other fields of the tasks,
    [StartWorkflow] asks the service for the same workflow ID, the string
    ["implementation-<ticketID>-<repoName>"]. *)
Theorem workflow_id_deterministic
    (c1 c2 : Temporal.Client) (t1 t2 : Task.t)
    (plan1 plan2 : ImplementationPlan.t) (repo1 repo2 : RepositoryInfo.t) :
  Task.JiraTicketID t1 = Task.JiraTicketID t2 ->
  Task.RepositoryName t1 = Task.RepositoryName t2 ->
  let id := "implementation-" +:+ Task.JiraTicketID t1 +:+ "-" +:+ Task.RepositoryName t1 in
  let asked c t plan repo :=
    map (fun rq => Temporal.StartWorkflowOptions.ID rq.1)
      (drop (length (Temporal.requests (Temporal.temporalClient c)))
         (Temporal.requests
            (Temporal.temporalClient (Temporal.StartWorkflow c t plan repo).2))) in
  asked c1 t1 plan1 repo1 = [id] /\ asked c2 t2 plan2 repo2 = [id].
Proof.
  intros Hid Hrepo id asked. subst asked id. simpl.
  rewrite !StartWorkflow_request, !drop_app_length. simpl.
  unfold Temporal.workflowID. rewrite Hid, Hrepo. split; reflexivity.
Qed.

Lemma workflow_id_deterministic_witness :
  let t1 := Task.mk "PROJ-1" "Fix login" "d1" "Ready" "ann" "org" "app" "u1" "main" 0 in
  let t2 := Task.mk "PROJ-1" "Other title" "d2" "In Progress" "bob" "acme" "app" "u2" "dev" 7 in
  let plan := ImplementationPlan.mk "s" [] [] [] "low" in
  let repo := RepositoryInfo.mk "org" "app" "main" "" "u1" in
  let c1 := Temporal.mkClient (Temporal.mkService [] []) "q1" in
  let c2 :=
    Temporal.mkClient
      (Temporal.mkService
         [fun o _ => (Temporal.WorkflowRun.mk (Temporal.StartWorkflowOptions.ID o) "run-1", None)]
         [(Temporal.StartWorkflowOptions.mk "implementation-OLD-9-lib" "q2",
           Workflows.WorkflowInput.mk t2 plan repo)])
      "q2" in
  map (fun rq => Temporal.StartWorkflowOptions.ID rq.1)
      (drop (length (Temporal.requests (Temporal.temporalClient c1)))
         (Temporal.requests
            (Temporal.temporalClient (Temporal.StartWorkflow c1 t1 plan repo).2)))
  = ["implementation-PROJ-1-app"]
  /\ map (fun rq => Temporal.StartWorkflowOptions.ID rq.1)
      (drop (length (Temporal.requests (Temporal.temporalClient c2)))
         (Temporal.requests
            (Temporal.temporalClient (Temporal.StartWorkflow c2 t2 plan repo).2)))
  = ["implementation-PROJ-1-app"].
Proof.
  intros t1 t2 plan repo c1 c2.
  apply (workflow_id_deterministic c1 c2 t1 t2 plan plan repo repo); reflexivity.
Defined.

(** ** The planner *)

Section PlannerTotal.

Lemma parseResponse_total (response : string) (task : Task.t) :
  exists plan, Planner.parseResponse response task = inl plan.
Proof. unfold Planner.parseResponse. eexists. reflexivity. Qed.

End PlannerTotal.

(** C6. [Plan] fails exactly when the completion backend returns an error
    or no choice. For a response with at least one choice and no error,
    [Plan] returns the plan [parseResponse] builds from the first choice,
    however malformed its text: [parseResponse] returns no error. *)
Theorem Plan_fails_iff_backend_fails (p : Planner.AIPlanner) (task : Task.t) :
  let answer :=
    (Planner.CreateChatCompletion (Planner.client p)
       (Planner.request p (Planner.buildPrompt task))).1 in
  ((exists e, (Planner.AIPlanner_Plan p task).1 = inr e)
   <-> (answer.2 <> None \/ Planner.ChatCompletionResponse.Choices answer.1 = []))
  /\ (forall choice rest,
        answer.2 = None ->
        Planner.ChatCompletionResponse.Choices answer.1 = choice :: rest ->
        exists plan,
          Planner.parseResponse (Planner.ChatCompletionMessage.Content choice) task = inl plan
          /\ (Planner.AIPlanner_Plan p task).1 = inl plan)
  /\ (forall response, exists plan, Planner.parseResponse response task = inl plan).
Proof.
  intros answer. subst answer.
  unfold Planner.AIPlanner_Plan.
  destruct (Planner.CreateChatCompletion _ _) as [[resp err] c']. cbn [fst snd].
  split; [|split].
  - destruct err as [e|].
    + split; [intros _; left; discriminate | intros _; eexists; reflexivity].
    + destruct (Planner.ChatCompletionResponse.Choices resp) as [|choice rest].
      * split; [intros _; right; reflexivity | intros _; eexists; reflexivity].
      * destruct (parseResponse_total (Planner.ChatCompletionMessage.Content choice) task)
          as [plan Hplan].
        rewrite Hplan. cbn [fst snd].
        split; [intros [e He]; discriminate | intros [Hne|Hnil]; [congruence|discriminate]].
  - intros choice rest -> Hchoices. rewrite Hchoices.
    destruct (parseResponse_total (Planner.ChatCompletionMessage.Content choice) task)
      as [plan Hplan].
    exists plan. rewrite Hplan. split; reflexivity.
  - intros response. apply parseResponse_total.
Qed.

(** ** Occurrences of a string in another *)

Section Infix.

Lemma occurs_refl (s : string) : occurs s s.
Proof. exists "", "". rewrite str_app_nil_r. reflexivity. Qed.

Lemma occurs_trans (u t s : string) : occurs u t -> occurs t s -> occurs u s.
Proof.
  intros (p2 & q2 & ->) (p1 & q1 & ->).
  exists (p1 +:+ p2), (q2 +:+ q1). rewrite !str_app_assoc. reflexivity.
Qed.

Lemma slice_split (s : string) (n : nat) : s = slice_to s n +:+ slice_from s n.
Proof.
  revert s; induction n as [|n IH]; intros [|c s]; simpl; try reflexivity.
  rewrite str_app_cons, <- IH. reflexivity.
Qed.

Lemma occurs_slice_from (s : string) (n : nat) : occurs (slice_from s n) s.
Proof. exists (slice_to s n), "". rewrite str_app_nil_r. apply slice_split. Qed.

Lemma occurs_slice_to (s : string) (n : nat) : occurs (slice_to s n) s.
Proof. exists "", (slice_from s n). apply slice_split. Qed.

Lemma prefix_split (sub s : string) :
  String.prefix sub s = true -> s = sub +:+ slice_from s (String.length sub).
Proof.
  revert s; induction sub as [|a sub IH]; intros s Hp.
  - reflexivity.
  - destruct s as [|b s]; simpl in Hp; [discriminate|].
    destruct (ascii_dec a b) as [->|]; [|discriminate].
    rewrite str_app_cons. simpl. f_equal. apply IH. exact Hp.
Qed.

Lemma prefix_app (sub post : string) : String.prefix sub (sub +:+ post) = true.
Proof.
  induction sub as [|a sub IH]; [destruct post; reflexivity|].
  rewrite str_app_cons. simpl. destruct (ascii_dec a a); [exact IH | congruence].
Qed.

Lemma prefix_occurs (sub s : string) : String.prefix sub s = true -> occurs sub s.
Proof.
  intros Hp. exists "", (slice_from s (String.length sub)).
  rewrite str_app_nil_l. apply prefix_split. exact Hp.
Qed.

(** [Index] is -1 exactly on the strings [sub] does not occur in. *)
Lemma Index_at_absent (sub s : string) (i : Z) :
  0 <= i -> (GoStrings.Index_at s sub i = -1 <-> ~ occurs sub s).
Proof.
  revert i; induction s as [|c s IH]; intros i Hi.
  - cbn [GoStrings.Index_at]. destruct (String.prefix sub "") eqn:Hp.
    + split; [intros ->; lia | intros Hn; exfalso; apply Hn, prefix_occurs, Hp].
    + split; [|reflexivity]. intros _ (pre & post & Hs).
      destruct pre; [|discriminate]. rewrite str_app_nil_l in Hs.
      rewrite Hs, prefix_app in Hp. discriminate.
  - cbn [GoStrings.Index_at]. destruct (String.prefix sub (String c s)) eqn:Hp.
    + split; [intros ->; lia | intros Hn; exfalso; apply Hn, prefix_occurs, Hp].
    + rewrite (IH (i + 1)) by lia. split.
      * intros Hn (pre & post & Hs). destruct pre as [|x pre].
        -- rewrite str_app_nil_l in Hs. rewrite Hs, prefix_app in Hp. discriminate.
        -- rewrite str_app_cons in Hs. injection Hs as _ Hs.
           apply Hn. exists pre, post. exact Hs.
      * intros Hn (pre & post & Hs). apply Hn.
        exists (String c pre), post. rewrite str_app_cons, Hs. reflexivity.
Qed.

Lemma Index_absent (sub s : string) : GoStrings.Index s sub = -1 <-> ~ occurs sub s.
Proof. apply Index_at_absent. lia. Qed.

Lemma Index_absent_within (sub t s : string) :
  occurs t s -> GoStrings.Index s sub = -1 -> GoStrings.Index t sub = -1.
Proof.
  rewrite !Index_absent. intros Hts Hn Hsub. apply Hn. eapply occurs_trans; eassumption.
Qed.

Lemma TrimLeft_occurs (fuel : nat) (s : string) : occurs (GoStrings.TrimLeft_fuel fuel s) s.
Proof.
  revert s; induction fuel as [|fuel IH]; intros s;
    cbn [GoStrings.TrimLeft_fuel]; [apply occurs_refl|].
  destruct (GoStrings.space_prefix s) as [|n]; [apply occurs_refl|].
  eapply occurs_trans; [apply IH | apply occurs_slice_from].
Qed.

Lemma TrimRight_occurs (fuel : nat) (s : string) : occurs (GoStrings.TrimRight_fuel fuel s) s.
Proof.
  revert s; induction fuel as [|fuel IH]; intros s;
    cbn [GoStrings.TrimRight_fuel]; [apply occurs_refl|].
  destruct (GoStrings.space_suffix s) as [|n]; [apply occurs_refl|].
  eapply occurs_trans; [apply IH | apply occurs_slice_to].
Qed.

Lemma TrimSpace_occurs (s : string) : occurs (GoStrings.TrimSpace s) s.
Proof.
  unfold GoStrings.TrimSpace.
  eapply occurs_trans; [apply TrimRight_occurs | apply TrimLeft_occurs].
Qed.

End Infix.

(** ** Parsing the response of the backend *)

Section ParseResponse.
Import GoStrings.

Lemma parseStep_untyped (raw line : string) (order : Z) :
  occurs line raw ->
  exists step,
    Planner.parseStep line order = Some step
    /\ PlanStep.Order step = order
    /\ (PlanSpec.untyped raw -> PlanStep.ActivityType step = "codegen").
Proof.
  intros Hocc. unfold Planner.parseStep.
  set (l1 := TrimSpace line).
  set (l2 := if Index l1 "." =? -1 then l1
             else TrimSpace (slice_from l1 (Z.to_nat (Index l1 "." + 1)))).
  assert (Hl2 : occurs l2 raw).
  { assert (Hl1 : occurs l1 raw)
      by (eapply occurs_trans; [apply TrimSpace_occurs | exact Hocc]).
    subst l2. destruct (Index l1 "." =? -1); [exact Hl1|].
    eapply occurs_trans; [apply TrimSpace_occurs|].
    eapply occurs_trans; [apply occurs_slice_from | exact Hl1]. }
  destruct (Index l2 "[TYPE:" =? -1) eqn:Hidx.
  - eexists. split; [reflexivity|]. split; [reflexivity|]. intros _. reflexivity.
  - destruct (Index (slice_from l2 (Z.to_nat (Index l2 "[TYPE:"))) "]" =? -1).
    + eexists. split; [reflexivity|]. split; [reflexivity|]. intros _. reflexivity.
    + eexists. split; [reflexivity|]. split; [reflexivity|]. intros Hun. exfalso.
      apply Z.eqb_neq in Hidx. apply Hidx.
      eapply Index_absent_within; [exact Hl2 | exact Hun].
Qed.

Lemma parseLine_Summary (st : Planner.parser) (raw : string) :
  HasPrefix (TrimSpace raw) "SUMMARY:" = false ->
  Planner.Summary (Planner.parseLine st raw) = Planner.Summary st.
Proof.
  intros Hno. unfold Planner.parseLine. rewrite Hno.
  repeat match goal with
         | |- context [if ?b then _ else _] => destruct b
         | |- context [match ?o with Some _ => _ | None => _ end] => destruct o
         end; reflexivity.
Qed.

Lemma parseLines_Summary (lines : list string) (st : Planner.parser) :
  Forall (fun raw => HasPrefix (TrimSpace raw) "SUMMARY:" = false) lines ->
  Planner.Summary (fold_left Planner.parseLine lines st) = Planner.Summary st.
Proof.
  intros Hall. revert st. induction Hall as [|raw lines Hraw _ IH]; intros st; simpl.
  - reflexivity.
  - rewrite IH. apply parseLine_Summary. exact Hraw.
Qed.

Lemma parseLines_Steps (lines : list string) (st : Planner.parser) :
  exists steps,
    Planner.Steps (fold_left Planner.parseLine lines st) = (Planner.Steps st ++ steps)%list
    /\ Forall2 PlanSpec.step_of_line
         (PlanSpec.step_lines_in (String.eqb (Planner.currentSection st) "steps") lines)
         steps.
Proof.
  revert st. induction lines as [|raw lines IH]; intros st.
  - exists []. simpl. rewrite app_nil_r. split; [reflexivity | constructor].
  - (* a labelled line leaves the steps as they are and sets the section *)
    assert (Hlabel : forall st' opens,
               Planner.Steps st' = Planner.Steps st ->
               String.eqb (Planner.currentSection st') "steps" = opens ->
               exists steps,
                 Planner.Steps (fold_left Planner.parseLine lines st')
                 = (Planner.Steps st ++ steps)%list
                 /\ Forall2 PlanSpec.step_of_line (PlanSpec.step_lines_in opens lines) steps).
    { intros st' opens Hsame <-. rewrite <- Hsame. apply IH. }
    cbn [fold_left PlanSpec.step_lines_in].
    unfold Planner.parseLine at 2. unfold PlanSpec.label.
    destruct (String.eqb (TrimSpace raw) ""); [apply IH|].
    destruct (HasPrefix (TrimSpace raw) "SUMMARY:"); [apply Hlabel; reflexivity|].
    destruct (HasPrefix (TrimSpace raw) "STEPS:"); [apply Hlabel; reflexivity|].
    destruct (HasPrefix (TrimSpace raw) "FILES_MODIFY:"); [apply Hlabel; reflexivity|].
    destruct (HasPrefix (TrimSpace raw) "FILES_CREATE:"); [apply Hlabel; reflexivity|].
    destruct (HasPrefix (TrimSpace raw) "COMPLEXITY:"); [apply Hlabel; reflexivity|].
    destruct (String.eqb (Planner.currentSection st) "steps") eqn:Hsec.
    + destruct (parseStep_untyped raw (TrimSpace raw) (Planner.stepOrder st)
                  (TrimSpace_occurs raw)) as (step & Hstep & Horder & Htype).
      rewrite Hstep.
      destruct (IH (Planner.mkParser (Planner.Summary st) (Planner.Steps st ++ [step])
                      (Planner.FilesToModify st) (Planner.FilesToCreate st)
                      (Planner.EstimatedComplexity st) (Planner.currentSection st)
                      (Planner.stepOrder st + 1))) as (steps & Hsteps & Hall).
      cbn [Planner.currentSection Planner.Steps] in Hsteps, Hall. rewrite Hsec in Hall.
      exists (step :: steps). split.
      * rewrite Hsteps, <- app_assoc. reflexivity.
      * constructor; [|exact Hall]. split; [rewrite Horder; exact Hstep | exact Htype].
    + specialize (IH st). rewrite Hsec in IH. exact IH.
Qed.

End ParseResponse.

(** C5, as the code has it. A response none of whose lines, once the white
    space around it is trimmed, starts with ["SUMMARY:"] gives a plan whose
    summary is ["Implementation plan for "] followed by the ticket
    identifier; and the steps of the plan answer the step lines of the
    response one for one, a step line with no ["[TYPE:"] annotation giving a
    step of type ["codegen"]. *)
Theorem parseResponse_defaults (response : string) (task : Task.t) :
  exists plan,
    Planner.parseResponse response task = inl plan
    /\ (Forall (fun raw => GoStrings.HasPrefix (GoStrings.TrimSpace raw) "SUMMARY:" = false)
          (GoStrings.Split response (chr 10)) ->
        ImplementationPlan.Summary plan = PlanSpec.default_summary task)
    /\ Forall2 PlanSpec.step_of_line (PlanSpec.step_lines response) (ImplementationPlan.Steps plan).
Proof.
  unfold Planner.parseResponse, Planner.parseLines. eexists. split; [reflexivity|].
  cbn [ImplementationPlan.Summary ImplementationPlan.Steps]. split.
  - intros Hall. rewrite parseLines_Summary by exact Hall. reflexivity.
  - destruct (parseLines_Steps (GoStrings.Split response (chr 10)) Planner.parser_init)
      as (steps & Hsteps & Hall).
    rewrite Hsteps. exact Hall.
Qed.

Lemma parseResponse_defaults_witness :
  let response := "STEPS:" +:+ nl +:+ "1. Add the handler" +:+ nl +:+ "COMPLEXITY: low" in
  let task := Task.mk "PROJ-1" "Fix login" "" "Ready" "" "org" "app" "" "main" 0 in
  exists plan,
    Planner.parseResponse response task = inl plan
    /\ ImplementationPlan.Summary plan = "Implementation plan for PROJ-1"
    /\ map PlanStep.ActivityType (ImplementationPlan.Steps plan) = ["codegen"].
Proof.
  intros response task.
  destruct (parseResponse_defaults response task) as (plan & Hplan & Hsummary & _).
  exists plan. split; [exact Hplan|]. split.
  - apply Hsummary. apply Forall_false_forallb. vm_compute. reflexivity.
  - vm_compute in Hplan. injection Hplan as <-. reflexivity.
Defined.

(** C5, as stated, fails on an indented summary line: no line of the
    response starts with ["SUMMARY:"], yet the summary of the plan is the
    text of that line and not the default. *)
Lemma parseResponse_indented_summary :
  let response := "  SUMMARY: Add a login handler" +:+ nl +:+ "STEPS:" +:+ nl +:+ "1. Write it" in
  let task := Task.mk "PROJ-1" "Fix login" "" "Ready" "" "org" "app" "" "main" 0 in
  Forall (fun line => GoStrings.HasPrefix line "SUMMARY:" = false)
         (GoStrings.Split response (chr 10))
  /\ (exists plan,
        Planner.parseResponse response task = inl plan
        /\ ImplementationPlan.Summary plan = "Add a login handler"
        /\ ImplementationPlan.Summary plan <> "Implementation plan for " +:+ Task.JiraTicketID task).
Proof.
  intros response task. split.
  - apply Forall_false_forallb. vm_compute. reflexivity.
  - eexists. split; [vm_compute; reflexivity|]. split; [reflexivity | discriminate].
Qed.

(** ** The pipeline *)

Section Pipeline.
Import Workflows PipelineSpec.

(** Take the run apart, one activity outcome at a time. *)
Ltac outcome reg :=
  match goal with
  | |- context [CloneRepositoryActivity reg ?a] =>
    destruct (CloneRepositoryActivity reg a) as [? [?|]] eqn:?
  | |- context [CreateBranchActivity reg ?a ?b] =>
    destruct (CreateBranchActivity reg a b) as [? [?|]] eqn:?
  | |- context [CodeGenerationActivity reg ?a ?b ?c] =>
    destruct (CodeGenerationActivity reg a b c) as [? [?|]] eqn:?
  | |- context [TestingActivity reg ?a] =>
    destruct (TestingActivity reg a) as [? [?|]] eqn:?
  | |- context [CommitChangesActivity reg ?a ?b ?c] =>
    destruct (CommitChangesActivity reg a b c) as [? [?|]] eqn:?
  | |- context [CreatePRActivity reg ?a ?b ?c] =>
    destruct (CreatePRActivity reg a b c) as [[? ? [?|] ? ?] [?|]] eqn:?
  | |- context [UpdateJiraActivity reg ?a ?b] =>
    destruct (UpdateJiraActivity reg a b) as [? [?|]] eqn:?
  end;
  cbn [app fst snd Activities.GitHubOperationResult.PRInfo
       Activities.GitHubOperationResult.BranchName
       Activities.GitHubOperationResult.RepositoryPath
       Activities.CodeGenerationResult.Summary
       Activities.GitHubOperationResult.zero Activities.CodeGenerationResult.zero].

Ltac run_apart reg :=
  unfold run, ImplementationWorkflow, bind, ExecuteActivity, check, deref, ret, Get;
  cbn [app]; repeat outcome reg.

(** Which call of a history is meant. *)
Ltac which_call H :=
  repeat (apply elem_of_cons in H as [->|H]); [..|apply elem_of_nil in H; destruct H].

(** What a hypothesis on every call of a history says of each. *)
Ltac each_call H :=
  rewrite <- Forall_forall in H;
  repeat (apply Forall_cons in H as [? H]); clear H.

Ltac use_outcomes :=
  cbn [returned_error returned_pr step] in *;
  repeat match goal with
         | H : ?x = (_, _), H' : context [?x] |- _ => rewrite H in H'
         end;
  cbn [fst snd Activities.GitHubOperationResult.PRInfo] in *.

Lemma fatal_step_ends_run (reg : Registry) (input : WorkflowInput.t) (c : call) (err : error) :
  c ∈ (run reg input).2 -> fatal (step c) = true -> returned_error reg c = Some err ->
  (run reg input).1 = Error err /\ steps (run reg input).2 = seq 1 (step c).
Proof.
  revert c err. run_apart reg.
  all: intros c err Hin Hfatal Herr; which_call Hin; try discriminate Hfatal.
  all: use_outcomes; try discriminate Herr.
  all: injection Herr as ->; split; reflexivity.
Qed.

Lemma tolerated_steps_pass (reg : Registry) (input : WorkflowInput.t) (pr : PRInfo.t) :
  (forall c, c ∈ (run reg input).2 -> fatal (step c) = true -> returned_error reg c = None) ->
  (forall c, c ∈ (run reg input).2 -> step c = 6%nat -> returned_pr reg c = Some pr) ->
  (run reg input).1 = Value (Some pr)
  /\ steps (run reg input).2 = [1; 2; 3; 4; 5; 6; 7]%nat.
Proof.
  run_apart reg.
  all: intros Hok Hpr; each_call Hok; each_call Hpr.
  all: repeat match goal with
         | H : fatal _ = true -> _ |- _ =>
           first [specialize (H eq_refl) | clear H]
         | H : @eq nat _ 6%nat -> _ |- _ =>
           first [specialize (H eq_refl) | clear H]
         end.
  all: use_outcomes; try discriminate.
  all: match goal with H : Some _ = Some _ |- _ => injection H as -> end.
  all: split; reflexivity.
Qed.

(** Whatever the tests return, the run goes on to the commit. *)
Lemma tests_never_stop (reg : Registry) (input : WorkflowInput.t) (c : call) :
  c ∈ (run reg input).2 -> step c = 4%nat -> 5%nat ∈ steps (run reg input).2.
Proof.
  revert c. run_apart reg.
  all: intros c Hin Hstep; which_call Hin; try discriminate Hstep.
  all: cbn [steps map step]; do 4 apply list_elem_of_further; apply list_elem_of_here.
Qed.

End Pipeline.

(** C2, as the code has it. In every run of [ImplementationWorkflow]:
    when the activity of step 1, 2, 3, 5 or 6 returns an error, the
    workflow returns that error and the steps it went through are those up
    to the failed one, none after it; and when none of these steps returns
    an error and step 6 hands back a review request, the workflow returns
    that review request and goes through the seven steps, whatever steps 4
    and 7 return, an error included. Whatever step 4 returns, step 5 is
    taken next. *)
Theorem fatal_and_tolerated_steps (reg : Workflows.Registry) (input : Workflows.WorkflowInput.t) :
  let res := (Workflows.run reg input).1 in
  let h := (Workflows.run reg input).2 in
  (forall c err,
      c ∈ h -> PipelineSpec.fatal (Workflows.step c) = true ->
      PipelineSpec.returned_error reg c = Some err ->
      res = Workflows.Error err /\ PipelineSpec.steps h = seq 1 (Workflows.step c))
  /\ (forall pr,
        (forall c, c ∈ h -> PipelineSpec.fatal (Workflows.step c) = true ->
                   PipelineSpec.returned_error reg c = None) ->
        (forall c, c ∈ h -> Workflows.step c = 6%nat ->
                   PipelineSpec.returned_pr reg c = Some pr) ->
        res = Workflows.Value (Some pr)
        /\ PipelineSpec.steps h = [1; 2; 3; 4; 5; 6; 7]%nat)
  /\ (forall c, c ∈ h -> Workflows.step c = 4%nat -> 5%nat ∈ PipelineSpec.steps h).
Proof.
  intros res h. subst res h. split; [|split].
  - intros c err. apply fatal_step_ends_run.
  - intros pr. apply tolerated_steps_pass.
  - intros c. apply tests_never_stop.
Qed.

Lemma fatal_and_tolerated_steps_witness :
  (* tests that cannot run and a comment that is refused leave the run a success *)
  ((Workflows.run Sample.worker_tolerating Sample.input).1 = Workflows.Value (Some Sample.pr)
   /\ PipelineSpec.steps (Workflows.run Sample.worker_tolerating Sample.input).2
      = [1; 2; 3; 4; 5; 6; 7]%nat)
  (* a rejected push ends the run at step 5 *)
  /\ ((Workflows.run Sample.worker_no_push Sample.input).1
      = Workflows.Error "failed to push: remote rejected"
      /\ PipelineSpec.steps (Workflows.run Sample.worker_no_push Sample.input).2
         = [1; 2; 3; 4; 5]%nat).
Proof.
  split.
  - apply (proj1 (proj2 (fatal_and_tolerated_steps Sample.worker_tolerating Sample.input))
             Sample.pr).
    + intros c Hin Hfatal. vm_compute in Hin.
      repeat (apply elem_of_cons in Hin as [->|Hin]); try reflexivity;
        try discriminate Hfatal.
      apply elem_of_nil in Hin. destruct Hin.
    + intros c Hin Hstep. vm_compute in Hin.
      repeat (apply elem_of_cons in Hin as [->|Hin]); try reflexivity;
        try discriminate Hstep.
      apply elem_of_nil in Hin. destruct Hin.
  - apply (proj1 (fatal_and_tolerated_steps Sample.worker_no_push Sample.input)
             (Workflows.CallCommitChanges
                (RepositoryInfo.mk "org" "app" "main" "khitomer/PROJ-42-Fix-login-bug"
                   "https://github.com/org/app")
                "/tmp/khitomer-workspace/org/app" "Repair the session check")).
    + vm_compute. do 4 apply list_elem_of_further. apply list_elem_of_here.
    + reflexivity.
    + reflexivity.
Defined.

(** C2, as stated, fails for a run whose step 6 hands back no review
    request: on a worker whose GitHub handler was never set and whose
    tests cannot run, the activity of step 4 returns an error and no other
    activity does, and the run does not end with the review request: it
    returns no value and never reaches step 7. *)
Lemma failed_tests_without_review_request :
  Workflows.CallTesting "" ∈ (Workflows.run SampleUnset.worker_unset_tests_broken Sample.input).2
  /\ PipelineSpec.returned_error SampleUnset.worker_unset_tests_broken (Workflows.CallTesting "")
     = Some "exec: go: executable file not found"
  /\ (forall c, c ∈ (Workflows.run SampleUnset.worker_unset_tests_broken Sample.input).2 ->
                PipelineSpec.fatal (Workflows.step c) = true ->
                PipelineSpec.returned_error SampleUnset.worker_unset_tests_broken c = None)
  /\ (forall v, (Workflows.run SampleUnset.worker_unset_tests_broken Sample.input).1
                <> Workflows.Value v)
  /\ PipelineSpec.steps (Workflows.run SampleUnset.worker_unset_tests_broken Sample.input).2
     = [1; 2; 3; 4; 5; 6]%nat.
Proof.
  split; [vm_compute; do 3 apply list_elem_of_further; apply list_elem_of_here|].
  split; [reflexivity|]. split; [|split; [|vm_compute; reflexivity]].
  - intros c Hin Hfatal. vm_compute in Hin.
    repeat (apply elem_of_cons in Hin as [->|Hin]); try reflexivity;
      try discriminate Hfatal.
    apply elem_of_nil in Hin. destruct Hin.
  - intros v. vm_compute. discriminate.
Qed.

(** ** Handlers that were never set *)

Section UnsetHandlers.
Import Workflows PipelineSpec.





End UnsetHandlers.



(** ** The loop of the orchestrator *)

Section OrchestratorLoop.
Context {P : Type} `{Planner.Planner P}.
Import Leader LeaderSpec.

Lemma Start_received (o : Orchestrator) (task : Task.t) (turns : list fired) :
  Start o (Received task :: turns) = Start (after_task o task) turns.
Proof.
  unfold after_task. cbn [Start]. destruct (processTask o task) as [[err|] o']; reflexivity.
Qed.

Lemma Start_tasks_then (o : Orchestrator) (tasks : list Task.t) (turns : list fired) :
  Start o (map Received tasks ++ turns) = Start (Start o (map Received tasks)).2 turns.
Proof.
  revert o. induction tasks as [|task tasks IH]; intros o.
  - reflexivity.
  - cbn [map app]. rewrite !Start_received. apply IH.
Qed.

Lemma Start_tasks_running (o : Orchestrator) (tasks : list Task.t) :
  (Start o (map Received tasks)).1 = None.
Proof.
  revert o. induction tasks as [|task tasks IH]; intros o.
  - reflexivity.
  - cbn [map]. rewrite Start_received. apply IH.
Qed.

(** What one task adds to the log. *)
Lemma after_task_log (o : Orchestrator) (task : Task.t) :
  taken_up (logger (after_task o task)) = (taken_up (logger o) ++ [Task.JiraTicketID task])%list
  /\ failures (logger (after_task o task))
     = (failures (logger o)
        ++ match (processTask o task).1 with
           | Some err => [(Task.JiraTicketID task, err)]
           | None => []
           end)%list.
Proof.
  unfold after_task, processTask, log, taken_up, failures.
  destruct (Planner.Plan _ task) as [[plan|e] planner'];
    cbn [logger planner temporalClient fst snd].
  - destruct (Temporal.StartWorkflow _ _ _ _) as [[workflowID|e] c'];
      cbn [logger planner temporalClient fst snd];
      rewrite ?flat_map_app; cbn [flat_map app]; rewrite ?app_nil_r, <- ?app_assoc;
      split; reflexivity.
  - rewrite ?flat_map_app; cbn [flat_map app]; rewrite ?app_nil_r, <- ?app_assoc;
      split; reflexivity.
Qed.

Lemma Start_tasks_log (o : Orchestrator) (tasks : list Task.t) :
  taken_up (logger (Start o (map Received tasks)).2)
  = (taken_up (logger o) ++ map Task.JiraTicketID tasks)%list
  /\ exists more,
       failures (logger (Start o (map Received tasks)).2) = (failures (logger o) ++ more)%list.
Proof.
  revert o. induction tasks as [|task tasks IH]; intros o.
  - cbn. rewrite app_nil_r. split; [reflexivity | exists []; rewrite app_nil_r; reflexivity].
  - cbn [map]. rewrite Start_received.
    destruct (IH (after_task o task)) as [Htaken [more Hmore]].
    destruct (after_task_log o task) as [Htaken1 Hfail1].
    rewrite Htaken, Htaken1, Hmore, Hfail1, <- !app_assoc.
    split; [reflexivity | eexists; reflexivity].
Qed.

(** The errors of [processTask] are the planning errors and the start
    errors. *)
Lemma processTask_errors (o : Orchestrator) (task : Task.t) :
  (processTask o task).1
  = match (Planner.Plan (planner o) task).1 with
    | inr e => Some ("failed to generate plan: " +:+ e)
    | inl plan =>
      match (Temporal.StartWorkflow (temporalClient o) task plan
               (RepositoryInfo.mk (Task.RepositoryOwner task) (Task.RepositoryName task)
                  (Task.BaseBranch task) "" (Task.RepositoryURL task))).1 with
      | inr e => Some ("failed to start workflow: " +:+ e)
      | inl _ => None
      end
    end.
Proof.
  unfold processTask, log. cbn [logger planner temporalClient].
  destruct (Planner.Plan (planner o) task) as [[plan|e] planner'];
    cbn [logger planner temporalClient fst snd]; [|reflexivity].
  destruct (Temporal.StartWorkflow _ _ _ _) as [[workflowID|e] c']; reflexivity.
Qed.

(** C8. Whatever errors the handling of the received tasks hits, the
    loop of [Start] takes up every task it receives, logs each error and
    goes on: it has not returned while the context is not done, and when
    the context is done it returns the cause [ctx.Err()]. The errors of
    the handling are the planning errors and the start errors. *)
Theorem Start_survives_task_errors
    (o : Orchestrator) (tasks : list Task.t) (cause : error) (later : list fired) :
  let waiting := Start o (map Received tasks) in
  waiting.1 = None
  /\ Start o (map Received tasks ++ Done cause :: later) = (Some cause, waiting.2)
  /\ taken_up (logger waiting.2) = (taken_up (logger o) ++ map Task.JiraTicketID tasks)%list
  /\ (forall before task after err,
        tasks = (before ++ task :: after)%list ->
        (processTask (Start o (map Received before)).2 task).1 = Some err ->
        (Task.JiraTicketID task, err) ∈ failures (logger waiting.2))
  /\ (forall o' task,
        (processTask o' task).1
        = match (Planner.Plan (planner o') task).1 with
          | inr e => Some ("failed to generate plan: " +:+ e)
          | inl plan =>
            match (Temporal.StartWorkflow (temporalClient o') task plan
                     (RepositoryInfo.mk (Task.RepositoryOwner task)
                        (Task.RepositoryName task) (Task.BaseBranch task) ""
                        (Task.RepositoryURL task))).1 with
            | inr e => Some ("failed to start workflow: " +:+ e)
            | inl _ => None
            end
          end).
Proof.
  intros waiting. subst waiting.
  split; [apply Start_tasks_running|].
  split; [rewrite Start_tasks_then; reflexivity|].
  split; [apply Start_tasks_log|].
  split; [|apply processTask_errors].
  intros before task after err -> Herr.
  rewrite map_app. cbn [map]. rewrite Start_tasks_then, Start_received.
  set (o1 := (Start o (map Received before)).2) in *.
  destruct (Start_tasks_log (after_task o1 task) after) as [_ [more ->]].
  destruct (after_task_log o1 task) as [_ ->]. rewrite Herr.
  rewrite !elem_of_app. left. right. apply list_elem_of_here.
Qed.

End OrchestratorLoop.

Lemma Start_survives_task_errors_witness :
  let turns :=
    [Leader.Received Sample.task; Leader.Received Sample.task2;
     Leader.Done "context canceled"; Leader.Received Sample.task] in
  (* planning fails for PROJ-42; PROJ-43 is taken up all the same *)
  (Leader.Start Sample.orchestrator turns).1 = Some "context canceled"
  /\ LeaderSpec.taken_up (Leader.logger (Leader.Start Sample.orchestrator turns).2)
     = ["PROJ-42"; "PROJ-43"]
  /\ ("PROJ-42",
      "failed to generate plan: failed to create chat completion: status code: 429")
     ∈ LeaderSpec.failures (Leader.logger (Leader.Start Sample.orchestrator turns).2).
Proof.
  intros turns.
  destruct (Start_survives_task_errors Sample.orchestrator [Sample.task; Sample.task2]
              "context canceled" [Leader.Received Sample.task])
    as (_ & Hcancel & Htaken & Hfailed & _).
  change (Leader.Start Sample.orchestrator turns
          = (Some "context canceled",
             (Leader.Start Sample.orchestrator
                (map Leader.Received [Sample.task; Sample.task2])).2)) in Hcancel.
  rewrite Hcancel. cbn [fst snd]. split; [reflexivity|]. split; [exact Htaken|].
  apply (Hfailed [] Sample.task [Sample.task2]); reflexivity.
Defined.

(** ** The poller *)

Section Poller.
Import Jira JiraSpec.

Lemma advances_refl (p : Poller) (w : World) : advances p w p w.
Proof.
  exists []. rewrite app_nil_r. split; [reflexivity|]. split; [constructor|].
  split; [intros id Hin; apply elem_of_nil in Hin; destruct Hin | auto].
Qed.

Lemma advances_trans (p1 p2 p3 : Poller) (w1 w2 w3 : World) :
  advances p1 w1 p2 w2 -> advances p2 w2 p3 w3 -> advances p1 w1 p3 w3.
Proof.
  intros (x1 & He1 & Hn1 & Hx1 & Hm1) (x2 & He2 & Hn2 & Hx2 & Hm2).
  exists (x1 ++ x2)%list. split; [rewrite He2, He1, app_assoc; reflexivity|].
  unfold ids in *. rewrite map_app. split; [|split].
  - apply NoDup_app. split; [exact Hn1|]. split; [|exact Hn2].
    intros id Hin1 Hin2. destruct (Hx1 id Hin1) as [_ Hp2]. destruct (Hx2 id Hin2) as [Hp2' _].
    congruence.
  - intros id Hin. apply elem_of_app in Hin as [Hin|Hin].
    + destruct (Hx1 id Hin) as [Hp1 Hp2]. split; [exact Hp1 | apply Hm2, Hp2].
    + destruct (Hx2 id Hin) as [Hp2 Hp3]. split; [|exact Hp3].
      destruct (isProcessed p1 id) eqn:Hp1; [|reflexivity].
      apply Hm1 in Hp1. congruence.
  - intros id Hp1. apply Hm2, Hm1, Hp1.
Qed.

(** Only the ghost field matters: what the rest of the program does to the
    channel and the context leaves it alone. *)
Lemma advances_world (p p' : Poller) (w0 w w' : World) :
  emitted w0 = emitted w -> advances p w p' w' -> advances p w0 p' w'.
Proof. intros He (x & Hx & H). exists x. rewrite He. split; [exact Hx | exact H]. Qed.

Lemma env_step_emitted (w : World) (e : event) : emitted (env_step w e) = emitted w.
Proof. destruct e; [destruct w as [[|t b] c r d m] | ]; reflexivity. Qed.

Lemma env_steps_emitted (evs : list event) (w : World) :
  emitted (fold_left env_step evs w) = emitted w.
Proof.
  revert w; induction evs as [|e evs IH]; intros w; [reflexivity|].
  cbn [fold_left]. rewrite IH. apply env_step_emitted.
Qed.

Lemma send_emitted (w : World) (task : Task.t) :
  emitted (send w task) = (emitted w ++ [task])%list.
Proof. unfold send. destruct (receivers w); reflexivity. Qed.

(** A [select] places the task on the channel or nothing at all. *)
Lemma select_send_emitted (w : World) (task : Task.t) (pick : bool) (evs : list event) :
  match select_send w task pick evs with
  | Sent w' => emitted w' = (emitted w ++ [task])%list
  | Cancelled w' | Blocked w' => emitted w' = emitted w
  end.
Proof.
  revert w; induction evs as [|e evs IH]; intros w; cbn [select_send];
    destruct (can_send w), (done w), pick; try apply send_emitted; try reflexivity.
  all: specialize (IH (env_step w e)); rewrite env_step_emitted in IH; exact IH.
Qed.

Lemma isProcessed_mark (p : Poller) (id id' : string) :
  isProcessed (markProcessed p id) id' = if decide (id = id') then true else isProcessed p id'.
Proof.
  unfold isProcessed, markProcessed. cbn [processedTasks].
  rewrite lookup_insert. destruct (decide (id = id')); reflexivity.
Qed.

Lemma advances_mark (p : Poller) (w : World) (id : string) :
  advances p w (markProcessed p id) w.
Proof.
  exists []. rewrite app_nil_r. split; [reflexivity|]. split; [constructor|].
  split; [intros id' Hin; apply elem_of_nil in Hin; destruct Hin|].
  intros id' Hp. rewrite isProcessed_mark. destruct (decide (id = id')); [reflexivity | exact Hp].
Qed.

(** Marking a fresh ticket and then placing its task on the channel. *)
Lemma advances_send (p : Poller) (w w' : World) (task : Task.t) :
  isProcessed p (Task.JiraTicketID task) = false ->
  emitted w' = (emitted w ++ [task])%list ->
  advances p w (markProcessed p (Task.JiraTicketID task)) w'.
Proof.
  intros Hfresh He. exists [task]. split; [exact He|].
  split; [apply NoDup_singleton|]. split.
  - intros id Hin. apply list_elem_of_singleton in Hin as ->.
    rewrite isProcessed_mark. destruct (decide _); [split; [exact Hfresh|reflexivity] | congruence].
  - intros id' Hp. rewrite isProcessed_mark. destruct (decide _); [reflexivity | exact Hp].
Qed.

Lemma poll_tasks_advances (tasks : list Task.t) (p : Poller) (w : World) (sch : list sched) :
  advances p w (poller (poll_tasks tasks p w sch).2) (world (poll_tasks tasks p w sch).2).
Proof.
  revert p w sch. induction tasks as [|task tasks IH]; intros p w sch; cbn [poll_tasks].
  - apply advances_refl.
  - destruct (isProcessed p (Task.JiraTicketID task)) eqn:Hfresh; [apply IH|].
    set (s := hd idle sch).
    pose proof (select_send_emitted (fold_left env_step (before s) w) task (pick s)
                  (while_blocked s)) as Hsel.
    rewrite env_steps_emitted in Hsel.
    destruct (select_send _ task (pick s) (while_blocked s)) as [w'|w'|w'].
    + eapply advances_trans; [apply advances_send; eassumption | apply IH].
    + cbn [snd poller world]. eapply advances_world; [symmetry; exact Hsel|].
      apply advances_mark.
    + cbn [snd poller world]. eapply advances_world; [symmetry; exact Hsel|].
      apply advances_mark.
Qed.

Lemma poll_statuses_advances (statuses : list string) (p : Poller) (w : World)
    (sch : list sched) :
  advances p w (poller (poll_statuses statuses p w sch).2)
           (world (poll_statuses statuses p w sch).2).
Proof.
  revert p w sch. induction statuses as [|status statuses IH]; intros p w sch;
    cbn [poll_statuses].
  - apply advances_refl.
  - destruct (GetTasksByStatus (client p) status) as [[tasks err] c'].
    set (p0 := mkPoller c' (statusFilter p) (interval p) (processedTasks p)).
    assert (Hp0 : forall p' w', advances p0 w p' w' -> advances p w p' w')
      by (intros p' w' Hadv; exact Hadv).
    destruct err as [e|]; [apply Hp0, IH|].
    pose proof (poll_tasks_advances tasks p0 w sch) as Htasks.
    destruct (poll_tasks tasks p0 w sch) as [[] st]; cbn [snd] in *.
    + apply Hp0. eapply advances_trans; [exact Htasks | apply IH].
    + apply Hp0, Htasks.
    + apply Hp0, Htasks.
Qed.

Lemma poll_advances (p : Poller) (w : World) (sch : list sched) :
  advances p w (poller (poll p w sch).2) (world (poll p w sch).2).
Proof. apply poll_statuses_advances. Qed.

Lemma Start_loop_advances (turns : list turn) (p : Poller) (w : World) (sch : list sched) :
  advances p w (poller (Start_loop turns p w sch).2) (world (Start_loop turns p w sch).2).
Proof.
  revert p w sch. induction turns as [|t turns IH]; intros p w sch; cbn [Start_loop].
  - apply advances_refl.
  - set (w1 := fold_left env_step (turn_before t) w).
    assert (Hw1 : emitted w = emitted w1) by (symmetry; apply env_steps_emitted).
    destruct (ticked t && (negb (done w1) || turn_pick t)).
    + pose proof (poll_advances p w1 sch) as Hpoll.
      destruct (poll p w1 sch) as [[] st]; cbn [snd] in *;
        eapply advances_world; try exact Hw1;
        solve [exact Hpoll | eapply advances_trans; [exact Hpoll | apply IH]].
    + destruct (done w1); cbn [snd poller world].
      * eapply advances_world; [exact Hw1 | apply advances_refl].
      * eapply advances_world; [exact Hw1 | apply IH].
Qed.

Lemma Start_advances (p : Poller) (w : World) (turns : list turn) (sch : list sched) :
  advances p w (poller (Start p w turns sch).2) (world (Start p w turns sch).2).
Proof.
  unfold Start. pose proof (poll_advances p w sch) as Hpoll.
  destruct (poll p w sch) as [[] st]; cbn [snd] in *;
    solve [exact Hpoll | eapply advances_trans; [exact Hpoll | apply Start_loop_advances]].
Qed.

End Poller.

(** C1. Whatever the tracker answers, cycle after cycle and status after
    status, and however the sends, the ticks and the cancellation are
    scheduled, the tasks a poller places on the channel over its lifetime
    have pairwise distinct ticket identifiers. *)
Theorem poller_emits_each_ticket_once
    (client : Jira.Client) (statusFilter : list string) (interval : Z)
    (buf : list Task.t) (cap receivers : nat) (done : bool)
    (turns : list Jira.turn) (sch : list Jira.sched) :
  let p := Jira.NewPoller client statusFilter interval in
  let w := Jira.mkWorld buf cap receivers done [] in
  NoDup (JiraSpec.ids (Jira.emitted (Jira.world (Jira.Start p w turns sch).2))).
Proof.
  intros p w.
  destruct (Start_advances p w turns sch) as (extra & He & Hnodup & _).
  rewrite He. exact Hnodup.
Qed.

(** ** A full channel and a cancelled context *)

Section Backpressure.
Import Jira JiraSpec.

Lemma event_cases (e : event) : e = Receive \/ e = Cancel.
Proof. destruct e; [left | right]; reflexivity. Qed.

Lemma env_steps_no_receive (evs : list event) (w : World) :
  Receive ∉ evs ->
  can_send (fold_left env_step evs w) = can_send w
  /\ done (fold_left env_step evs w) = (done w || bool_decide (Cancel ∈ evs)).
Proof.
  revert w; induction evs as [|e evs IH]; intros w Hno; cbn [fold_left].
  - rewrite bool_decide_eq_false_2 by apply not_elem_of_nil.
    rewrite orb_false_r. split; reflexivity.
  - apply not_elem_of_cons in Hno as [Hne Hno].
    destruct (event_cases e) as [->| ->]; [congruence|].
    destruct (IH (env_step w Cancel) Hno) as [-> ->]. cbn [env_step done].
    rewrite (bool_decide_eq_true_2 (Cancel ∈ Cancel :: evs)) by apply list_elem_of_here.
    rewrite orb_true_r. split; reflexivity.
Qed.

(** Blocked in a send nobody receives, the poller leaves the [select] at
    the cancellation. *)
Lemma select_send_cancelled (w : World) (task : Task.t) (pick : bool) (evs : list event) :
  can_send w = false -> Receive ∉ evs -> done w = true \/ Cancel ∈ evs ->
  exists w', select_send w task pick evs = Cancelled w' /\ emitted w' = emitted w.
Proof.
  revert w; induction evs as [|e evs IH]; intros w Hfull Hno Hcancel; cbn [select_send];
    rewrite Hfull; destruct (done w) eqn:Hdone.
  - exists w. split; reflexivity.
  - destruct Hcancel as [Hd|Hin]; [discriminate | apply elem_of_nil in Hin; destruct Hin].
  - exists w. split; reflexivity.
  - apply not_elem_of_cons in Hno as [Hne Hno].
    destruct (event_cases e) as [->| ->]; [congruence|].
    destruct (IH (env_step w Cancel)) as (w' & Hsel & He); [exact Hfull | exact Hno | |].
    + left. reflexivity.
    + exists w'. split; [exact Hsel | exact He].
Qed.

Lemma select_cancelled_by (w : World) (task : Task.t) (s : sched) :
  can_send w = false -> no_receive s -> cancelled_by w s ->
  exists w',
    select_send (fold_left env_step (before s) w) task (pick s) (while_blocked s) = Cancelled w'
    /\ emitted w' = emitted w.
Proof.
  intros Hfull [Hnb Hnw] Hcancel.
  destruct (env_steps_no_receive (before s) w Hnb) as [Hcan Hdone].
  destruct (select_send_cancelled (fold_left env_step (before s) w) task (pick s)
              (while_blocked s)) as (w' & Hsel & He).
  - rewrite Hcan. exact Hfull.
  - exact Hnw.
  - rewrite Hdone. destruct Hcancel as [Hd|[Hb|Hw]].
    + left. rewrite Hd. reflexivity.
    + left. rewrite (bool_decide_eq_true_2 _ Hb). apply orb_true_r.
    + right. exact Hw.
  - exists w'. split; [exact Hsel|]. rewrite He. apply env_steps_emitted.
Qed.

Lemma poll_tasks_full (tasks : list Task.t) (p : Poller) (w : World) (sch : list sched) :
  can_send w = false -> no_receive (hd idle sch) -> cancelled_by w (hd idle sch) ->
  left_at_once w sch (poll_tasks tasks p w sch).
Proof.
  intros Hfull Hno Hcancel. revert p. induction tasks as [|task tasks IH]; intros p;
    cbn [poll_tasks].
  - left. repeat split.
  - destruct (isProcessed p (Task.JiraTicketID task)); [apply IH|].
    destruct (select_cancelled_by w task (hd idle sch) Hfull Hno Hcancel) as (w' & -> & He).
    right. repeat split. exact He.
Qed.

Lemma poll_statuses_full (statuses : list string) (p : Poller) (w : World) (sch : list sched) :
  can_send w = false -> no_receive (hd idle sch) -> cancelled_by w (hd idle sch) ->
  left_at_once w sch (poll_statuses statuses p w sch).
Proof.
  intros Hfull Hno Hcancel. revert p. induction statuses as [|status statuses IH]; intros p;
    cbn [poll_statuses].
  - left. repeat split.
  - destruct (GetTasksByStatus (client p) status) as [[tasks [e|]] c']; [apply IH|].
    destruct (poll_tasks_full tasks (mkPoller c' (statusFilter p) (interval p)
                (processedTasks p)) w sch Hfull Hno Hcancel) as [(Hflow & Hw & Hsch)|Haborted].
    + destruct (poll_tasks _ _ w sch) as [f st]. cbn [fst snd] in *. subst f.
      rewrite Hw, Hsch. apply IH.
    + destruct (poll_tasks _ _ w sch) as [f st]. destruct Haborted as (Hflow & He & Hsch).
      cbn [fst snd] in *. subst f. right. repeat split; assumption.
Qed.

(** The loops, taken up where they stand. *)
Lemma poll_tasks_app (sent rest : list Task.t) (p : Poller) (w : World) (sch : list sched) :
  poll_tasks (sent ++ rest) p w sch
  = match poll_tasks sent p w sch with
    | (Completed, st) => poll_tasks rest (poller st) (world st) (schedule st)
    | stopped => stopped
    end.
Proof.
  revert p w sch. induction sent as [|task sent IH]; intros p w sch; cbn [app poll_tasks].
  - reflexivity.
  - destruct (isProcessed p (Task.JiraTicketID task)); [apply IH|].
    destruct (select_send _ task _ _) as [w'|w'|w']; [apply IH | reflexivity | reflexivity].
Qed.

Lemma poll_statuses_app (earlier later : list string) (p : Poller) (w : World)
    (sch : list sched) :
  poll_statuses (earlier ++ later) p w sch
  = match poll_statuses earlier p w sch with
    | (Completed, st) => poll_statuses later (poller st) (world st) (schedule st)
    | stopped => stopped
    end.
Proof.
  revert p w sch. induction earlier as [|status earlier IH]; intros p w sch;
    cbn [app poll_statuses].
  - reflexivity.
  - destruct (GetTasksByStatus (client p) status) as [[tasks [e|]] c']; [apply IH|].
    destruct (poll_tasks tasks _ w sch) as [[] st]; [apply IH | reflexivity | reflexivity].
Qed.

(** Wherever the cycle stands when it comes to a send on a channel that
    cannot accept, a cancellation ends it there. *)
Lemma poll_aborts_at_send (p : Poller) (w : World) (sch : list sched) (task : Task.t)
    (st : state) :
  BackpressureSpec.comes_to_send p w sch task st ->
  can_send (world st) = false ->
  no_receive (hd idle (schedule st)) ->
  cancelled_by (world st) (hd idle (schedule st)) ->
  (poll p w sch).1 = Aborted
  /\ emitted (world (poll p w sch).2) = emitted (world st)
  /\ schedule (poll p w sch).2 = tl (schedule st)
  /\ isProcessed (poller (poll p w sch).2) (Task.JiraTicketID task) = true.
Proof.
  intros (earlier & status & later & sent & rest & c' & st1 & Hfilter & Hearlier & Hget
          & Hsent & Hfresh) Hfull Hno Hcancel.
  unfold poll. rewrite Hfilter, poll_statuses_app, Hearlier. cbn [poll_statuses].
  rewrite Hget, poll_tasks_app, Hsent. cbn [poll_tasks]. rewrite Hfresh.
  destruct (select_cancelled_by (world st) task (hd idle (schedule st)) Hfull Hno Hcancel)
    as (w' & -> & He).
  cbn [fst snd world schedule poller]. split; [reflexivity|]. split; [exact He|].
  split; [reflexivity|]. rewrite isProcessed_mark.
  destruct (decide _); [reflexivity | congruence].
Qed.

(** Blocked for good means: in a send, the channel not accepting and the
    context not cancelled. *)
Lemma select_send_blocked_open (w w' : World) (task : Task.t) (pick : bool)
    (evs : list event) :
  select_send w task pick evs = Blocked w' -> can_send w' = false /\ done w' = false.
Proof.
  revert w. induction evs as [|e evs IH]; intros w; cbn [select_send];
    destruct (can_send w) eqn:Hcan, (done w) eqn:Hdone, pick; try discriminate.
  all: try (intros [= <-]; split; assumption).
  all: apply IH.
Qed.

Lemma poll_tasks_blocked_open (tasks : list Task.t) (p : Poller) (w : World)
    (sch : list sched) (st : state) :
  poll_tasks tasks p w sch = (Stuck, st) ->
  can_send (world st) = false /\ done (world st) = false.
Proof.
  revert p w sch. induction tasks as [|task tasks IH]; intros p w sch; cbn [poll_tasks].
  - discriminate.
  - destruct (isProcessed p (Task.JiraTicketID task)); [apply IH|].
    destruct (select_send _ task _ _) as [w'|w'|w'] eqn:Hsel; [apply IH | discriminate |].
    intros [= <-]. cbn [world]. eapply select_send_blocked_open, Hsel.
Qed.

Lemma poll_blocked_open (p : Poller) (w : World) (sch : list sched) (st : state) :
  poll p w sch = (Stuck, st) -> can_send (world st) = false /\ done (world st) = false.
Proof.
  unfold poll. generalize (statusFilter p) as statuses. intros statuses.
  revert p w sch. induction statuses as [|status statuses IH]; intros p w sch;
    cbn [poll_statuses].
  - discriminate.
  - destruct (GetTasksByStatus (client p) status) as [[tasks [e|]] c']; [apply IH|].
    destruct (poll_tasks tasks _ w sch) as [[] st1] eqn:Htasks.
    + apply IH.
    + discriminate.
    + intros [= <-]. eapply poll_tasks_blocked_open, Htasks.
Qed.

End Backpressure.

(** C4. At whichever send of a poll cycle the channel cannot accept the
    task, be it full when the cycle starts or filled by the cycle itself:
    with nobody receiving and the context cancelled before or while the
    poller waits in that send, [poll] returns there, with no further task
    placed on the channel and no further [select] entered. A cycle is
    blocked for good only in a send on a channel that cannot accept with
    the context never cancelled. And a cycle that starts on such a
    channel, cancelled at its first [select], places no task at all: it
    finds nothing new and runs to its end, or it leaves at that
    [select]. *)
Theorem poll_returns_when_full_and_cancelled
    (p : Jira.Poller) (w : Jira.World) (sch : list Jira.sched) :
  let r := Jira.poll p w sch in
  (forall task st,
      BackpressureSpec.comes_to_send p w sch task st ->
      Jira.can_send (Jira.world st) = false ->
      JiraSpec.no_receive (hd Jira.idle (Jira.schedule st)) ->
      JiraSpec.cancelled_by (Jira.world st) (hd Jira.idle (Jira.schedule st)) ->
      r.1 = Jira.Aborted
      /\ Jira.emitted (Jira.world r.2) = Jira.emitted (Jira.world st)
      /\ Jira.schedule r.2 = tl (Jira.schedule st))
  /\ (r.1 = Jira.Stuck ->
      Jira.can_send (Jira.world r.2) = false /\ Jira.done (Jira.world r.2) = false)
  /\ (Jira.can_send w = false ->
      JiraSpec.no_receive (hd Jira.idle sch) ->
      JiraSpec.cancelled_by w (hd Jira.idle sch) ->
      r.1 <> Jira.Stuck
      /\ Jira.emitted (Jira.world r.2) = Jira.emitted w
      /\ ((r.1 = Jira.Completed /\ Jira.schedule r.2 = sch)
          \/ (r.1 = Jira.Aborted /\ Jira.schedule r.2 = tl sch))).
Proof.
  intros r. subst r. split; [|split].
  - intros task st Hcomes Hfull Hno Hcancel.
    destruct (poll_aborts_at_send p w sch task st Hcomes Hfull Hno Hcancel)
      as (Hflow & He & Hsch & _).
    split; [exact Hflow|]. split; assumption.
  - intros Hstuck. apply (poll_blocked_open p w sch).
    destruct (Jira.poll p w sch) as [flow st]. cbn [fst snd] in *. subst flow. reflexivity.
  - intros Hfull Hno Hcancel.
    destruct (poll_statuses_full (Jira.statusFilter p) p w sch Hfull Hno Hcancel)
      as [(Hflow & Hw & Hsch)|(Hflow & He & Hsch)]; unfold Jira.poll.
    + rewrite Hflow, Hw. split; [discriminate|]. split; [reflexivity|].
      left. split; [reflexivity|assumption].
    + rewrite Hflow. split; [discriminate|]. split; [exact He|].
      right. split; [reflexivity|assumption].
Qed.

Lemma poll_returns_when_full_and_cancelled_witness :
  (* the channel fills in the middle of the cycle: PROJ-42 is sent, the send
     of PROJ-43 is cancelled and nothing follows *)
  (let r := Jira.poll BackpressureSpec.poller_fresh BackpressureSpec.empty1
              [Jira.idle; Sample.cancel_while_blocked] in
   r.1 = Jira.Aborted
   /\ Jira.emitted (Jira.world r.2) = Jira.emitted (Jira.world BackpressureSpec.after_first)
   /\ Jira.schedule r.2 = tl (Jira.schedule BackpressureSpec.after_first))
  (* the channel is full when the cycle starts *)
  /\ (let r := Jira.poll Sample.poller_busy Sample.full [Sample.cancel_while_blocked] in
      r.1 <> Jira.Stuck
      /\ Jira.emitted (Jira.world r.2) = [Sample.task2]
      /\ ((r.1 = Jira.Completed /\ Jira.schedule r.2 = [Sample.cancel_while_blocked])
          \/ (r.1 = Jira.Aborted /\ Jira.schedule r.2 = []))).
Proof.
  split.
  - apply (proj1 (poll_returns_when_full_and_cancelled BackpressureSpec.poller_fresh
                    BackpressureSpec.empty1 [Jira.idle; Sample.cancel_while_blocked])
             Sample.task2 BackpressureSpec.after_first).
    + exists [], "Ready", ["To Do"], [Sample.task], [],
        (tl Sample.tracker),
        (Jira.mkState BackpressureSpec.poller_fresh BackpressureSpec.empty1
           [Jira.idle; Sample.cancel_while_blocked]).
      split; [reflexivity|]. split; [reflexivity|]. split; [reflexivity|].
      split; [reflexivity|]. vm_compute. reflexivity.
    + reflexivity.
    + split; intros Hin; vm_compute in Hin;
        repeat (apply elem_of_cons in Hin as [Hin|Hin]; [discriminate|]);
        apply elem_of_nil in Hin; exact Hin.
    + right. right. vm_compute. apply list_elem_of_here.
  - apply (proj2 (proj2 (poll_returns_when_full_and_cancelled Sample.poller_busy Sample.full
                           [Sample.cancel_while_blocked]))).
    + reflexivity.
    + split; intros Hin;
        repeat (apply elem_of_cons in Hin as [Hin|Hin]; [discriminate|]);
        apply elem_of_nil in Hin; exact Hin.
    + right. right. apply list_elem_of_here.
Defined.

(** The cycle that fills the channel itself: one task sent, then the
    cancelled send. *)
Example poll_aborts_mid_cycle :
  let r := Jira.poll BackpressureSpec.poller_fresh BackpressureSpec.empty1
             [Jira.idle; Sample.cancel_while_blocked] in
  r.1 = Jira.Aborted
  /\ JiraSpec.ids (Jira.emitted (Jira.world r.2)) = ["PROJ-42"]
  /\ Jira.schedule r.2 = [].
Proof. repeat split; vm_compute; reflexivity. Qed.

(** Without the cancellation the same poll cycle is blocked for good. *)
Example poll_stuck_when_full :
  (Jira.poll Sample.poller_busy Sample.full []).1 = Jira.Stuck.
Proof. reflexivity. Qed.

(** Two cycles over a tracker that reports the same two tickets again and
    again, with a consumer that receives: each ticket is sent once. *)
Example poller_two_cycles :
  let p := Jira.NewPoller Sample.tracker ["Ready"; "To Do"] 60 in
  let w := Jira.mkWorld [] 10 0 false [] in
  let r := Jira.Start p w [Jira.mkTurn [Jira.Receive] true true] [] in
  r.1 = Jira.Looping
  /\ JiraSpec.ids (Jira.emitted (Jira.world r.2)) = ["PROJ-42"; "PROJ-43"].
Proof. split; reflexivity. Qed.

(** ** A ticket marked and never sent *)

Section MarkedNotSent.
Import Jira JiraSpec.

Lemma advances_keeps_mark (p p' : Poller) (w w' : World) (id : string) :
  advances p w p' w' -> isProcessed p id = true -> isProcessed p' id = true.
Proof. intros (extra & _ & _ & _ & Hmono). apply Hmono. Qed.

(** A ticket that is marked and was not sent is not sent later. *)
Lemma advances_never_again (p p' : Poller) (w w' : World) (id : string) :
  advances p w p' w' -> isProcessed p id = true -> id ∉ ids (emitted w) ->
  id ∉ ids (emitted w').
Proof.
  intros (extra & He & _ & Hextra & _) Hmarked Hnot Hin.
  rewrite He in Hin. unfold ids in Hin. rewrite map_app in Hin.
  apply elem_of_app in Hin as [Hin|Hin]; [exact (Hnot Hin)|].
  destruct (Hextra id Hin) as [Hfresh _]. congruence.
Qed.

(** The poll cycle that meets a fresh task first marks its ticket, whatever
    becomes of the send. *)
Lemma poll_tasks_marks_first (task : Task.t) (rest : list Task.t) (p : Poller) (w : World)
    (sch : list sched) :
  isProcessed p (Task.JiraTicketID task) = false ->
  isProcessed (poller (poll_tasks (task :: rest) p w sch).2) (Task.JiraTicketID task) = true.
Proof.
  intros Hfresh. cbn [poll_tasks]. rewrite Hfresh.
  assert (Hmark : isProcessed (markProcessed p (Task.JiraTicketID task))
                    (Task.JiraTicketID task) = true).
  { rewrite isProcessed_mark. destruct (decide _); [reflexivity | congruence]. }
  destruct (select_send _ task _ _) as [w'|w'|w']; cbn [snd poller]; try exact Hmark.
  eapply advances_keeps_mark; [apply poll_tasks_advances | exact Hmark].
Qed.

End MarkedNotSent.

(** C10. The ticket of a fresh task is marked before the send is tried,
    whatever becomes of the send. Hence the execution in which the channel
    is full and the context is cancelled while the poller waits in the
    send: the poll cycle returns with the ticket marked and the task never
    placed on the channel, and whatever this poller does afterwards it does
    not place a task of that ticket on the channel. *)
Theorem marked_ticket_may_never_be_sent
    (p : Jira.Poller) (w : Jira.World) (task : Task.t) (rest : list Task.t)
    (status : string) (statuses : list string)
    (answer : string -> list Task.t * option error) (c' : Jira.Client)
    (sch : list Jira.sched) :
  Jira.statusFilter p = status :: statuses ->
  Jira.client p = answer :: c' ->
  answer status = (task :: rest, None) ->
  Jira.isProcessed p (Task.JiraTicketID task) = false ->
  Jira.can_send w = false ->
  Jira.done w = false ->
  Task.JiraTicketID task ∉ JiraSpec.ids (Jira.emitted w) ->
  let id := Task.JiraTicketID task in
  let r := Jira.poll p w (Jira.mkSched [] true [Jira.Cancel] :: sch) in
  (forall sch0, Jira.isProcessed (Jira.poller (Jira.poll p w sch0).2) id = true)
  /\ r.1 = Jira.Aborted
  /\ Jira.isProcessed (Jira.poller r.2) id = true
  /\ Jira.emitted (Jira.world r.2) = Jira.emitted w
  /\ (forall w2 turns sch2,
        Jira.emitted w2 = Jira.emitted (Jira.world r.2) ->
        id ∉ JiraSpec.ids
               (Jira.emitted (Jira.world (Jira.Start_loop turns (Jira.poller r.2) w2 sch2).2))).
Proof.
  intros Hfilter Hclient Hanswer Hfresh Hfull Hdone Hnot id r.
  assert (Hmarks : forall sch0,
             Jira.isProcessed (Jira.poller (Jira.poll p w sch0).2) id = true).
  { intros sch0. unfold Jira.poll. rewrite Hfilter. cbn [Jira.poll_statuses].
    unfold Jira.GetTasksByStatus. rewrite Hclient, Hanswer.
    set (p0 := Jira.mkPoller c' (Jira.statusFilter p) (Jira.interval p)
                 (Jira.processedTasks p)).
    pose proof (poll_tasks_marks_first task rest p0 w sch0 Hfresh) as Hmark.
    destruct (Jira.poll_tasks (task :: rest) p0 w sch0) as [[] st]; cbn [snd] in *;
      try exact Hmark.
    eapply advances_keeps_mark; [apply poll_statuses_advances | exact Hmark]. }
  assert (Hr : r.1 = Jira.Aborted /\ Jira.emitted (Jira.world r.2) = Jira.emitted w).
  { subst r. unfold Jira.poll. rewrite Hfilter. cbn [Jira.poll_statuses].
    unfold Jira.GetTasksByStatus. rewrite Hclient, Hanswer.
    cbn [Jira.poll_tasks]. change (Jira.isProcessed _ (Task.JiraTicketID task))
      with (Jira.isProcessed p (Task.JiraTicketID task)).
    rewrite Hfresh. cbn [hd Jira.before Jira.pick Jira.while_blocked fold_left Jira.select_send].
    change (Jira.can_send (Jira.env_step w Jira.Cancel)) with (Jira.can_send w).
    change (Jira.done (Jira.env_step w Jira.Cancel)) with true.
    rewrite Hfull, Hdone. split; reflexivity. }
  destruct Hr as [Hflow He].
  split; [exact Hmarks|]. split; [exact Hflow|]. split; [apply Hmarks|]. split; [exact He|].
  intros w2 turns sch2 Hw2.
  eapply advances_never_again.
  - apply Start_loop_advances.
  - apply Hmarks.
  - rewrite Hw2, He. exact Hnot.
Qed.

Lemma marked_ticket_may_never_be_sent_witness :
  let r := Jira.poll Sample.poller_busy Sample.full [Sample.cancel_while_blocked] in
  (* the poll cycle returned, PROJ-42 is marked and was not sent *)
  r.1 = Jira.Aborted
  /\ Jira.isProcessed (Jira.poller r.2) "PROJ-42" = true
  /\ JiraSpec.ids (Jira.emitted (Jira.world r.2)) = ["PROJ-43"]
  (* later cycles, with the channel drained and the tracker reporting
     PROJ-42 again, do not send it *)
  /\ "PROJ-42" ∉ JiraSpec.ids
       (Jira.emitted
          (Jira.world
             (Jira.Start_loop [Jira.mkTurn [Jira.Receive] true true; Jira.mkTurn [] true true]
                (Jira.poller r.2) (Jira.mkWorld [] 1 0 false [Sample.task2]) []).2)).
Proof.
  intros r.
  destruct (marked_ticket_may_never_be_sent Sample.poller_busy Sample.full Sample.task
              [Sample.task2] "Ready" ["To Do"] (fun _ => ([Sample.task; Sample.task2], None))
              (tl Sample.tracker) [])
    as (_ & Hflow & Hmarked & He & Hnever).
  - reflexivity.
  - reflexivity.
  - reflexivity.
  - reflexivity.
  - reflexivity.
  - reflexivity.
  - intros Hin. apply list_elem_of_singleton in Hin. discriminate Hin.
  - split; [exact Hflow|]. split; [exact Hmarked|]. split.
    + apply (f_equal JiraSpec.ids) in He. exact He.
    + apply Hnever. symmetry. exact He.
Defined.

(** * Further properties of the pipeline *)

(** Take a run apart, one activity outcome at a time. *)
Ltac wf_outcome reg :=
  match goal with
  | |- context [Workflows.CloneRepositoryActivity reg ?a] =>
    destruct (Workflows.CloneRepositoryActivity reg a) as [? [?|]] eqn:?
  | |- context [Workflows.CreateBranchActivity reg ?a ?b] =>
    destruct (Workflows.CreateBranchActivity reg a b) as [? [?|]] eqn:?
  | |- context [Workflows.CodeGenerationActivity reg ?a ?b ?c] =>
    destruct (Workflows.CodeGenerationActivity reg a b c) as [? [?|]] eqn:?
  | |- context [Workflows.TestingActivity reg ?a] =>
    destruct (Workflows.TestingActivity reg a) as [? [?|]] eqn:?
  | |- context [Workflows.CommitChangesActivity reg ?a ?b ?c] =>
    destruct (Workflows.CommitChangesActivity reg a b c) as [? [?|]] eqn:?
  | |- context [Workflows.CreatePRActivity reg ?a ?b ?c] =>
    destruct (Workflows.CreatePRActivity reg a b c) as [[? ? [?|] ? ?] [?|]] eqn:?
  | |- context [Workflows.UpdateJiraActivity reg ?a ?b] =>
    destruct (Workflows.UpdateJiraActivity reg a b) as [? [?|]] eqn:?
  end;
  cbn [app fst snd Activities.GitHubOperationResult.PRInfo
       Activities.GitHubOperationResult.BranchName
       Activities.GitHubOperationResult.RepositoryPath
       Activities.CodeGenerationResult.Summary
       Activities.GitHubOperationResult.zero Activities.CodeGenerationResult.zero].

Ltac wf_cases reg :=
  unfold Workflows.run, Workflows.ImplementationWorkflow, Workflows.bind,
    Workflows.ExecuteActivity, Workflows.check, Workflows.deref, Workflows.ret, Workflows.Get;
  cbn [app]; repeat wf_outcome reg.

Ltac wf_which H :=
  repeat (apply elem_of_cons in H as [H|H]); [..|apply elem_of_nil in H; destruct H].

Ltac wf_rewrite :=
  cbn [PipelineSpec.returned_error PipelineSpec.returned_pr Workflows.step] in *;
  repeat match goal with
         | H : ?x = (_, _), H' : context [?x] |- _ => rewrite H in H'
         | H : ?x = (_, _) |- context [?x] => rewrite H
         end;
  cbn [fst snd Activities.GitHubOperationResult.PRInfo
       Activities.GitHubOperationResult.BranchName
       Activities.GitHubOperationResult.RepositoryPath] in *.

(** X1. The steps of a run are taken in their fixed order: whatever the
    activities return, the history of a run is the steps 1 to [n] for
    some [n] between 1 and 7, with no step left out or repeated. *)
Theorem steps_in_fixed_order (reg : Workflows.Registry) (input : Workflows.WorkflowInput.t) :
  exists n, (1 <= n <= 7)%nat
            /\ PipelineSpec.steps (Workflows.run reg input).2 = seq 1 n.
Proof.
  wf_cases reg.
  all: match goal with
       | |- exists n, _ /\ PipelineSpec.steps ?h = _ => exists (length h)
       end; split; [cbn; lia | reflexivity].
Qed.

(** X2. A run ends in a panic exactly when the activity of step 6 hands
    back neither an error nor a review request: the workflow then reads
    the URL of a review request that is not there. *)
Theorem panic_iff_no_review_request
    (reg : Workflows.Registry) (input : Workflows.WorkflowInput.t) :
  (exists msg, (Workflows.run reg input).1 = Workflows.Panic msg)
  <-> (exists c, c ∈ (Workflows.run reg input).2 /\ Workflows.step c = 6%nat
                 /\ PipelineSpec.returned_error reg c = None
                 /\ PipelineSpec.returned_pr reg c = None).
Proof.
  wf_cases reg.
  all: split; [intros [msg Hmsg]; try discriminate Hmsg | intros (c & Hin & Hstep & Herr & Hpr)].
  all: try (wf_which Hin; subst c; try discriminate Hstep; wf_rewrite; discriminate).
  all: try (eexists; reflexivity).
  all: try (eexists; split; [do 5 apply list_elem_of_further; apply list_elem_of_here|];
            split; [reflexivity|]; wf_rewrite; split; reflexivity).
Qed.

(** X3. What a run returns is accounted for by its history. An error it
    returns is the error of its last call, and that call is one of steps
    1, 2, 3, 5 and 6: the errors of steps 4 and 7 are never returned. A
    value it returns is a review request that is there (never nil), handed
    back after all seven steps. *)
Theorem outcome_accounted_for (reg : Workflows.Registry) (input : Workflows.WorkflowInput.t) :
  (forall e,
      (Workflows.run reg input).1 = Workflows.Error e ->
      exists c, last (Workflows.run reg input).2 = Some c
                /\ PipelineSpec.fatal (Workflows.step c) = true
                /\ PipelineSpec.returned_error reg c = Some e)
  /\ (forall v,
        (Workflows.run reg input).1 = Workflows.Value v ->
        exists pr c, v = Some pr
                     /\ c ∈ (Workflows.run reg input).2
                     /\ PipelineSpec.returned_pr reg c = Some pr
                     /\ PipelineSpec.steps (Workflows.run reg input).2
                        = [1; 2; 3; 4; 5; 6; 7]%nat).
Proof.
  wf_cases reg.
  all: split; [intros err Herr | intros v Hv]; try discriminate.
  all: try (injection Herr as <-; eexists; split; [reflexivity|];
            split; [reflexivity|]; wf_rewrite; reflexivity).
  all: injection Hv as <-; eexists; eexists; split; [reflexivity|];
    (split; [do 5 apply list_elem_of_further; apply list_elem_of_here|]);
    split; [wf_rewrite; reflexivity | reflexivity].
Qed.

(** X4. How the steps are wired. The clone and create-branch calls get the
    repository of the input, and the branch asked for is the generated
    one; code generation and the tests run in the path the clone
    reported; the commit and the review request use the feature branch
    the create-branch activity reported (not the name that was asked for),
    the commit message is the summary code generation reported, and the
    review request has the generated title and description; the Jira
    comment gets the ticket and the URL of the review request step 6
    handed back. *)
Theorem steps_wired (reg : Workflows.Registry) (input : Workflows.WorkflowInput.t) :
  let task := Workflows.WorkflowInput.Task input in
  let plan := Workflows.WorkflowInput.Plan input in
  let repo := Workflows.WorkflowInput.Repository input in
  let branch := Workflows.generateBranchName (Task.JiraTicketID task) (Task.Title task) in
  let path :=
    Activities.GitHubOperationResult.RepositoryPath
      (Workflows.CloneRepositoryActivity reg repo).1 in
  let branched :=
    RepositoryInfo.mk (RepositoryInfo.Owner repo) (RepositoryInfo.Name repo)
      (RepositoryInfo.BaseBranch repo)
      (Activities.GitHubOperationResult.BranchName
         (Workflows.CreateBranchActivity reg repo branch).1)
      (RepositoryInfo.CloneURL repo) in
  forall c,
    c ∈ (Workflows.run reg input).2 ->
    match c with
    | Workflows.CallCloneRepository r => r = repo
    | Workflows.CallCreateBranch r b => r = repo /\ b = branch
    | Workflows.CallCodeGeneration t p pth => t = task /\ p = plan /\ pth = path
    | Workflows.CallTesting pth => pth = path
    | Workflows.CallCommitChanges r pth message =>
      r = branched /\ pth = path
      /\ message = Activities.CodeGenerationResult.Summary
                     (Workflows.CodeGenerationActivity reg task plan path).1
    | Workflows.CallCreatePR r title description =>
      r = branched
      /\ title = Task.JiraTicketID task +:+ ": " +:+ Task.Title task
      /\ description = Workflows.generatePRDescription task plan
    | Workflows.CallUpdateJira ticketID prURL =>
      ticketID = Task.JiraTicketID task
      /\ exists pr,
          Activities.GitHubOperationResult.PRInfo
            (Workflows.CreatePRActivity reg branched
               (Task.JiraTicketID task +:+ ": " +:+ Task.Title task)
               (Workflows.generatePRDescription task plan)).1 = Some pr
          /\ prURL = PRInfo.PRURL pr
    end.
Proof.
  intros task plan repo branch path branched.
  subst branched path branch repo plan task.
  wf_cases reg.
  all: intros c Hin; wf_which Hin; subst c.
  all: unfold Workflows.generatePRTitle in *.
  all: repeat match goal with
              | H : ?x = (_, _) |- context [?x] => rewrite H
              end;
       cbn [fst snd Activities.GitHubOperationResult.PRInfo
            Activities.GitHubOperationResult.BranchName
            Activities.GitHubOperationResult.RepositoryPath
            Activities.CodeGenerationResult.Summary].
  all: repeat split; try reflexivity.
  all: try (exfalso; congruence).
  all: eexists; split; [reflexivity | congruence].
Qed.

Lemma steps_wired_witness :
  "PROJ-42" = Task.JiraTicketID Sample.task
  /\ exists pr,
       Activities.GitHubOperationResult.PRInfo
         (Workflows.CreatePRActivity Sample.worker_tolerating
            (RepositoryInfo.mk "org" "app" "main"
               (Activities.GitHubOperationResult.BranchName
                  (Workflows.CreateBranchActivity Sample.worker_tolerating Sample.repo
                     (Workflows.generateBranchName "PROJ-42" "Fix login bug!!")).1)
               "https://github.com/org/app")
            (Task.JiraTicketID Sample.task +:+ ": " +:+ Task.Title Sample.task)
            (Workflows.generatePRDescription Sample.task Sample.plan)).1 = Some pr
       /\ "https://github.com/org/app/pull/7" = PRInfo.PRURL pr.
Proof.
  apply (steps_wired Sample.worker_tolerating Sample.input
           (Workflows.CallUpdateJira "PROJ-42" "https://github.com/org/app/pull/7")).
  vm_compute. do 6 apply list_elem_of_further. apply list_elem_of_here.
Defined.

(** X5. End to end, over the handlers of the worker. When the clone, the
    creation of the generated branch in the repository path, code
    generation, the commit in the clone path, the push of the generated
    branch and the opening of the review request (generated branch into
    base branch, generated title and description) all succeed, the run
    goes through the seven steps and returns the review request the
    hosting service opened, whatever the tests and the Jira comment do. *)
Theorem pipeline_end_to_end
    (client : Activities.GithubClient) (jira : option Activities.JiraActivities)
    (codegen : Task.t -> ImplementationPlan.t -> string ->
               Activities.CodeGenerationResult.t * option error)
    (testing : string -> Activities.TestingResult.t * option error)
    (input : Workflows.WorkflowInput.t) (pr : PRInfo.t) :
  let task := Workflows.WorkflowInput.Task input in
  let plan := Workflows.WorkflowInput.Plan input in
  let owner := RepositoryInfo.Owner (Workflows.WorkflowInput.Repository input) in
  let name := RepositoryInfo.Name (Workflows.WorkflowInput.Repository input) in
  let base := RepositoryInfo.BaseBranch (Workflows.WorkflowInput.Repository input) in
  let branch := Workflows.generateBranchName (Task.JiraTicketID task) (Task.Title task) in
  let path := (Activities.CloneRepository client owner name base).1 in
  let summary := Activities.CodeGenerationResult.Summary (codegen task plan path).1 in
  let reg :=
    Workflows.registered
      (Activities.mkGlobals (Some (Activities.mkGitHubActivities client)) jira)
      codegen testing in
  (Activities.CloneRepository client owner name base).2 = None ->
  Activities.CreateBranch client (Activities.GetRepositoryPath client owner name) base branch
  = None ->
  (codegen task plan path).2 = None ->
  Activities.CommitChanges client path summary = None ->
  Activities.PushBranch client path branch = None ->
  Activities.CreatePullRequest client owner name base branch
    (Task.JiraTicketID task +:+ ": " +:+ Task.Title task)
    (Workflows.generatePRDescription task plan) = (Some pr, None) ->
  (Workflows.run reg input).1 = Workflows.Value (Some pr)
  /\ PipelineSpec.steps (Workflows.run reg input).2 = [1; 2; 3; 4; 5; 6; 7]%nat.
Proof.
  intros task plan owner name base branch path summary reg.
  subst reg summary path branch base name owner plan task.
  intros Hclone Hbranch Hcodegen Hcommit Hpush Hpr.
  unfold Workflows.run, Workflows.ImplementationWorkflow, Workflows.bind,
    Workflows.ExecuteActivity, Workflows.check, Workflows.deref, Workflows.ret, Workflows.Get,
    Workflows.registered, Workflows.generatePRTitle.
  cbn [app Workflows.CloneRepositoryActivity Workflows.CreateBranchActivity
       Workflows.CodeGenerationActivity Workflows.TestingActivity
       Workflows.CommitChangesActivity Workflows.CreatePRActivity
       Workflows.UpdateJiraActivity].
  unfold Activities.CloneRepositoryActivity, Activities.CreateBranchActivity,
    Activities.CommitChangesActivity, Activities.CreatePRActivity,
    Activities.GitHubActivities_CloneRepositoryActivity,
    Activities.GitHubActivities_CreateBranchActivity,
    Activities.GitHubActivities_CommitChangesActivity,
    Activities.GitHubActivities_CreatePRActivity.
  cbn [Activities.githubActivities Activities.githubClient].
  destruct (Activities.CloneRepository client _ _ _) as [repoPath cloneErr].
  cbn [fst snd] in *. subst cloneErr.
  cbn [Activities.GitHubOperationResult.RepositoryPath RepositoryInfo.Owner
       RepositoryInfo.Name RepositoryInfo.BaseBranch RepositoryInfo.FeatureBranch].
  rewrite Hbranch.
  cbn [Activities.GitHubOperationResult.BranchName Activities.GitHubOperationResult.RepositoryPath].
  destruct (codegen _ _ repoPath) as [generated codegenErr].
  cbn [fst snd] in *. subst codegenErr.
  destruct (testing repoPath) as [tested [testErr|]];
    rewrite Hcommit, Hpush, Hpr;
    cbn [Activities.GitHubOperationResult.PRInfo];
    destruct (Activities.UpdateJiraActivity _ _ _) as [updated [jiraErr|]];
    split; reflexivity.
Qed.

Lemma pipeline_end_to_end_witness :
  (Workflows.run Sample.worker_tolerating Sample.input).1 = Workflows.Value (Some Sample.pr)
  /\ PipelineSpec.steps (Workflows.run Sample.worker_tolerating Sample.input).2
     = [1; 2; 3; 4; 5; 6; 7]%nat.
Proof.
  apply (pipeline_end_to_end Sample.github
           (Some (Activities.mkJiraActivities Sample.jira_down))
           Sample.codegen_ok Sample.tests_broken Sample.input Sample.pr); reflexivity.
Defined.

(** * Further properties of branch names and descriptions *)

Lemma str_length_app (a b : string) :
  String.length (a +:+ b) = (String.length a + String.length b)%nat.
Proof.
  induction a as [|c a IH]; [reflexivity|].
  rewrite str_app_cons. cbn [String.length]. rewrite IH. reflexivity.
Qed.

Lemma slice_to_length (s : string) (n : nat) :
  String.length (slice_to s n) = Nat.min (String.length s) n.
Proof.
  revert s; induction n as [|n IH]; intros [|c s]; cbn [slice_to String.length];
    try reflexivity; try lia.
  rewrite IH. reflexivity.
Qed.

Lemma slice_to_prefix (s : string) (n : nat) : String.prefix (slice_to s n) s = true.
Proof.
  rewrite (slice_split s n) at 2. apply prefix_app.
Qed.

Lemma slice_to_twice (s : string) (n : nat) : slice_to (slice_to s n) n = slice_to s n.
Proof. apply slice_to_all. rewrite slice_to_length. lia. Qed.

Lemma truncateString_slice (s : string) (maxLen : Z) :
  0 <= maxLen -> Workflows.truncateString s maxLen = slice_to s (Z.to_nat maxLen).
Proof.
  intros Hmax. unfold Workflows.truncateString.
  destruct (Z.leb_spec (Z.of_nat (String.length s)) maxLen) as [Hle|Hgt]; [|reflexivity].
  symmetry. apply slice_to_all. lia.
Qed.

(** X6. [truncateString], in both packages: for a bound that is not
    negative the result is a prefix of the string, its length is the
    smaller of the length of the string and the bound, and truncating
    again changes nothing. The cut counts bytes. *)
Theorem truncateString_bound (s : string) (maxLen : Z) :
  0 <= maxLen ->
  Z.of_nat (String.length (Workflows.truncateString s maxLen))
  = Z.min (Z.of_nat (String.length s)) maxLen
  /\ String.prefix (Workflows.truncateString s maxLen) s = true
  /\ Workflows.truncateString (Workflows.truncateString s maxLen) maxLen
     = Workflows.truncateString s maxLen
  /\ Github.truncateString s maxLen = Workflows.truncateString s maxLen.
Proof.
  intros Hmax. rewrite !truncateString_slice by exact Hmax.
  split; [rewrite slice_to_length; lia|]. split; [apply slice_to_prefix|].
  split; [apply slice_to_twice|].
  rewrite <- truncateString_slice by exact Hmax. reflexivity.
Qed.

Lemma truncateString_bound_witness :
  Z.of_nat (String.length
              (Workflows.truncateString "Migrate the billing service to the new ledger" 30))
  = Z.min 45 30
  /\ String.prefix (Workflows.truncateString "Migrate the billing service to the new ledger" 30)
       "Migrate the billing service to the new ledger" = true.
Proof.
  destruct (truncateString_bound "Migrate the billing service to the new ledger" 30)
    as (Hlen & Hprefix & _); [lia|].
  split; [exact Hlen | exact Hprefix].
Defined.

Lemma runes_from_length (s : string) (skip : nat) :
  (length (Utf8.runes_from skip s) <= String.length s)%nat.
Proof.
  revert skip; induction s as [|c s IH]; intros skip; [cbn; lia|].
  cbn [Utf8.runes_from String.length]. destruct skip as [|k].
  - destruct (Utf8.decoderune (String c s)) as [r w]. cbn [length].
    specialize (IH (Nat.pred w)). lia.
  - specialize (IH k). lia.
Qed.

Lemma sanitize_char_length (r : Z) : (String.length (BranchSpec.sanitize_char r) <= 1)%nat.
Proof.
  unfold BranchSpec.sanitize_char.
  destruct (BranchSpec.in_charset r); [cbn; lia|]. destruct (r =? 32); cbn; lia.
Qed.

Lemma sanitize_chars_length (l : list Z) :
  (String.length (fold_right String.append "" (map BranchSpec.sanitize_char l)) <= length l)%nat.
Proof.
  induction l as [|r l IH]; [cbn; lia|].
  cbn [map fold_right length]. rewrite str_length_app.
  pose proof (sanitize_char_length r). lia.
Qed.

Lemma sanitize_length (s : string) :
  (String.length (Workflows.sanitizeBranchName s) <= String.length s)%nat.
Proof.
  rewrite sanitizeBranchName_spec. unfold BranchSpec.sanitize, Utf8.runes.
  pose proof (runes_from_length s 0). pose proof (sanitize_chars_length (Utf8.runes_from 0 s)).
  lia.
Qed.

(** X7. A branch name is never longer than the ticket identifier plus 40
    bytes: the prefix ["khitomer/"], the hyphen, and at most 30 bytes from
    the title, since sanitizing never lengthens a string. *)
Theorem branch_name_length (ticketID title : string) :
  (String.length (Workflows.generateBranchName ticketID title)
   <= String.length ticketID + 40)%nat
  /\ (String.length (Workflows.sanitizeBranchName title) <= String.length title)%nat.
Proof.
  split; [|apply sanitize_length].
  unfold Workflows.generateBranchName. rewrite !str_length_app.
  pose proof (sanitize_length (Workflows.truncateString title 30)) as Hs.
  rewrite truncateString_slice in Hs by lia. rewrite slice_to_length in Hs.
  rewrite truncateString_slice by lia.
  change (String.length "khitomer/") with 9%nat. change (String.length "-") with 1%nat.
  change (Z.to_nat 30) with 30%nat in *. lia.
Qed.

Lemma runes_of_ascii (s : string) :
  Forall (fun c => byte c < 0x80) (list_ascii_of_string s) ->
  Utf8.runes s = map byte (list_ascii_of_string s).
Proof.
  unfold Utf8.runes. induction s as [|c s IH]; intros Hall; [reflexivity|].
  cbn [list_ascii_of_string] in Hall. apply Forall_cons in Hall as [Hc Hall].
  cbn [Utf8.runes_from Utf8.decoderune list_ascii_of_string map].
  destruct (Z.ltb_spec (byte c) 0x80); [|lia].
  cbn [Nat.pred]. rewrite IH by exact Hall. reflexivity.
Qed.

Lemma chr_byte (c : ascii) : chr (byte c) = c.
Proof. unfold chr, byte. rewrite N2Z.id. apply ascii_N_embedding. Qed.

Lemma sanitize_fixed (s : string) :
  Forall (fun c => BranchSpec.in_charset (byte c) = true) (list_ascii_of_string s) ->
  Workflows.sanitizeBranchName s = s.
Proof.
  intros Hall. rewrite sanitizeBranchName_spec. unfold BranchSpec.sanitize.
  rewrite runes_of_ascii.
  - induction s as [|c s IH]; [reflexivity|].
    cbn [list_ascii_of_string] in Hall. apply Forall_cons in Hall as [Hc Hall].
    cbn [list_ascii_of_string map fold_right]. rewrite IH by exact Hall.
    unfold BranchSpec.sanitize_char. rewrite Hc, chr_byte. reflexivity.
  - eapply Forall_impl; [exact Hall|]. intros c Hc. cbn beta in Hc.
    apply in_charset_ascii in Hc. lia.
Qed.

(** X8. [sanitizeBranchName] leaves a string over [A-Za-z0-9_-] as it is,
    so sanitizing twice is sanitizing once. *)
Theorem sanitizeBranchName_idempotent (s : string) :
  (Forall (fun c => BranchSpec.in_charset (byte c) = true) (list_ascii_of_string s) ->
   Workflows.sanitizeBranchName s = s)
  /\ Workflows.sanitizeBranchName (Workflows.sanitizeBranchName s)
     = Workflows.sanitizeBranchName s
  /\ Github.sanitizeBranchName s = Workflows.sanitizeBranchName s.
Proof.
  split; [apply sanitize_fixed|]. split; [|reflexivity].
  apply sanitize_fixed. rewrite sanitizeBranchName_spec. apply sanitize_charset.
Qed.

Lemma sanitizeBranchName_idempotent_witness :
  Workflows.sanitizeBranchName "Fix-login_bug-2" = "Fix-login_bug-2".
Proof.
  apply (proj1 (sanitizeBranchName_idempotent "Fix-login_bug-2")).
  cbn [list_ascii_of_string]. repeat constructor.
Defined.

Lemma numbered_steps_agree (steps : list PlanStep.t) (k : nat) (acc : string) :
  fold_left
    (fun desc '(i, step) =>
       desc +:+ (pretty (Z.of_nat i + 1) +:+ ". " +:+ PlanStep.Description step +:+ nl))
    (imap (fun i step => ((k + i)%nat, step)) steps) acc
  = fold_left
      (fun sb '(i, step) => sb +:+ (pretty (Z.of_nat i + 1) +:+ ". " +:+ step +:+ nl))
      (imap (fun i step => ((k + i)%nat, step)) (map PlanStep.Description steps)) acc.
Proof.
  revert k acc. induction steps as [|step steps IH]; intros k acc; [reflexivity|].
  cbn [map imap fold_left].
  rewrite (imap_ext _ (fun i st => ((S k + i)%nat, st)) steps)
    by (intros i x _; cbn; f_equal; lia).
  rewrite (imap_ext (_ ∘ S) (fun i st => ((S k + i)%nat, st)) (map PlanStep.Description steps))
    by (intros i x _; cbn; f_equal; lia).
  apply IH.
Qed.

(** X9. The two renderings of the description of a pull request, the
    workflow's and internal/github's, agree on a plan with steps; on a plan
    without steps the workflow still writes the heading of the steps and
    internal/github does not. *)
Theorem pr_descriptions_compared (task : Task.t) (plan : ImplementationPlan.t) :
  let github :=
    GithubPr.GeneratePRDescription (Task.JiraTicketID task) (Task.Description task)
      (ImplementationPlan.Summary plan)
      (map PlanStep.Description (ImplementationPlan.Steps plan)) in
  (ImplementationPlan.Steps plan <> [] ->
   Workflows.generatePRDescription task plan = github)
  /\ (ImplementationPlan.Steps plan = [] ->
      Workflows.generatePRDescription task plan = github +:+ ("## Steps" +:+ nl +:+ nl)).
Proof.
  intros github. subst github.
  unfold Workflows.generatePRDescription, GithubPr.GeneratePRDescription.
  destruct (ImplementationPlan.Steps plan) as [|step steps] eqn:Hsteps; split;
    try congruence; intros _.
  - reflexivity.
  - rewrite length_map. cbn [length Nat.ltb Nat.leb].
    apply (numbered_steps_agree (step :: steps) 0).
Qed.

Lemma pr_descriptions_compared_witness :
  Workflows.generatePRDescription Sample.task Sample.plan
  = GithubPr.GeneratePRDescription "PROJ-42" "The login form rejects valid users"
      "Repair the session check" ["Change the handler"; "Add a test"].
Proof.
  apply (proj1 (pr_descriptions_compared Sample.task Sample.plan)). discriminate.
Defined.

(** * Further properties of the planner *)

Section PlanShapeKept.
Import GoStrings.

Lemma parseLine_numbered (st : Planner.parser) (raw : string) :
  PlanShape.numbered st -> PlanShape.numbered (Planner.parseLine st raw).
Proof.
  intros [Hnext Hsofar]. unfold Planner.parseLine.
  destruct (String.eqb (TrimSpace raw) ""); [split; assumption|].
  destruct (HasPrefix (TrimSpace raw) "SUMMARY:"); [split; assumption|].
  destruct (HasPrefix (TrimSpace raw) "STEPS:"); [split; assumption|].
  destruct (HasPrefix (TrimSpace raw) "FILES_MODIFY:"); [split; assumption|].
  destruct (HasPrefix (TrimSpace raw) "FILES_CREATE:"); [split; assumption|].
  destruct (HasPrefix (TrimSpace raw) "COMPLEXITY:"); [split; assumption|].
  destruct (String.eqb (Planner.currentSection st) "steps"); [|split; assumption].
  destruct (parseStep_untyped (TrimSpace raw) (TrimSpace raw) (Planner.stepOrder st)
              (occurs_refl _)) as (step & -> & Horder & _).
  unfold PlanShape.numbered. cbn [Planner.stepOrder Planner.Steps].
  rewrite length_app, map_app, Nat.add_1_r, seq_S, map_app, Hsofar. cbn [length map].
  split; [lia|]. rewrite Horder, Hnext. do 2 f_equal. lia.
Qed.

Lemma parseLines_numbered (lines : list string) (st : Planner.parser) :
  PlanShape.numbered st -> PlanShape.numbered (fold_left Planner.parseLine lines st).
Proof.
  revert st. induction lines as [|raw lines IH]; intros st Hst; [exact Hst|].
  cbn [fold_left]. apply IH, parseLine_numbered, Hst.
Qed.

Lemma chars_occurs (t s : string) (c : ascii) :
  occurs t s -> c ∈ list_ascii_of_string t -> c ∈ list_ascii_of_string s.
Proof.
  intros (pre & post & ->) Hin. rewrite !chars_app, !elem_of_app. right. left. exact Hin.
Qed.

(** The parts [strings.Split] cuts a string into do not hold the
    separator. *)
Lemma Split_parts (s : string) (sep : ascii) :
  Forall (fun part => sep ∉ list_ascii_of_string part) (Split s sep).
Proof.
  induction s as [|c s IH]; cbn [Split].
  - constructor; [apply not_elem_of_nil | constructor].
  - destruct (Ascii.eqb_spec c sep) as [->|Hne].
    + constructor; [apply not_elem_of_nil | exact IH].
    + destruct (Split s sep) as [|h t].
      * constructor; [|constructor]. cbn. intros Hin.
        apply list_elem_of_singleton in Hin. congruence.
      * apply Forall_cons in IH as [Hh Ht]. constructor; [|exact Ht].
        cbn [list_ascii_of_string]. intros Hin. apply elem_of_cons in Hin as [Heq|Hin];
          [congruence | exact (Hh Hin)].
Qed.

Lemma trimmed_parts (s : string) (sep : ascii) :
  Forall (fun part => sep ∉ list_ascii_of_string part) (map TrimSpace (Split s sep)).
Proof.
  apply Forall_map. eapply Forall_impl; [apply Split_parts|].
  intros part Hpart Hin. cbn beta in *. apply Hpart.
  eapply chars_occurs; [apply TrimSpace_occurs | exact Hin].
Qed.

Lemma parseLine_comma_free (st : Planner.parser) (raw : string) :
  PlanShape.comma_free st -> PlanShape.comma_free (Planner.parseLine st raw).
Proof.
  intros [Hm Hc]. unfold Planner.parseLine.
  destruct (String.eqb (TrimSpace raw) ""); [split; assumption|].
  destruct (HasPrefix (TrimSpace raw) "SUMMARY:"); [split; assumption|].
  destruct (HasPrefix (TrimSpace raw) "STEPS:"); [split; assumption|].
  destruct (HasPrefix (TrimSpace raw) "FILES_MODIFY:").
  { split; [|exact Hc]. cbn [Planner.FilesToModify].
    destruct (String.eqb _ ""); [exact Hm | apply trimmed_parts]. }
  destruct (HasPrefix (TrimSpace raw) "FILES_CREATE:").
  { split; [exact Hm|]. cbn [Planner.FilesToCreate].
    destruct (String.eqb _ ""); [exact Hc | apply trimmed_parts]. }
  destruct (HasPrefix (TrimSpace raw) "COMPLEXITY:"); [split; assumption|].
  destruct (String.eqb (Planner.currentSection st) "steps"); [|split; assumption].
  destruct (Planner.parseStep _ _); split; assumption.
Qed.

Lemma parseLines_comma_free (lines : list string) (st : Planner.parser) :
  PlanShape.comma_free st -> PlanShape.comma_free (fold_left Planner.parseLine lines st).
Proof.
  revert st. induction lines as [|raw lines IH]; intros st Hst; [exact Hst|].
  cbn [fold_left]. apply IH, parseLine_comma_free, Hst.
Qed.

End PlanShapeKept.

(** X10. The steps of a parsed plan are numbered 1, 2, ..., in the order
    of their lines, whatever lines the response interleaves with them. *)
Theorem plan_steps_numbered (response : string) (task : Task.t) :
  exists plan,
    Planner.parseResponse response task = inl plan
    /\ map PlanStep.Order (ImplementationPlan.Steps plan)
       = map Z.of_nat (seq 1 (length (ImplementationPlan.Steps plan))).
Proof.
  unfold Planner.parseResponse. eexists. split; [reflexivity|].
  cbn [ImplementationPlan.Steps]. apply parseLines_numbered. split; reflexivity.
Qed.

(** X11. The file names of a parsed plan, to modify and to create, hold no
    comma: each list is a comma-separated line cut at every comma. *)
Theorem plan_files_comma_free (response : string) (task : Task.t) :
  exists plan,
    Planner.parseResponse response task = inl plan
    /\ Forall (fun f => ","%char ∉ list_ascii_of_string f)
         (ImplementationPlan.FilesToModify plan ++ ImplementationPlan.FilesToCreate plan).
Proof.
  unfold Planner.parseResponse. eexists. split; [reflexivity|].
  cbn [ImplementationPlan.FilesToModify ImplementationPlan.FilesToCreate].
  apply Forall_app. apply parseLines_comma_free. split; constructor.
Qed.

(** X12. [Plan] asks the backend once, whether the call fails, the answer
    has no choice or the answer parses: it uses up one answer of the
    backend and keeps its model. There is no retry. *)
Theorem Plan_asks_once (p : Planner.AIPlanner) (task : Task.t) :
  Planner.client (Planner.AIPlanner_Plan p task).2 = tl (Planner.client p)
  /\ Planner.model (Planner.AIPlanner_Plan p task).2 = Planner.model p.
Proof.
  unfold Planner.AIPlanner_Plan, Planner.CreateChatCompletion.
  destruct (Planner.client p) as [|answer c']; cbn [tl].
  - split; reflexivity.
  - destruct (answer _) as [resp [e|]]; [split; reflexivity|].
    destruct (Planner.ChatCompletionResponse.Choices resp) as [|choice rest];
      [split; reflexivity|].
    destruct (Planner.parseResponse _ task); split; reflexivity.
Qed.

(** * Properties of the Jira client *)

Section JiraClientFacts.
Import GoStrings JiraClient.
Variable ToLower : string -> string.
Variable EqualFold : string -> string -> bool.

Lemma Index_at_range (sub s : string) (i : Z) :
  Index_at s sub i = -1 \/ i <= Index_at s sub i.
Proof.
  revert i; induction s as [|c s IH]; intros i; cbn [Index_at];
    destruct (String.prefix sub _); try (right; lia); try (left; reflexivity).
  destruct (IH (i + 1)) as [->|Hle]; [left; reflexivity | right; lia].
Qed.

Lemma Index_at_found (sub s : string) (i : Z) :
  Index_at s sub i <> -1 -> occurs sub s.
Proof.
  revert i; induction s as [|c s IH]; intros i; cbn [Index_at];
    destruct (String.prefix sub _) eqn:Hp; try (intros _; apply prefix_occurs, Hp).
  - intros Hne. congruence.
  - intros Hne. destruct (IH _ Hne) as (pre & post & ->).
    exists (String c pre), post. reflexivity.
Qed.

Lemma Contains_occurs (s sub : string) : Contains s sub = true <-> occurs sub s.
Proof.
  unfold Contains. split.
  - intros Hge. apply Z.leb_le in Hge. apply (Index_at_found sub s 0).
    unfold Index in Hge. lia.
  - intros Hocc. apply Z.leb_le.
    destruct (Index_at_range sub s 0) as [Hno|Hge]; [|exact Hge].
    apply Index_absent in Hno. contradiction.
Qed.

Lemma slice_from_app (p x : string) : slice_from (p +:+ x) (String.length p) = x.
Proof. induction p as [|c p IH]; [reflexivity|]. rewrite str_app_cons. exact IH. Qed.

Lemma TrimPrefix_app (p x : string) : TrimPrefix (p +:+ x) p = x.
Proof. unfold TrimPrefix, HasPrefix. rewrite prefix_app. apply slice_from_app. Qed.

Lemma Split_whole (s : string) (sep : ascii) :
  sep ∉ list_ascii_of_string s -> Split s sep = [s].
Proof.
  induction s as [|c s IH]; intros Hno; [reflexivity|].
  cbn [list_ascii_of_string] in Hno. apply not_elem_of_cons in Hno as [Hne Hno].
  cbn [Split]. destruct (Ascii.eqb_spec c sep); [congruence|].
  rewrite IH by exact Hno. reflexivity.
Qed.

Lemma Split_at (a b : string) (sep : ascii) :
  sep ∉ list_ascii_of_string a -> Split (a +:+ String sep b) sep = a :: Split b sep.
Proof.
  induction a as [|c a IH]; intros Hno.
  - rewrite str_app_nil_l. cbn [Split]. rewrite Ascii.eqb_refl. reflexivity.
  - cbn [list_ascii_of_string] in Hno. apply not_elem_of_cons in Hno as [Hne Hno].
    rewrite str_app_cons. cbn [Split]. destruct (Ascii.eqb_spec c sep); [congruence|].
    rewrite IH by exact Hno. reflexivity.
Qed.

(** The owner and the name [extractRepositoryInfo] finds hold no slash. *)
Lemma extract_from_parts (c : Client) (unknowns : list (string * option string))
    (owner name : string) :
  extract_from ToLower c unknowns = Some (owner, name) ->
  ("/"%char ∉ list_ascii_of_string owner) /\ ("/"%char ∉ list_ascii_of_string name).
Proof.
  induction unknowns as [|[key value] rest IH]; cbn [extract_from]; [discriminate|].
  destruct (Contains (ToLower key) _); [|exact IH].
  destruct value as [repoStr|]; [|exact IH].
  destruct (HasPrefix (TrimSpace repoStr) "https://github.com/").
  - pose proof (Split_parts (TrimPrefix (TrimSpace repoStr) "https://github.com/") "/"%char)
      as Hparts.
    destruct (Split _ "/"%char) as [|p0 [|p1 more]]; try exact IH.
    intros [= <- <-]. apply Forall_cons in Hparts as [H0 Hparts].
    apply Forall_cons in Hparts as [H1 _]. split; assumption.
  - destruct (Contains (TrimSpace repoStr) "/"); [|exact IH].
    pose proof (Split_parts (TrimSpace repoStr) "/"%char) as Hparts.
    destruct (Split _ "/"%char) as [|p0 [|p1 [|p2 more]]]; try exact IH.
    intros [= <- <-]. apply Forall_cons in Hparts as [H0 Hparts].
    apply Forall_cons in Hparts as [H1 _]. split; assumption.
Qed.

Lemma issueToTask_task (c : Client) (issue : Issue.t) (task : Task.t) (err : option error) :
  issueToTask ToLower c issue = (Some task, err) ->
  err = None /\ JiraClientSpec.well_formed task /\ Task.JiraTicketID task = Issue.Key issue.
Proof.
  unfold issueToTask, extractRepositoryInfo.
  destruct (extract_from ToLower c (Issue.Unknowns issue)) as [[owner name]|] eqn:Hfound;
    [|discriminate].
  destruct (extract_from_parts _ _ _ _ Hfound) as [Howner Hname].
  destruct (String.eqb_spec owner ""); [discriminate|].
  destruct (String.eqb_spec name ""); [discriminate|].
  cbn [orb]. intros [= <- <-]. split; [reflexivity|]. split; [|reflexivity].
  repeat split; assumption.
Qed.

Lemma collect_issues (c : Client) (issues : list Issue.t) (acc : list Task.t) :
  exists tasks,
    fold_left (collect ToLower c) issues acc = (acc ++ tasks)%list
    /\ Forall JiraClientSpec.well_formed tasks
    /\ sublist (map Task.JiraTicketID tasks) (map Issue.Key issues).
Proof.
  revert acc. induction issues as [|issue issues IH]; intros acc.
  - exists []. rewrite app_nil_r. repeat split; constructor.
  - cbn [fold_left map]. unfold collect at 2.
    destruct (issueToTask ToLower c issue) as [[task|] [e|]] eqn:Htask.
    + destruct (IH acc) as (tasks & -> & Hwf & Hsub).
      exists tasks. split; [reflexivity|]. split; [exact Hwf | apply sublist_cons, Hsub].
    + destruct (issueToTask_task _ _ _ _ Htask) as (_ & Hwf1 & Hkey).
      destruct (IH (acc ++ [task])%list) as (tasks & -> & Hwf & Hsub).
      exists (task :: tasks). rewrite <- app_assoc. split; [reflexivity|].
      split; [constructor; assumption|]. cbn [map]. rewrite Hkey. apply sublist_skip, Hsub.
    + destruct (IH acc) as (tasks & -> & Hwf & Hsub).
      exists tasks. split; [reflexivity|]. split; [exact Hwf | apply sublist_cons, Hsub].
    + destruct (IH acc) as (tasks & -> & Hwf & Hsub).
      exists tasks. split; [reflexivity|]. split; [exact Hwf | apply sublist_cons, Hsub].
Qed.

(** The loop keeps the task of an issue that names its repository and
    nothing else. *)
Lemma collect_task_of (c : Client) (acc : list Task.t) (issue : Issue.t) :
  collect ToLower c acc issue
  = (acc ++ match JiraClientSpec.task_of ToLower c issue with
            | Some task => [task]
            | None => []
            end)%list.
Proof.
  unfold collect, issueToTask, JiraClientSpec.task_of.
  destruct (extractRepositoryInfo ToLower c issue) as [[owner name]|e];
    [|rewrite app_nil_r; reflexivity].
  destruct (String.eqb_spec owner "") as [Ho|Ho], (String.eqb_spec name "") as [Hn|Hn];
    cbn [orb]; destruct (decide (owner = "" \/ name = "")) as [Hempty|Hfull];
    try (rewrite app_nil_r; reflexivity); try (exfalso; tauto).
  destruct (Issue.Assignee issue); reflexivity.
Qed.

Lemma collect_kept (c : Client) (issues : list Issue.t) (acc : list Task.t) :
  fold_left (collect ToLower c) issues acc
  = (acc ++ omap (JiraClientSpec.task_of ToLower c) issues)%list.
Proof.
  revert acc. induction issues as [|issue issues IH]; intros acc.
  - cbn. rewrite app_nil_r. reflexivity.
  - cbn [fold_left]. rewrite IH, collect_task_of, <- app_assoc. f_equal.
    cbn [omap list_omap]. destruct (JiraClientSpec.task_of ToLower c issue); reflexivity.
Qed.

(** X13. [GetTasksByStatus] fails exactly when the search fails. When
    the search succeeds it returns, in the order of the issues found,
    exactly the tasks of the issues that name a repository with an owner
    and a name that are not empty, each with the key, summary,
    description, status and assignee of its issue, and leaves every other
    issue out without an error. So every task it returns has an owner and
    a name that are not empty and hold no slash, the URL
    ["https://github.com/"] + owner + ["/"] + name and the base branch
    ["main"], and the tickets of the tasks are a subsequence of the keys
    of the issues. *)
Theorem GetTasksByStatus_filters (c : Client) (status : string) :
  let found := Search (client c) (jql c status) in
  let r := GetTasksByStatus ToLower c status in
  match found.2 with
  | Some e => r = ([], Some ("failed to search issues: " +:+ e))
  | None =>
    r.2 = None
    /\ r.1 = omap (JiraClientSpec.task_of ToLower c) found.1
    /\ Forall JiraClientSpec.well_formed r.1
    /\ sublist (map Task.JiraTicketID r.1) (map Issue.Key found.1)
  end.
Proof.
  intros found r. subst found r. unfold GetTasksByStatus.
  destruct (Search (client c) (jql c status)) as [issues [e|]]; cbn [fst snd]; [reflexivity|].
  split; [reflexivity|]. split; [apply (collect_kept c issues [])|].
  destruct (collect_issues c issues []) as (tasks & -> & Hwf & Hsub).
  split; assumption.
Qed.

(** X14. Reading a repository reference. The first custom field, in
    visiting order, whose name holds the configured name decides when its
    value is well formed: a value ["owner/name"], or
    ["https://github.com/owner/name"] with or without a further path, is
    read as that owner and that name, white space around the value
    aside. *)
Theorem repository_reference_read
    (c : Client) (issue : Issue.t) (skipped rest : list (string * option string))
    (key ref owner name : string) :
  Issue.Unknowns issue = (skipped ++ (key, Some ref) :: rest)%list ->
  Forall (fun kv => Contains (ToLower kv.1) (ToLower (customField c)) = false) skipped ->
  Contains (ToLower key) (ToLower (customField c)) = true ->
  "/"%char ∉ list_ascii_of_string owner ->
  "/"%char ∉ list_ascii_of_string name ->
  (TrimSpace ref = owner +:+ "/" +:+ name
   /\ HasPrefix (owner +:+ "/" +:+ name) "https://github.com/" = false)
  \/ (exists more,
        TrimSpace ref = "https://github.com/" +:+ (owner +:+ "/" +:+ name +:+ more)
        /\ (more = "" \/ exists tail, more = "/" +:+ tail)) ->
  extractRepositoryInfo ToLower c issue = inl (owner, name).
Proof.
  intros Hunknowns Hskipped Hkey Howner Hname Href.
  unfold extractRepositoryInfo. rewrite Hunknowns. clear Hunknowns.
  induction Hskipped as [|[k v] skipped Hk _ IH]; cbn [app extract_from].
  - rewrite Hkey. destruct Href as [[-> Hplain]|(more & -> & Hmore)].
    + rewrite Hplain.
      assert (Hslash : Contains (owner +:+ "/" +:+ name) "/" = true).
      { apply Contains_occurs. exists owner, name. reflexivity. }
      rewrite Hslash. change (owner +:+ "/" +:+ name) with (owner +:+ String "/" name).
      rewrite Split_at by exact Howner. rewrite Split_whole by exact Hname. reflexivity.
    + unfold HasPrefix at 1. rewrite prefix_app, TrimPrefix_app.
      change (owner +:+ "/" +:+ name +:+ more) with (owner +:+ String "/" (name +:+ more)).
      rewrite Split_at by exact Howner.
      destruct Hmore as [->|[tail ->]].
      * rewrite str_app_nil_r, Split_whole by exact Hname. reflexivity.
      * change (name +:+ "/" +:+ tail) with (name +:+ String "/" tail).
        rewrite Split_at by exact Hname. reflexivity.
  - cbn [fst] in Hk. rewrite Hk. exact IH.
Qed.

(** X15. [UpdateTaskStatus] performs at most one transition, and only one
    that leads to the status asked for (letter case aside), has an
    identifier and is the first such in the list of the issue; when the
    list cannot be read or holds no transition to that status it performs
    none and returns an error, and it returns no error only after a
    transition. *)
Theorem UpdateTaskStatus_transitions (c : Client) (ticketID status : string) :
  let listed := GetTransitions (client c) ticketID in
  let r := UpdateTaskStatus EqualFold c ticketID status in
  (r.2 = []
   \/ exists before transition after,
        listed = ((before ++ transition :: after)%list, None)
        /\ Forall (fun t => EqualFold (Transition.ToName t) status = false) before
        /\ EqualFold (Transition.ToName transition) status = true
        /\ Transition.ID transition <> ""
        /\ r.2 = [(ticketID, Transition.ID transition)])
  /\ (r.1 = None -> r.2 <> [])
  /\ (listed.2 <> None
      \/ Forall (fun t => EqualFold (Transition.ToName t) status = false) listed.1 ->
      r.2 = [] /\ r.1 <> None).
Proof.
  intros listed r. subst listed r. unfold UpdateTaskStatus.
  destruct (GetTransitions (client c) ticketID) as [transitions [e|]]; cbn [fst snd].
  { split; [left; reflexivity|]. split; [discriminate|]. intros _. split; [reflexivity | discriminate]. }
  assert (Hfind :
    (Forall (fun t => EqualFold (Transition.ToName t) status = false) transitions
     /\ find_transition EqualFold transitions status = "")
    \/ exists before transition after,
         transitions = (before ++ transition :: after)%list
         /\ Forall (fun t => EqualFold (Transition.ToName t) status = false) before
         /\ EqualFold (Transition.ToName transition) status = true
         /\ find_transition EqualFold transitions status = Transition.ID transition).
  { induction transitions as [|t transitions IH]; cbn [find_transition].
    - left. split; [constructor | reflexivity].
    - destruct (EqualFold (Transition.ToName t) status) eqn:Ht.
      + right. exists [], t, transitions. repeat split; [constructor | exact Ht].
      + destruct IH as [[Hall Hnone]|(before & tr & after & -> & Hbefore & Htr & Hid)].
        * left. split; [constructor; assumption | exact Hnone].
        * right. exists (t :: before), tr, after.
          repeat split; [constructor; assumption | exact Htr | exact Hid]. }
  destruct Hfind as [[Hall ->]|(before & tr & after & -> & Hbefore & Htr & ->)].
  - cbn [String.eqb]. split; [left; reflexivity|]. split; [discriminate|].
    intros _. split; [reflexivity | discriminate].
  - destruct (String.eqb_spec (Transition.ID tr) "") as [Hempty|Hid].
    + split; [left; reflexivity|]. split; [discriminate|].
      intros _. split; [reflexivity | discriminate].
    + assert (Hdone : forall out : option error * list (string * string),
                 out.2 = [(ticketID, Transition.ID tr)] ->
                 (out.2 = []
                  \/ exists before0 transition after0,
                       ((before ++ tr :: after)%list, @None error)
                       = ((before0 ++ transition :: after0)%list, None)
                       /\ Forall (fun t => EqualFold (Transition.ToName t) status = false) before0
                       /\ EqualFold (Transition.ToName transition) status = true
                       /\ Transition.ID transition <> ""
                       /\ out.2 = [(ticketID, Transition.ID transition)])
                 /\ (out.1 = None -> out.2 <> [])
                 /\ (@None error <> None
                     \/ Forall (fun t => EqualFold (Transition.ToName t) status = false)
                          (before ++ tr :: after) ->
                     out.2 = [] /\ out.1 <> None)).
      { intros out Hout. split; [|split].
        - right. exists before, tr, after. repeat split; assumption.
        - intros _. rewrite Hout. discriminate.
        - intros [Hne|Hall]; [congruence|]. exfalso.
          apply Forall_app in Hall as [_ Hall]. apply Forall_cons in Hall as [Hno _].
          congruence. }
      destruct (DoTransition (client c) ticketID (Transition.ID tr)); apply Hdone; reflexivity.
Qed.

End JiraClientFacts.

Lemma repository_reference_read_witness :
  JiraClient.extractRepositoryInfo SampleJira.lower SampleJira.client SampleJira.issue1
  = inl ("org", "app")
  /\ JiraClient.extractRepositoryInfo SampleJira.lower SampleJira.client SampleJira.issue3
     = inl ("org", "vault").
Proof.
  split.
  - apply (repository_reference_read SampleJira.lower SampleJira.client SampleJira.issue1
             [("customfield_10020", Some "sprint 7")] [] "Repository URL" " org/app "
             "org" "app").
    + reflexivity.
    + repeat constructor.
    + reflexivity.
    + intros Hin. repeat (apply elem_of_cons in Hin as [Hin|Hin]; [discriminate|]).
      apply elem_of_nil in Hin. exact Hin.
    + intros Hin. repeat (apply elem_of_cons in Hin as [Hin|Hin]; [discriminate|]).
      apply elem_of_nil in Hin. exact Hin.
    + left. split; reflexivity.
  - apply (repository_reference_read SampleJira.lower SampleJira.client SampleJira.issue3
             [] [] "repository" "https://github.com/org/vault/tree/main" "org" "vault").
    + reflexivity.
    + constructor.
    + reflexivity.
    + intros Hin. repeat (apply elem_of_cons in Hin as [Hin|Hin]; [discriminate|]).
      apply elem_of_nil in Hin. exact Hin.
    + intros Hin. repeat (apply elem_of_cons in Hin as [Hin|Hin]; [discriminate|]).
      apply elem_of_nil in Hin. exact Hin.
    + right. exists "/tree/main". split; [reflexivity|]. right. exists "tree/main". reflexivity.
Defined.

(** The search of the sample client finds three issues, one of which
    names no repository: two tasks come back. *)
Example GetTasksByStatus_sample :
  map Task.JiraTicketID (JiraClient.GetTasksByStatus SampleJira.lower SampleJira.client "Ready").1
  = ["PROJ-42"; "PROJ-44"]
  /\ map (fun issue => from_option Task.RepositoryName ""
                         (JiraClientSpec.task_of SampleJira.lower SampleJira.client issue))
       [SampleJira.issue1; SampleJira.issue2; SampleJira.issue3]
     = ["app"; ""; "vault"].
Proof. split; vm_compute; reflexivity. Qed.

(** * The poll cycle and the tracker *)

Section PollCycle.
Import Jira JiraSpec IntakeSpec.

Lemma GetTasksByStatus_rest (c : Client) (status : string) :
  (GetTasksByStatus c status).2 = drop 1 c.
Proof. destruct c; reflexivity. Qed.

(** The loop over the tasks leaves the tracker client and the filter
    alone, and sends tasks of its list only, in the order of the list. *)
Lemma poll_tasks_sublist (tasks : list Task.t) (p : Poller) (w : World) (sch : list sched) :
  client (poller (poll_tasks tasks p w sch).2) = client p
  /\ statusFilter (poller (poll_tasks tasks p w sch).2) = statusFilter p
  /\ exists extra,
       emitted (world (poll_tasks tasks p w sch).2) = (emitted w ++ extra)%list
       /\ sublist extra tasks.
Proof.
  revert p w sch. induction tasks as [|task tasks IH]; intros p w sch; cbn [poll_tasks].
  - split; [reflexivity|]. split; [reflexivity|]. exists [].
    rewrite app_nil_r. split; [reflexivity | constructor].
  - destruct (isProcessed p (Task.JiraTicketID task)).
    { destruct (IH p w sch) as (Hc & Hf & extra & He & Hsub).
      split; [exact Hc|]. split; [exact Hf|]. exists extra.
      split; [exact He | apply sublist_cons, Hsub]. }
    set (s := hd idle sch).
    pose proof (select_send_emitted (fold_left env_step (before s) w) task (pick s)
                  (while_blocked s)) as Hsel.
    rewrite env_steps_emitted in Hsel.
    destruct (select_send _ task (pick s) (while_blocked s)) as [w'|w'|w'].
    + destruct (IH (markProcessed p (Task.JiraTicketID task)) w' (tl sch))
        as (Hc & Hf & extra & He & Hsub).
      split; [exact Hc|]. split; [exact Hf|]. exists (task :: extra).
      split; [rewrite He, Hsel, <- app_assoc; reflexivity | apply sublist_skip, Hsub].
    + cbn [snd poller world client statusFilter markProcessed].
      split; [reflexivity|]. split; [reflexivity|]. exists [].
      rewrite app_nil_r. split; [exact Hsel | apply sublist_nil_l].
    + cbn [snd poller world client statusFilter markProcessed].
      split; [reflexivity|]. split; [reflexivity|]. exists [].
      rewrite app_nil_r. split; [exact Hsel | apply sublist_nil_l].
Qed.

Lemma poll_statuses_sublist (statuses : list string) (p : Poller) (w : World)
    (sch : list sched) :
  let r := poll_statuses statuses p w sch in
  statusFilter (poller r.2) = statusFilter p
  /\ (r.1 = Completed -> client (poller r.2) = drop (length statuses) (client p))
  /\ exists extra,
       emitted (world r.2) = (emitted w ++ extra)%list
       /\ sublist extra (found (client p) statuses).
Proof.
  revert p w sch. induction statuses as [|status statuses IH]; intros p w sch;
    cbn [poll_statuses found length].
  - split; [reflexivity|]. split; [intros _; reflexivity|]. exists [].
    rewrite app_nil_r. split; [reflexivity | constructor].
  - pose proof (GetTasksByStatus_rest (client p) status) as Hrest.
    destruct (GetTasksByStatus (client p) status) as [[tasks err] c']. cbn [snd] in Hrest.
    set (p0 := mkPoller c' (statusFilter p) (interval p) (processedTasks p)).
    assert (Hdrop : forall n, drop n c' = drop (S n) (client p)).
    { intros n. rewrite Hrest, drop_drop. reflexivity. }
    destruct err as [e|].
    { destruct (IH p0 w sch) as (Hf & Hc & extra & He & Hsub).
      split; [exact Hf|]. split; [intros Hflow; rewrite (Hc Hflow); apply Hdrop|].
      exists extra. split; assumption. }
    destruct (poll_tasks_sublist tasks p0 w sch) as (Hc1 & Hf1 & extra1 & He1 & Hsub1).
    destruct (poll_tasks tasks p0 w sch) as [[] st]; cbn [fst snd] in *.
    + destruct (IH (poller st) (world st) (schedule st)) as (Hf & Hc & extra & He & Hsub).
      split; [rewrite Hf; exact Hf1|].
      split; [intros Hflow; rewrite (Hc Hflow), Hc1; apply Hdrop|].
      exists (extra1 ++ extra)%list. rewrite He, He1, <- app_assoc. split; [reflexivity|].
      rewrite Hc1 in Hsub. apply sublist_app; assumption.
    + split; [exact Hf1|]. split; [discriminate|]. exists extra1.
      split; [exact He1 | apply sublist_inserts_r, Hsub1].
    + split; [exact Hf1|]. split; [discriminate|]. exists extra1.
      split; [exact He1 | apply sublist_inserts_r, Hsub1].
Qed.

(** X16. A poll cycle sends nothing but tasks the tracker returned in
    this cycle, in the order it returned them; and a cycle that runs to
    its end has asked the tracker once for every status of the filter,
    also after a query that failed. *)
Theorem poll_emits_found_tasks (p : Poller) (w : World) (sch : list sched) :
  let r := poll p w sch in
  (exists extra,
     emitted (world r.2) = (emitted w ++ extra)%list
     /\ sublist extra (found (client p) (statusFilter p)))
  /\ (r.1 = Completed ->
      client (poller r.2) = drop (length (statusFilter p)) (client p))
  /\ statusFilter (poller r.2) = statusFilter p.
Proof.
  intros r. subst r. unfold poll.
  destruct (poll_statuses_sublist (statusFilter p) p w sch) as (Hf & Hc & Hextra).
  split; [exact Hextra|]. split; [exact Hc | exact Hf].
Qed.

(** *** A channel with room *)

Lemma env_steps_quiet (evs : list event) (w : World) (k : nat) :
  (Cancel ∉ evs) -> done w = false -> room w k ->
  done (fold_left env_step evs w) = false /\ room (fold_left env_step evs w) k.
Proof.
  revert w. induction evs as [|e evs IH]; intros w Hno Hdone Hroom; [split; assumption|].
  apply not_elem_of_cons in Hno as [He Hno]. cbn [fold_left]. apply IH; [exact Hno | |].
  - destruct e; [|congruence]. cbn [env_step]. destruct (buf w); exact Hdone.
  - destruct e; [|congruence]. unfold room in *. cbn [env_step].
    destruct (buf w) as [|t b]; cbn [buf cap receivers length] in *; lia.
Qed.

Lemma room_can_send (w : World) (k : nat) : room w (S k) -> can_send w = true.
Proof.
  unfold room, can_send. intros Hroom. apply orb_true_iff.
  destruct (receivers w) as [|n]; [right | left]; apply Nat.ltb_lt; lia.
Qed.

Lemma send_room (w : World) (task : Task.t) (k : nat) :
  room w (S k) -> room (send w task) k /\ done (send w task) = done w.
Proof.
  unfold room, send. intros Hroom.
  destruct (receivers w) as [|n]; cbn [buf cap receivers done]; [rewrite length_app|];
    cbn [length]; split; try reflexivity; lia.
Qed.

Lemma select_send_ready (w : World) (task : Task.t) (pick : bool) (evs : list event) :
  can_send w = true -> done w = false -> select_send w task pick evs = Sent (send w task).
Proof. intros Hcan Hdone. destruct evs; cbn [select_send]; rewrite Hcan, Hdone; reflexivity. Qed.

(** With room for its tasks and no cancellation the loop over the tasks
    runs to its end; it sends every ticket it marks and marks every
    ticket of its list. *)
Lemma poll_tasks_room (tasks : list Task.t) (p : Poller) (w : World) (sch : list sched)
    (k : nat) :
  done w = false -> no_cancel sch -> room w (length tasks + k) ->
  let r := poll_tasks tasks p w sch in
  r.1 = Completed /\ done (world r.2) = false /\ no_cancel (schedule r.2)
  /\ room (world r.2) k
  /\ exists extra,
       emitted (world r.2) = (emitted w ++ extra)%list
       /\ (forall id, isProcessed p id = false -> isProcessed (poller r.2) id = true ->
                      id ∈ ids extra)
       /\ (forall task, task ∈ tasks ->
                        isProcessed (poller r.2) (Task.JiraTicketID task) = true)
       /\ (forall id, isProcessed p id = true -> isProcessed (poller r.2) id = true).
Proof.
  revert p w sch. induction tasks as [|task tasks IH]; intros p w sch Hdone Hsch Hroom;
    cbn [poll_tasks length] in *.
  - split; [reflexivity|]. split; [exact Hdone|]. split; [exact Hsch|]. split; [exact Hroom|].
    exists []. rewrite app_nil_r. split; [reflexivity|]. split; [|split].
    + cbn [snd poller]. congruence.
    + intros task Hin. apply elem_of_nil in Hin. destruct Hin.
    + auto.
  - destruct (isProcessed p (Task.JiraTicketID task)) eqn:Hfresh.
    { assert (Hroom' : room w (length tasks + k)) by (unfold room in *; lia).
      destruct (IH p w sch Hdone Hsch Hroom')
        as (Hflow & Hd & Hs & Hr & extra & He & Hsent & Hmarked & Hkept).
      split; [exact Hflow|]. split; [exact Hd|]. split; [exact Hs|]. split; [exact Hr|].
      exists extra. split; [exact He|]. split; [exact Hsent|]. split; [|exact Hkept].
      intros t Hin. apply elem_of_cons in Hin as [->|Hin]; [apply Hkept, Hfresh | apply Hmarked, Hin]. }
    set (s := hd idle sch).
    assert (Hs : (Cancel ∉ before s) /\ no_cancel (tl sch)).
    { subst s. destruct sch as [|s0 sch]; cbn [hd tl idle before].
      - split; [apply not_elem_of_nil | constructor].
      - apply Forall_cons in Hsch. exact Hsch. }
    destruct Hs as [Hquiet Htl].
    destruct (env_steps_quiet (before s) w (S (length tasks + k)) Hquiet Hdone Hroom)
      as [Hdone1 Hroom1].
    rewrite (select_send_ready _ task (pick s) (while_blocked s)
               (room_can_send _ _ Hroom1) Hdone1).
    destruct (send_room _ task _ Hroom1) as [Hroom2 Hdone2]. rewrite Hdone1 in Hdone2.
    destruct (IH (markProcessed p (Task.JiraTicketID task)) _ (tl sch) Hdone2 Htl Hroom2)
      as (Hflow & Hd & Hs & Hr & extra & He & Hsent & Hmarked & Hkept).
    split; [exact Hflow|]. split; [exact Hd|]. split; [exact Hs|]. split; [exact Hr|].
    exists (task :: extra). rewrite send_emitted, env_steps_emitted, <- app_assoc in He.
    split; [exact He|]. split; [|split].
    + intros id Hp Hp'. unfold ids. cbn [map].
      destruct (decide (Task.JiraTicketID task = id)) as [->|Hne]; [apply list_elem_of_here|].
      apply list_elem_of_further, Hsent; [|exact Hp'].
      rewrite isProcessed_mark. destruct (decide _); [congruence | exact Hp].
    + intros t Hin. apply elem_of_cons in Hin as [->|Hin]; [|apply Hmarked, Hin].
      apply Hkept. rewrite isProcessed_mark. destruct (decide _); [reflexivity | congruence].
    + intros id Hp. apply Hkept. rewrite isProcessed_mark.
      destruct (decide _); [reflexivity | exact Hp].
Qed.

Lemma poll_statuses_room (statuses : list string) (p : Poller) (w : World)
    (sch : list sched) :
  done w = false -> no_cancel sch -> room w (length (found (client p) statuses)) ->
  let r := poll_statuses statuses p w sch in
  r.1 = Completed
  /\ exists extra,
       emitted (world r.2) = (emitted w ++ extra)%list
       /\ (forall id, isProcessed p id = false -> isProcessed (poller r.2) id = true ->
                      id ∈ ids extra)
       /\ (forall task, task ∈ found (client p) statuses ->
                        isProcessed (poller r.2) (Task.JiraTicketID task) = true)
       /\ (forall id, isProcessed p id = true -> isProcessed (poller r.2) id = true).
Proof.
  revert p w sch. induction statuses as [|status statuses IH]; intros p w sch Hdone Hsch;
    cbn [poll_statuses found].
  - intros _. split; [reflexivity|]. exists []. rewrite app_nil_r. split; [reflexivity|].
    split; [cbn [snd poller]; congruence|]. split; [|auto].
    intros task Hin. apply elem_of_nil in Hin. destruct Hin.
  - destruct (GetTasksByStatus (client p) status) as [[tasks err] c'].
    set (p0 := mkPoller c' (statusFilter p) (interval p) (processedTasks p)).
    destruct err as [e|]; [apply (IH p0 w sch Hdone Hsch)|].
    rewrite length_app. intros Hroom.
    destruct (poll_tasks_sublist tasks p0 w sch) as (Hc1 & _).
    destruct (poll_tasks_room tasks p0 w sch _ Hdone Hsch Hroom)
      as (Hflow & Hd & Hs & Hr & extra1 & He1 & Hsent1 & Hmarked1 & Hkept1).
    destruct (poll_tasks tasks p0 w sch) as [flow st]; cbn [fst snd] in *. subst flow.
    assert (Hr' : room (world st) (length (found (client (poller st)) statuses)))
      by (rewrite Hc1; exact Hr).
    destruct (IH (poller st) (world st) (schedule st) Hd Hs Hr')
      as (Hflow & extra & He & Hsent & Hmarked & Hkept).
    split; [exact Hflow|]. exists (extra1 ++ extra)%list.
    rewrite He, He1, <- app_assoc. split; [reflexivity|]. split; [|split].
    + intros id Hp Hp'. unfold ids. rewrite map_app, elem_of_app.
      destruct (isProcessed (poller st) id) eqn:Hmid.
      * left. apply Hsent1; [exact Hp | exact Hmid].
      * right. apply Hsent; [exact Hmid | exact Hp'].
    + intros task Hin. apply elem_of_app in Hin as [Hin|Hin].
      * apply Hkept, Hmarked1, Hin.
      * apply Hmarked. rewrite Hc1. exact Hin.
    + intros id Hp. apply Hkept, Hkept1, Hp.
Qed.

(** X17. While the context is not cancelled and the channel has room for
    the tasks the tracker returns, a poll cycle runs to its end, marks
    every ticket the tracker returned and sends every ticket it marks:
    nothing is marked and left unsent. *)
Theorem poll_delivers_when_room (p : Poller) (w : World) (sch : list sched) :
  done w = false ->
  no_cancel sch ->
  room w (length (found (client p) (statusFilter p))) ->
  let r := poll p w sch in
  r.1 = Completed
  /\ exists extra,
       emitted (world r.2) = (emitted w ++ extra)%list
       /\ (forall task, task ∈ found (client p) (statusFilter p) ->
                        isProcessed (poller r.2) (Task.JiraTicketID task) = true)
       /\ (forall id, isProcessed p id = false -> isProcessed (poller r.2) id = true ->
                      id ∈ ids extra).
Proof.
  intros Hdone Hsch Hroom r. subst r. unfold poll.
  destruct (poll_statuses_room (statusFilter p) p w sch Hdone Hsch Hroom)
    as (Hflow & extra & He & Hsent & Hmarked & _).
  split; [exact Hflow|]. exists extra. split; [exact He|]. split; assumption.
Qed.

(** X18. [ClearProcessed] forgets every mark: in the next cycle, with the
    context not cancelled and room on the channel, every ticket the
    tracker returns is sent, those sent before included. *)
Theorem ClearProcessed_reemits (p : Poller) (w : World) (sch : list sched) :
  done w = false ->
  no_cancel sch ->
  room w (length (found (client p) (statusFilter p))) ->
  let r := poll (ClearProcessed p) w sch in
  (forall id, isProcessed (ClearProcessed p) id = false)
  /\ exists extra,
       emitted (world r.2) = (emitted w ++ extra)%list
       /\ forall task, task ∈ found (client p) (statusFilter p) ->
                       Task.JiraTicketID task ∈ ids extra.
Proof.
  intros Hdone Hsch Hroom r. subst r. unfold poll.
  assert (Hclear : forall id, isProcessed (ClearProcessed p) id = false).
  { intros id. unfold isProcessed, ClearProcessed. cbn [processedTasks].
    rewrite lookup_empty. reflexivity. }
  split; [exact Hclear|].
  destruct (poll_statuses_room (statusFilter (ClearProcessed p)) (ClearProcessed p) w sch
              Hdone Hsch Hroom)
    as (_ & extra & He & Hsent & Hmarked & _).
  exists extra. split; [exact He|].
  intros task Hin. apply Hsent; [apply Hclear | apply Hmarked, Hin].
Qed.

(** *** How [Start] is left *)

Lemma Start_loop_left (turns : list turn) (p : Poller) (w : World) (sch : list sched) :
  let r := Start_loop turns p w sch in
  (r.1 = Stopped -> done (world r.2) = true)
  /\ (r.1 = Hung -> can_send (world r.2) = false /\ done (world r.2) = false).
Proof.
  revert p w sch. induction turns as [|t turns IH]; intros p w sch; cbn [Start_loop].
  - split; discriminate.
  - set (w1 := fold_left env_step (turn_before t) w).
    destruct (ticked t && (negb (done w1) || turn_pick t)).
    + destruct (poll p w1 sch) as [[] st] eqn:Hpoll; try apply IH.
      cbn [fst snd]. split; [discriminate|]. intros _. eapply poll_blocked_open, Hpoll.
    + destruct (done w1) eqn:Hdone; [|apply IH].
      cbn [fst snd world]. split; [intros _; exact Hdone | discriminate].
Qed.

(** X19. [Start] returns only once the context is cancelled, and it is
    blocked for good only in a send, on a channel that cannot accept,
    with the context not cancelled. *)
Theorem Start_left_only_when_cancelled
    (p : Poller) (w : World) (turns : list turn) (sch : list sched) :
  let r := Start p w turns sch in
  (r.1 = Stopped -> done (world r.2) = true)
  /\ (r.1 = Hung -> can_send (world r.2) = false /\ done (world r.2) = false).
Proof.
  intros r. subst r. unfold Start.
  destruct (poll p w sch) as [[] st] eqn:Hpoll; try apply Start_loop_left.
  cbn [fst snd]. split; [discriminate|]. intros _. eapply poll_blocked_open, Hpoll.
Qed.

End PollCycle.

Lemma poll_delivers_when_room_witness :
  let r := Jira.poll IntakeSpec.poller_behind IntakeSpec.roomy [] in
  r.1 = Jira.Completed
  /\ exists extra,
       Jira.emitted (Jira.world r.2) = ([Sample.task2] ++ extra)%list
       /\ (forall task, task ∈ [Sample.task; Sample.task2] ->
                        Jira.isProcessed (Jira.poller r.2) (Task.JiraTicketID task) = true)
       /\ (forall id, Jira.isProcessed IntakeSpec.poller_behind id = false ->
                      Jira.isProcessed (Jira.poller r.2) id = true ->
                      id ∈ JiraSpec.ids extra).
Proof.
  apply (poll_delivers_when_room IntakeSpec.poller_behind IntakeSpec.roomy []).
  - reflexivity.
  - constructor.
  - vm_compute. lia.
Defined.

Lemma ClearProcessed_reemits_witness :
  let r := Jira.poll (Jira.ClearProcessed IntakeSpec.poller_behind) IntakeSpec.roomy [] in
  (forall id, Jira.isProcessed (Jira.ClearProcessed IntakeSpec.poller_behind) id = false)
  /\ exists extra,
       Jira.emitted (Jira.world r.2) = ([Sample.task2] ++ extra)%list
       /\ forall task, task ∈ [Sample.task; Sample.task2] ->
                       Task.JiraTicketID task ∈ JiraSpec.ids extra.
Proof.
  apply (ClearProcessed_reemits IntakeSpec.poller_behind IntakeSpec.roomy []).
  - reflexivity.
  - constructor.
  - vm_compute. lia.
Defined.

(** After [ClearProcessed] the ticket sent before is sent a second time. *)
Example cleared_poller_sends_again :
  JiraSpec.ids
    (Jira.emitted
       (Jira.world
          (Jira.poll (Jira.ClearProcessed IntakeSpec.poller_behind) IntakeSpec.roomy []).2))
  = ["PROJ-43"; "PROJ-42"; "PROJ-43"].
Proof. reflexivity. Qed.

(** * The requests of the orchestrator *)

Section Dispatch.
Context {P : Type} `{Planner.Planner P}.
Import Leader LeaderSpec DispatchSpec.

Lemma StartWorkflow_queue (c : Temporal.Client) (task : Task.t)
    (plan : ImplementationPlan.t) (repo : RepositoryInfo.t) :
  Temporal.taskQueue (Temporal.StartWorkflow c task plan repo).2 = Temporal.taskQueue c.
Proof.
  unfold Temporal.StartWorkflow.
  destruct (Temporal.ExecuteWorkflow _ _ _) as [[we [e|]] svc]; reflexivity.
Qed.

(** What one received task adds: at most one request, for this task, and
    one entry that closes it, [Started] only after a request. *)
Lemma after_task_request (o : Orchestrator) (task : Task.t) :
  let o1 := after_task o task in
  let queue := Temporal.taskQueue (temporalClient o) in
  Temporal.taskQueue (temporalClient o1) = queue
  /\ (exists planned,
        Temporal.requests (Temporal.temporalClient (temporalClient o1))
        = (Temporal.requests (Temporal.temporalClient (temporalClient o))
           ++ map (request_for queue) planned)%list
        /\ sublist (map fst planned) [task]
        /\ (length (started (logger o1)) <= length (started (logger o)) + length planned)%nat)
  /\ (length (started (logger o1)) + length (failures (logger o1))
      = length (started (logger o)) + length (failures (logger o)) + 1)%nat.
Proof.
  unfold after_task, processTask, log, started, failures.
  cbn [logger planner temporalClient].
  destruct (Planner.Plan (planner o) task) as [[plan|e] planner'];
    cbn [logger planner temporalClient fst snd].
  - pose proof (StartWorkflow_request (temporalClient o) task plan (repository_of task)) as Hreq.
    pose proof (StartWorkflow_queue (temporalClient o) task plan (repository_of task)) as Hq.
    unfold repository_of in Hreq, Hq.
    destruct (Temporal.StartWorkflow _ _ _ _) as [[workflowID|e] c'];
      cbn [logger planner temporalClient fst snd] in *;
      (split; [exact Hq|]); (split; [exists [(task, plan)]; split; [exact Hreq|]; split;
                                      [apply sublist_skip, sublist_nil|]|]);
      rewrite ?flat_map_app, ?length_app; cbn [flat_map app length]; lia.
  - split; [reflexivity|]. split.
    + exists []. cbn [map]. rewrite app_nil_r. split; [reflexivity|]. split; [apply sublist_nil_l|].
      rewrite ?flat_map_app, ?length_app; cbn [flat_map app length]; lia.
    + rewrite ?flat_map_app, ?length_app; cbn [flat_map app length]; lia.
Qed.

(** X20. Every request the loop of [Start] sends to Temporal is the
    request for a task it received, in the order received and at most one
    per task: its workflow ID is ["implementation-"] + ticket + ["-"] +
    repository name, its queue the queue of the client, its repository
    the owner, name, base branch and URL of the task with no feature
    branch. Every received task is closed by one log entry, started or
    failed, and no run is logged as started without a request. *)
Theorem Start_requests_follow_tasks (o : Orchestrator) (turns : list fired) :
  let o' := (Start o turns).2 in
  let queue := Temporal.taskQueue (temporalClient o) in
  Temporal.taskQueue (temporalClient o') = queue
  /\ (exists planned,
        Temporal.requests (Temporal.temporalClient (temporalClient o'))
        = (Temporal.requests (Temporal.temporalClient (temporalClient o))
           ++ map (request_for queue) planned)%list
        /\ sublist (map fst planned) (received turns)
        /\ (length (started (logger o')) <= length (started (logger o)) + length planned)%nat)
  /\ (length (started (logger o')) + length (failures (logger o'))
      = length (started (logger o)) + length (failures (logger o))
        + length (received turns))%nat.
Proof.
  revert o. induction turns as [|[cause|task] turns IH]; intros o.
  - cbn [Start snd received length]. split; [reflexivity|]. split; [|lia].
    exists []. cbn [map]. rewrite app_nil_r. split; [reflexivity|]. split; [constructor | cbn [length]; lia].
  - cbn [Start snd received length]. split; [reflexivity|]. split; [|lia].
    exists []. cbn [map]. rewrite app_nil_r. split; [reflexivity|]. split; [constructor | cbn [length]; lia].
  - rewrite Start_received. cbn [received length].
    destruct (after_task_request o task) as (Hq1 & (planned1 & Hreq1 & Hsub1 & Hlen1) & Hcount1).
    destruct (IH (after_task o task)) as (Hq & (planned & Hreq & Hsub & Hlen) & Hcount).
    cbn zeta in *. rewrite Hq1 in Hq, Hreq.
    split; [exact Hq|]. split; [|lia].
    exists (planned1 ++ planned)%list. rewrite Hreq, Hreq1, !map_app, <- app_assoc.
    split; [reflexivity|]. split; [|rewrite length_app; lia].
    change (task :: received turns) with ([task] ++ received turns)%list.
    apply sublist_app; assumption.
Qed.

End Dispatch.

(** The sample orchestrator, rate-limited while it plans PROJ-42, sends
    one request, for PROJ-43. *)
Example orchestrator_requests :
  map (fun r => Temporal.StartWorkflowOptions.ID r.1)
    (Temporal.requests
       (Temporal.temporalClient
          (Leader.temporalClient
             (Leader.Start Sample.orchestrator
                [Leader.Received Sample.task; Leader.Received Sample.task2]).2)))
  = ["implementation-PROJ-43-app"].
Proof. vm_compute. reflexivity. Qed.

(** * The activities *)

Section ActivityOutcomes.
Import Activities.

(** X21. An activity over the package handlers reports success exactly
    when its handler is set and it returns no error; the error it returns
    is the message of its result, and a result with an error carries no
    review request. With the handler unset it reports no success and no
    error. *)
Theorem activity_success_iff_no_error
    (g : globals) (repo : RepositoryInfo.t)
    (branchName repoPath message title description ticketID prURL : string) :
  Forall (fun r : GitHubOperationResult.t * option error =>
            (GitHubOperationResult.Success r.1 = true
             <-> githubActivities g <> None /\ r.2 = None)
            /\ (forall e, r.2 = Some e ->
                          GitHubOperationResult.Message r.1 = e
                          /\ GitHubOperationResult.PRInfo r.1 = None)
            /\ (githubActivities g = None -> r.2 = None))
    [CloneRepositoryActivity g repo; CreateBranchActivity g repo branchName;
     CommitChangesActivity g repo repoPath message; CreatePRActivity g repo title description]
  /\ (let r := UpdateJiraActivity g ticketID prURL in
      (JiraUpdateResult.Success r.1 = true <-> jiraActivities g <> None /\ r.2 = None)
      /\ (forall e, r.2 = Some e -> JiraUpdateResult.Message r.1 = e)
      /\ (jiraActivities g = None -> r.2 = None)).
Proof.
  destruct g as [[ga|] [ja|]];
    unfold CloneRepositoryActivity, CreateBranchActivity, CommitChangesActivity,
      CreatePRActivity, UpdateJiraActivity, GitHubActivities_CloneRepositoryActivity,
      GitHubActivities_CreateBranchActivity, GitHubActivities_CommitChangesActivity,
      GitHubActivities_CreatePRActivity, JiraActivities_UpdateJiraActivity,
      github_not_initialized, failed;
    cbn [githubActivities jiraActivities].
  all: split; [repeat apply Forall_cons_2; [..|apply Forall_nil_2]|].
  all: repeat match goal with
              | |- context [CloneRepository ?c ?x ?y ?z] =>
                destruct (CloneRepository c x y z) as [? [?|]]
              | |- context [CreateBranch ?c ?x ?y ?z] => destruct (CreateBranch c x y z)
              | |- context [CommitChanges ?c ?x ?y] => destruct (CommitChanges c x y)
              | |- context [PushBranch ?c ?x ?y] => destruct (PushBranch c x y)
              | |- context [CreatePullRequest ?c ?x ?y ?z ?u ?v ?w] =>
                destruct (CreatePullRequest c x y z u v w) as [? [?|]]
              | |- context [AddComment ?c ?x ?y] => destruct (AddComment c x y)
              end.
  all: cbn [fst snd GitHubOperationResult.Success GitHubOperationResult.Message
            GitHubOperationResult.PRInfo JiraUpdateResult.Success JiraUpdateResult.Message].
  all: split; [split; [intros ?; try discriminate; split; congruence
                      | intros [? ?]; congruence]|].
  all: split; [intros ? [= <-]; try split; reflexivity | congruence].
Qed.

End ActivityOutcomes.

Section TestingOutcome.
Import Activities Testing.

(** X22. [TestingActivity] never returns an error. It reports failure
    exactly when the [go] tool is found, the pattern of Go files is well
    formed and the test run fails, whatever files the pattern matches;
    the single failure it then lists is the error of the run. In every
    other case it reports that the tests passed, with no failure
    listed. *)
Theorem TestingActivity_never_fails (h : Host) (repoPath : string) :
  let r := TestingActivity h repoPath in
  let ran :=
    (LookPath h "go").2 = None /\ (Glob h (Join h [repoPath; "*.go"])).2 = None in
  r.2 = None
  /\ (TestingResult.Passed r.1 = false <-> ran /\ (GoTest h repoPath).2 <> None)
  /\ (forall e, ran -> (GoTest h repoPath).2 = Some e -> TestingResult.Failures r.1 = [e])
  /\ (TestingResult.Passed r.1 = true -> TestingResult.Failures r.1 = [])
  /\ (ran -> TestingResult.Output r.1 = (GoTest h repoPath).1).
Proof.
  intros r ran. subst r ran. unfold TestingActivity.
  destruct (LookPath h "go") as [path [e1|]]; cbn [fst snd];
    [|destruct (Glob h _) as [matches [e2|]]; cbn [fst snd];
      [|destruct (GoTest h repoPath) as [output [e3|]]]];
    cbn [fst snd TestingResult.Passed TestingResult.Failures TestingResult.Output app].
  all: split; [reflexivity|].
  all: split; [split; [intros ?; try discriminate; repeat split; congruence
                      | intros [[? ?] ?]; congruence]|].
  all: split; [intros e [? ?] ?; congruence|].
  all: split; [intros ?; try discriminate; reflexivity|].
  all: intros [? ?]; congruence.
Qed.

End TestingOutcome.

Section ReviewRequest.
Import Workflows.

(** The client returns a review request whenever it returns no error. *)
Lemma CreatePullRequest_returns (create : GithubClient.Create)
    (owner repo baseBranch headBranch title body : string) :
  let r := GithubClient.CreatePullRequest create owner repo baseBranch headBranch title body in
  r.2 = None <-> r.1 <> None.
Proof.
  unfold GithubClient.CreatePullRequest.
  destruct (create owner repo _) as [pr [e|]]; cbn [fst snd]; split; congruence.
Qed.

(** A registry whose step 6 never hands back neither an error nor a
    review request runs without a panic. *)
Lemma run_without_panic (reg : Registry) (input : WorkflowInput.t) :
  (forall repo title description,
     (CreatePRActivity reg repo title description).2 = None ->
     Activities.GitHubOperationResult.PRInfo (CreatePRActivity reg repo title description).1
     <> None) ->
  forall msg, (run reg input).1 <> Panic msg.
Proof.
  intros Hpr msg. wf_cases reg; cbn [fst]; try discriminate.
  all: exfalso;
    match goal with
    | H : CreatePRActivity _ ?a ?b ?c = _ |- _ =>
      specialize (Hpr a b c); rewrite H in Hpr; cbn in Hpr; apply Hpr; reflexivity
    end.
Qed.

(** X23. Over the GitHub client of the repository a run never ends in a
    panic: with the GitHub handler set, [CreatePullRequest] hands back a
    review request whenever it hands back no error, so the workflow
    always finds the URL it reads after step 6. *)
Theorem no_panic_with_github_client
    (client : Activities.GithubClient) (create : GithubClient.Create)
    (jira : option Activities.JiraActivities)
    (codegen : Task.t -> ImplementationPlan.t -> string ->
               Activities.CodeGenerationResult.t * option error)
    (testing : string -> Activities.TestingResult.t * option error)
    (input : WorkflowInput.t) :
  Activities.CreatePullRequest client = GithubClient.CreatePullRequest create ->
  let reg :=
    registered (Activities.mkGlobals (Some (Activities.mkGitHubActivities client)) jira)
      codegen testing in
  forall msg, (run reg input).1 <> Panic msg.
Proof.
  intros Hclient reg. apply run_without_panic. intros repo title description.
  subst reg. unfold registered. cbn [CreatePRActivity].
  unfold Activities.CreatePRActivity, Activities.GitHubActivities_CreatePRActivity,
    Activities.failed.
  cbn [Activities.githubActivities Activities.githubClient]. rewrite Hclient.
  pose proof (CreatePullRequest_returns create (RepositoryInfo.Owner repo)
                (RepositoryInfo.Name repo) (RepositoryInfo.BaseBranch repo)
                (RepositoryInfo.FeatureBranch repo) title description) as Hret.
  cbn zeta in Hret.
  destruct (GithubClient.CreatePullRequest create _ _ _ _ _ _) as [prInfo [e|]];
    cbn [fst snd Activities.GitHubOperationResult.PRInfo] in *; [discriminate|].
  intros _. apply Hret. reflexivity.
Qed.

End ReviewRequest.

Lemma no_panic_with_github_client_witness :
  Activities.CreatePullRequest GithubClient.sample
  = GithubClient.CreatePullRequest GithubClient.hosting
  /\ (Workflows.run
        (Workflows.registered
           (Activities.mkGlobals (Some (Activities.mkGitHubActivities GithubClient.sample)) None)
           Sample.codegen_ok Sample.tests_ok)
        Sample.input).1
     <> Workflows.Panic "invalid memory address or nil pointer dereference".
Proof.
  split; [reflexivity|].
  apply (no_panic_with_github_client GithubClient.sample GithubClient.hosting None
           Sample.codegen_ok Sample.tests_ok Sample.input).
  reflexivity.
Defined.

(** * The manual triggers *)

Section ManualTriggers.

(** X24. A manual start. A body that cannot be decoded is answered with
    status 400 and nothing is sent to Temporal. Otherwise the REST
    handler and the gRPC server, given the same four fields, send the
    same single request: the workflow ID is ["implementation-"] + ticket
    + ["-"] + repository name, the task has no title and no description,
    the plan has the summary ["Manual workflow trigger"] and no step, and
    the clone URL is ["https://github.com/"] + owner + ["/"] + name. The
    REST handler answers 500 with the error the gRPC server returns, or
    the same workflow ID with the status ["started"]. *)
Theorem manual_start_request (decode : Rest.Decoder) (c : Temporal.Client) (body : string) :
  let req := (decode body).1 in
  let ticket := Rest.StartWorkflowRequest.JiraTicketID req in
  let owner := Rest.StartWorkflowRequest.RepositoryOwner req in
  let name := Rest.StartWorkflowRequest.RepositoryName req in
  let base := Rest.StartWorkflowRequest.BaseBranch req in
  let rest := Rest.StartWorkflow decode c body in
  let grpc := Grpc.StartWorkflow c (Grpc.StartWorkflowRequest.mk ticket owner name base) in
  (forall e, (decode body).2 = Some e ->
             rest = (Rest.HttpError e Rest.StatusBadRequest, c))
  /\ ((decode body).2 = None ->
      rest.2 = grpc.2
      /\ match grpc.1 with
         | (Some resp, None) =>
           rest.1 = Rest.Json (Rest.StartWorkflowResponse.mk
                                 (Grpc.StartWorkflowResponse.WorkflowId resp) "started")
           /\ Grpc.StartWorkflowResponse.Status resp = "started"
         | (None, Some e) =>
           rest.1 = Rest.HttpError e Rest.StatusInternalServerError
           /\ String.prefix "failed to start workflow: " e = true
         | _ => False
         end)
  /\ Temporal.requests (Temporal.temporalClient grpc.2)
     = (Temporal.requests (Temporal.temporalClient c)
        ++ [(Temporal.StartWorkflowOptions.mk
               ("implementation-" +:+ ticket +:+ "-" +:+ name) (Temporal.taskQueue c),
             Workflows.WorkflowInput.mk
               (Task.mk ticket "" "" "" "" owner name "" base 0)
               (ImplementationPlan.mk "Manual workflow trigger" [] [] [] "")
               (RepositoryInfo.mk owner name base ""
                  ("https://github.com/" +:+ owner +:+ "/" +:+ name)))])%list.
Proof.
  intros req ticket owner name base rest grpc.
  subst rest grpc base name owner ticket req.
  unfold Rest.StartWorkflow, Grpc.StartWorkflow.
  cbn [Grpc.StartWorkflowRequest.JiraTicketId Grpc.StartWorkflowRequest.RepositoryOwner
       Grpc.StartWorkflowRequest.RepositoryName Grpc.StartWorkflowRequest.BaseBranch].
  destruct (decode body) as [req err]. cbn [fst snd].
  match goal with
  | |- context [Temporal.StartWorkflow c ?task ?plan ?repo] =>
    pose proof (StartWorkflow_request c task plan repo) as Hreq;
    assert (Hpre : forall e, (Temporal.StartWorkflow c task plan repo).1 = inr e ->
                             String.prefix "failed to start workflow: " e = true);
    [|destruct (Temporal.StartWorkflow c task plan repo) as [[workflowID|e] c']]
  end.
  { intros e. unfold Temporal.StartWorkflow.
    destruct (Temporal.ExecuteWorkflow _ _ _) as [[we [e0|]] svc]; cbn [fst]; [|discriminate].
    intros [= <-]. apply prefix_app. }
  - cbn [fst snd] in *. split; [intros e ->; reflexivity|].
    split; [|exact Hreq]. intros ->. cbn [fst snd]. repeat split; reflexivity.
  - cbn [fst snd] in *. split; [intros e0 ->; reflexivity|].
    split; [|exact Hreq]. intros ->. cbn [fst snd]. split; [reflexivity|].
    split; [reflexivity | apply Hpre; reflexivity].
Qed.

(** X25. The status of a workflow is reported as ["running"] for every
    workflow ID, by the REST handler and by the gRPC server: the client
    never returns the error on which they would answer 404 or
    ["not_found"]. *)
Theorem workflow_status_always_running (sdk : TemporalRuns.Sdk) (workflowID : string) :
  (TemporalRuns.GetWorkflowStatus sdk workflowID).2 = None
  /\ Rest.GetWorkflowStatus sdk workflowID
     = Rest.Json (Rest.GetWorkflowStatusResponse.mk workflowID "running" "" "" "")
  /\ Grpc.GetWorkflowStatus sdk workflowID
     = (Grpc.GetWorkflowStatusResponse.mk workflowID "running" "", None).
Proof. repeat split. Qed.

(** X26. A cancellation asks for the handle of the workflow ID, with an
    empty run ID, and cancels it. The gRPC server never returns an error:
    it reports success exactly when the cancellation went through, which
    is when the REST handler answers 200, and the message of a failure is
    the error the REST handler answers 500 with. *)
Theorem cancel_answers_agree (sdk : TemporalRuns.Sdk) (workflowID : string) :
  let outcome := TemporalRuns.Cancel sdk (TemporalRuns.GetWorkflow sdk workflowID "") in
  let rest := Rest.CancelWorkflow sdk workflowID in
  let grpc := Grpc.CancelWorkflow sdk workflowID in
  grpc.2 = None
  /\ (Grpc.CancelWorkflowResponse.Success grpc.1 = true <-> outcome = None)
  /\ (outcome = None <-> exists body, rest = Rest.Body Rest.StatusOK body)
  /\ (forall e, outcome = Some e <->
                rest = Rest.HttpError e Rest.StatusInternalServerError
                /\ grpc.1 = Grpc.CancelWorkflowResponse.mk false e).
Proof.
  intros outcome rest grpc. subst outcome rest grpc.
  unfold Rest.CancelWorkflow, Grpc.CancelWorkflow, TemporalRuns.CancelWorkflow.
  destruct (TemporalRuns.Cancel sdk _) as [e|]; cbn [fst snd Grpc.CancelWorkflowResponse.Success].
  - split; [reflexivity|]. split; [split; discriminate|].
    split; [split; [discriminate | intros [b Hb]; discriminate]|].
    intros e0. split; [intros [= ->]; split; reflexivity | intros [[= ->] _]; reflexivity].
  - split; [reflexivity|]. split; [split; reflexivity|].
    split; [split; [intros _; eexists; reflexivity | reflexivity]|].
    intros e0. split; [discriminate | intros [Hrest _]; discriminate].
Qed.

End ManualTriggers.

(** * The number of a step *)

Section StepNumber.
Import GoStrings.

Lemma Index_at_char (head rest : string) (c : ascii) (i : Z) :
  (c ∉ list_ascii_of_string head) ->
  Index_at (head +:+ String c rest) (String c "") i = i + Z.of_nat (String.length head).
Proof.
  revert i. induction head as [|a head IH]; intros i Hno.
  - rewrite str_app_nil_l. cbn [Index_at String.prefix String.length].
    destruct (ascii_dec c c); [|congruence]. destruct rest; cbn [String.prefix]; lia.
  - cbn [list_ascii_of_string] in Hno. apply not_elem_of_cons in Hno as [Hne Hno].
    rewrite str_app_cons. cbn [Index_at String.prefix].
    destruct (ascii_dec c a); [congruence|].
    rewrite (IH (i + 1) Hno). cbn [String.length]. lia.
Qed.

(** X27. [parseStep] takes everything up to the first period of a step
    line for the number of the step and drops it, whether or not it is a
    number: the description of a line without type annotation after the
    period is what follows the first period, and the type ["codegen"]. *)
Theorem parseStep_cuts_at_first_period (line head rest : string) (order : Z) :
  TrimSpace line = head +:+ "." +:+ rest ->
  "."%char ∉ list_ascii_of_string head ->
  Index (TrimSpace rest) "[TYPE:" = -1 ->
  Planner.parseStep line order = Some (PlanStep.mk order (TrimSpace rest) "codegen" ∅).
Proof.
  intros Hline Hhead Huntyped. unfold Planner.parseStep. rewrite Hline.
  change (head +:+ "." +:+ rest) with (head +:+ String "." rest).
  assert (Hi : Index (head +:+ String "." rest) "." = Z.of_nat (String.length head)).
  { unfold Index. rewrite Index_at_char by exact Hhead. lia. }
  assert (Hidx : (Z.of_nat (String.length head) =? -1) = false) by (apply Z.eqb_neq; lia).
  assert (Hcut : slice_from (head +:+ String "." rest)
                   (Z.to_nat (Z.of_nat (String.length head) + 1)) = rest).
  { replace (Z.to_nat (Z.of_nat (String.length head) + 1))
      with (String.length (head +:+ ".")) by (rewrite str_length_app; cbn [String.length]; lia).
    rewrite <- (slice_from_app (head +:+ ".") rest) at 2.
    rewrite str_app_assoc. reflexivity. }
  rewrite !Hi, !Hidx, !Hcut, Huntyped. reflexivity.
Qed.

End StepNumber.

Lemma parseStep_cuts_at_first_period_witness :
  Planner.parseStep "Update README.md" 3
  = Some (PlanStep.mk 3 (GoStrings.TrimSpace "md") "codegen" ∅).
Proof.
  apply (parseStep_cuts_at_first_period "Update README.md" "Update README" "md" 3).
  - reflexivity.
  - intros Hin. cbn [list_ascii_of_string] in Hin.
    repeat (apply elem_of_cons in Hin as [Hin|Hin]; [discriminate|]).
    apply elem_of_nil in Hin. exact Hin.
  - reflexivity.
Defined.

(** A step that names a file keeps the extension of the file only. *)
Example step_description_cut :
  option_map PlanStep.Description (Planner.parseStep "Update README.md" 3) = Some "md".
Proof. reflexivity. Qed.
